(** * Statistical Feature Builder: the statistical core

    A shallow embedding of [app/core/statistics.py] (class
    [StatisticalEngine]) and [app/core/processor.py] (class [DataProcessor]),
    with the properties of the specification stated and proved over it.

    Numbers.  A Python float is modelled as an extended real ([pyfloat]):
    a finite value, NaN, or one of the two infinities.  The engine is only
    ever reached with arrays that passed [validate_data], so its arithmetic
    is modelled on the finite values, as exact real arithmetic ([R]):
    rounding, overflow and the NaN a zero division produces in numpy are not
    modelled (in [R], [x / 0 = 0]).

    Library calls.  [np.mean], [np.var], [np.std], [np.percentile],
    [np.median], [np.min], [np.max], [stats.skew], [stats.kurtosis] and the
    least-squares fit of [LinearRegression] are modelled by the formulas their
    documentation gives for the arguments the code passes.  The Shapiro-Wilk
    test, the two correlation tests and the builtin [float] are parameters of
    the development.

    Schemas.  The schema classes of [app/models/schemas.py] are records; a
    schema built from the dictionary of the engine keeps its fields as they
    are.  The two validations that can fail on a decoded JSON document are
    modelled: the timestamp of an [Outlier] and the data of a
    [GenerateRequest]. *)

From Stdlib Require Import Reals Lra Lia String Ascii ZArith Bool List.
From Stdlib Require Import Permutation Sorted.
Import ListNotations.
Set Warnings "-register-all".
Open Scope string_scope.
Open Scope list_scope.
Open Scope R_scope.

(** ** Python results: a value, or a raised exception *)

(** The two classes of exception the code tells apart ([except ValueError]
    before [except Exception]), each with the text [str(e)] gives. *)
Inductive exn : Type :=
| ValueError (msg : string)
| OtherError (msg : string).

Inductive result (A : Type) : Type :=
| Ok (a : A)
| Raise (e : exn).

Arguments Ok {A} a.
Arguments Raise {A} e.

Definition bind {A B : Type} (m : result A) (k : A -> result B) : result B :=
  match m with
  | Ok a => k a
  | Raise e => Raise e
  end.

Notation "x <- m ;; k" := (bind m (fun x => k))
  (at level 61, m at next level, right associativity).

(** [try: m except Exception: h e]. *)
Definition try_except {A : Type} (m : result A) (h : exn -> result A) : result A :=
  match m with
  | Ok a => Ok a
  | Raise e => h e
  end.

Definition is_ok {A : Type} (m : result A) : bool :=
  match m with
  | Ok _ => true
  | Raise _ => false
  end.

(** ** Floats *)

Inductive pyfloat : Type :=
| Finite (r : R)
| NaN
| PosInf
| NegInf.

Definition isnan (f : pyfloat) : bool :=
  match f with
  | NaN => true
  | _ => false
  end.

Definition isinf (f : pyfloat) : bool :=
  match f with
  | PosInf | NegInf => true
  | _ => false
  end.

Definition isfinite (f : pyfloat) : bool :=
  match f with
  | Finite _ => true
  | _ => false
  end.

(** The real number a validated float stands for. *)
Definition real_of (f : pyfloat) : R :=
  match f with
  | Finite r => r
  | _ => 0
  end.

(** Comparisons of reals as booleans ([<] and [==] of Python). *)
Definition Rltb (x y : R) : bool := if Rlt_dec x y then true else false.
Definition Reqb (x y : R) : bool := if Req_dec_T x y then true else false.

(** ** Python values and dictionaries *)

(** What a decoded JSON document holds. *)
Inductive pyobj : Type :=
| PyNone
| PyBool (b : bool)
| PyInt (z : Z)
| PyFloat (f : pyfloat)
| PyStr (s : string)
| PyList (l : list pyobj)
| PyDict (d : list (string * pyobj)).

(** A [dict] keeps its keys in insertion order: an association list whose
    keys are pairwise distinct. *)
Definition dict (V : Type) : Type := list (string * V).

Fixpoint dict_get {V : Type} (d : dict V) (k : string) : option V :=
  match d with
  | [] => None
  | (k', v) :: t => if String.eqb k k' then Some v else dict_get t k
  end.

(** [d[k] = v]: the value of a present key is replaced where it stands, a
    new key goes to the end. *)
Fixpoint dict_set {V : Type} (d : dict V) (k : string) (v : V) : dict V :=
  match d with
  | [] => [(k, v)]
  | (k', v') :: t =>
      if String.eqb k k' then (k', v) :: t else (k', v') :: dict_set t k v
  end.

Definition dict_keys {V : Type} (d : dict V) : list string := map fst d.

Definition dict_mem {V : Type} (d : dict V) (k : string) : bool :=
  match dict_get d k with
  | Some _ => true
  | None => false
  end.

(** [point.get(k)]: [None] for a missing key. *)
Definition py_get (d : dict pyobj) (k : string) : pyobj :=
  match dict_get d k with
  | Some v => v
  | None => PyNone
  end.

(** ** numpy *)

Module np.

Definition sum (data : list R) : R := fold_right Rplus 0 data.

(** [np.mean(data)]. *)
Definition mean (data : list R) : R := sum data / INR (length data).

(** [np.var(data, ddof=1)]: the squared deviations from the mean, summed and
    divided by [n - ddof]. *)
Definition var (data : list R) (ddof : nat) : R :=
  let m := mean data in
  sum (map (fun x => (x - m) * (x - m)) data) / INR (length data - ddof).

(** [np.std(data, ddof=1)]. *)
Definition std (data : list R) (ddof : nat) : R := sqrt (var data ddof).

Fixpoint insert (x : R) (l : list R) : list R :=
  match l with
  | [] => [x]
  | y :: t => if Rle_dec x y then x :: y :: t else y :: insert x t
  end.

(** [np.sort(data)]. *)
Fixpoint sort (data : list R) : list R :=
  match data with
  | [] => []
  | x :: t => insert x (sort t)
  end.

(** numpy's [_lerp]. *)
Definition lerp (a b t : R) : R := a + (b - a) * t.

(** The value at position [k / 100] of the sorted array [s], interpolated
    linearly between the two neighbouring order statistics (the upper one
    clipped to the last index). *)
Definition interpolate (s : list R) (k : nat) : R :=
  let lo := (k / 100)%nat in
  let hi := Nat.min (lo + 1) (length s - 1) in
  lerp (nth lo s 0) (nth hi s 0) (INR (k mod 100) / 100).

(** [np.percentile(data, q)] for a whole percentage [q], default method
    ("linear"): the virtual index is [(n - 1) * q / 100]. *)
Definition percentile (data : list R) (q : nat) : R :=
  interpolate (sort data) ((length data - 1) * q).

(** [np.median(data)]: the middle order statistic, or the mean of the two
    middle ones. *)
Definition median (data : list R) : R :=
  let s := sort data in
  let k := (length data / 2)%nat in
  if Nat.even (length data) then (nth (k - 1) s 0 + nth k s 0) / 2
  else nth k s 0.

(** [np.min] and [np.max] of a non-empty array [x :: t]. *)
Definition amin (x : R) (t : list R) : R := fold_right Rmin x t.
Definition amax (x : R) (t : list R) : R := fold_right Rmax x t.

(** The [ValueError] numpy raises on a reduction of a zero-size array. *)
Definition zero_size_array : exn :=
  ValueError "zero-size array to reduction operation minimum which has no identity".

End np.

(** ** scipy.stats *)

Module stats.

(** The [k]-th central moment, with denominator [n] ([scipy.stats.moment]). *)
Definition moment (k : nat) (data : list R) : R :=
  let m := np.mean data in
  np.sum (map (fun x => (x - m) ^ k) data) / INR (length data).

(** [stats.skew(data)], with the defaults [bias=True]: [m3 / m2**1.5]. *)
Definition skew (data : list R) : R :=
  let m2 := moment 2 data in
  moment 3 data / (m2 * sqrt m2).

(** [stats.kurtosis(data)], with the defaults [fisher=True, bias=True]:
    [m4 / m2**2 - 3]. *)
Definition kurtosis (data : list R) : R :=
  let m2 := moment 2 data in
  moment 4 data / (m2 * m2) - 3.

End stats.

(** ** The estimators the specification names

    Written from the specification's words, to compare with what the engine
    computes: the variance with denominator [n - 1] (sample) and with
    denominator [n] (population); the Fisher-Pearson coefficient of skewness
    [g1] and the excess kurtosis [g2], both from the central moments with
    denominator [n]; and their bias-adjusted forms [G1] and [G2]. *)

Module Textbook.

Definition sum_of_powers (k : nat) (data : list R) : R :=
  let m := np.mean data in
  fold_right (fun x acc => (x - m) ^ k + acc) 0 data.

Definition sample_variance (data : list R) : R :=
  sum_of_powers 2 data / (INR (length data) - 1).

Definition population_variance (data : list R) : R :=
  sum_of_powers 2 data / INR (length data).

Definition central_moment (k : nat) (data : list R) : R :=
  sum_of_powers k data / INR (length data).

Definition g1 (data : list R) : R :=
  central_moment 3 data / sqrt (central_moment 2 data) ^ 3.

Definition g2 (data : list R) : R :=
  central_moment 4 data / central_moment 2 data ^ 2 - 3.

Definition G1 (data : list R) : R :=
  let n := INR (length data) in
  sqrt (n * (n - 1)) / (n - 2) * g1 data.

Definition G2 (data : list R) : R :=
  let n := INR (length data) in
  (n - 1) / ((n - 2) * (n - 3)) * ((n + 1) * g2 data + 6).

End Textbook.

(** ** sklearn.linear_model.LinearRegression *)

Module LinearRegression.

Record t : Type := mk { coef_ : R; intercept_ : R }.

(** [LinearRegression().fit(X, y)] for [X = np.arange(n).reshape(-1, 1)] and
    [y = data.reshape(-1, 1)]: ordinary least squares with an intercept. *)
Definition fit (y : list R) : t :=
  let xs := map INR (seq 0 (length y)) in
  let xbar := np.mean xs in
  let ybar := np.mean y in
  let sxy := np.sum (map (fun p => (fst p - xbar) * (snd p - ybar)) (combine xs y)) in
  let sxx := np.sum (map (fun x => (x - xbar) * (x - xbar)) xs) in
  let slope := sxy / sxx in
  mk slope (ybar - slope * xbar).

(** [model.predict([[x]])]. *)
Definition predict (model : t) (x : R) : R := intercept_ model + coef_ model * x.

(** [model.score(X, y)]: the coefficient of determination; a constant [y],
    fitted exactly, scores 1. *)
Definition score (model : t) (y : list R) : R :=
  let xs := map INR (seq 0 (length y)) in
  let ybar := np.mean y in
  let ss_res :=
    np.sum (map (fun p => (snd p - predict model (fst p)) * (snd p - predict model (fst p)))
                (combine xs y)) in
  let ss_tot := np.sum (map (fun v => (v - ybar) * (v - ybar)) y) in
  if Reqb ss_tot 0 then (if Reqb ss_res 0 then 1 else 0) else 1 - ss_res / ss_tot.

(** The [ValueError] [fit] raises on an array with no sample. *)
Definition no_sample : exn :=
  ValueError "Found array with 0 sample(s) while a minimum of 1 is required by LinearRegression.".

End LinearRegression.

(** ** The result structures ([app/models/schemas.py]) *)

Module Statistics.
Record t : Type := mk {
  count : Z;
  mean : R;
  median : R;
  min : R;
  max : R;
  std_dev : R;
  variance : R;
  q1 : R;
  q3 : R;
  iqr : R;
  skewness : R;
  kurtosis : R
}.
End Statistics.

Module Trends.
Record t : Type := mk {
  day_over_day_pct : option R;
  month_over_month_pct : option R;
  regression_slope : R;
  regression_intercept : R;
  r_squared : R;
  forecast_next_period : R;
  trend_direction : string
}.
End Trends.

(** An outlier as [detect_outliers] builds it (a dictionary), and as the
    schema [Outlier] keeps it. *)
Module OutlierDict.
Record t : Type := mk {
  index : Z;
  value : R;
  z_score : R;
  is_extreme : bool;
  timestamp : pyobj
}.
End OutlierDict.

Module Outlier.
Record t : Type := mk {
  index : Z;
  value : R;
  z_score : R;
  is_extreme : bool;
  timestamp : option string
}.
End Outlier.

Module Correlation.
Record t : Type := mk {
  coefficient : R;
  p_value : R;
  is_significant : bool
}.
End Correlation.

(** One entry of the correlation map: [{"pearson": ..., "spearman": ...}]. *)
Module PairCorrelation.
Record t : Type := mk {
  pearson : Correlation.t;
  spearman : Correlation.t
}.
End PairCorrelation.

Module StatisticalPackage.
Record t : Type := mk {
  statistics : Statistics.t;
  trends : Trends.t;
  correlations : option (dict Correlation.t);
  outliers : list Outlier.t;
  distribution_type : string;
  normality_test_p_value : R;
  is_normal_distribution : bool
}.
End StatisticalPackage.

Module GenerateRequest.
Record t : Type := mk {
  dataset : string;
  period : string;
  filters : option (dict pyobj);
  data : list pyobj
}.
End GenerateRequest.

(** What [process_multi_dataset] returns. *)
Module MultiResult.
Record t : Type := mk {
  packages : dict StatisticalPackage.t;
  cross_correlations : dict PairCorrelation.t
}.
End MultiResult.

(** ** Python indexing from the end *)

(** [data[-k]] for [1 <= k <= len(data)]. *)
Definition item_from_end (data : list R) (k : nat) : R :=
  nth (length data - k) data 0.

(** [data[-a:-b]] (and [data[-a:]] for [b = 0]): the indices from
    [max (n - a) 0] up to [max (n - b) 0]. *)
Definition slice_from_end (data : list R) (a b : nat) : list R :=
  let n := length data in
  firstn ((n - b) - (n - a)) (skipn (n - a) data).

(** Python's truth value of an optional list: [None] and [[]] are false. *)
Definition truthy {A : Type} (l : option (list A)) : bool :=
  match l with
  | Some (_ :: _) => true
  | _ => false
  end.

(** [len(timestamps)] and [timestamps[idx]], asked only of a list. *)
Definition len_of {A : Type} (l : option (list A)) : nat :=
  match l with
  | Some ts => length ts
  | None => 0%nat
  end.

Definition item_of (l : option (list pyobj)) (idx : nat) : pyobj :=
  match l with
  | Some ts => nth idx ts PyNone
  | None => PyNone
  end.

(** ** The statistical engine ([app/core/statistics.py]) *)

Record StatisticalEngine : Type := {
  outlier_threshold : R;
  extreme_threshold : R
}.

(** [StatisticalEngine.__init__]. *)
Definition StatisticalEngine_init : StatisticalEngine :=
  {| outlier_threshold := 3.0; extreme_threshold := 3.0 |}.

(** [calculate_descriptive_statistics]: on an empty array [np.min] raises,
    and the [except] clause raises the exception again. *)
Definition calculate_descriptive_statistics (data : list R) : result Statistics.t :=
  match data with
  | [] => Raise np.zero_size_array
  | x :: t =>
      let mean_val := np.mean data in
      let median_val := np.median data in
      let std_val := np.std data 1 in
      let var_val := np.var data 1 in
      let q1 := np.percentile data 25 in
      let q3 := np.percentile data 75 in
      let iqr := q3 - q1 in
      let skewness := stats.skew data in
      let kurt := stats.kurtosis data in
      Ok {| Statistics.count := Z.of_nat (length data);
            Statistics.mean := mean_val;
            Statistics.median := median_val;
            Statistics.min := np.amin x t;
            Statistics.max := np.amax x t;
            Statistics.std_dev := std_val;
            Statistics.variance := var_val;
            Statistics.q1 := q1;
            Statistics.q3 := q3;
            Statistics.iqr := iqr;
            Statistics.skewness := skewness;
            Statistics.kurtosis := kurt |}
  end.

(** The loop of [detect_outliers] over [enumerate(zip(data, z_scores))],
    from index [idx] on. *)
Fixpoint outliers_loop (self : StatisticalEngine) (timestamps : option (list pyobj))
    (idx : nat) (pairs : list (R * R)) : list OutlierDict.t :=
  match pairs with
  | [] => []
  | (value, z_score) :: rest =>
      let abs_z := Rabs z_score in
      if Rltb (outlier_threshold self) abs_z then
        {| OutlierDict.index := Z.of_nat idx;
           OutlierDict.value := value;
           OutlierDict.z_score := z_score;
           OutlierDict.is_extreme := Rltb (extreme_threshold self) abs_z;
           OutlierDict.timestamp :=
             if truthy timestamps && (idx <? len_of timestamps)%nat
             then item_of timestamps idx else PyNone |}
        :: outliers_loop self timestamps (S idx) rest
      else outliers_loop self timestamps (S idx) rest
  end.

(** [detect_outliers]: nothing in the body raises on an array of floats. *)
Definition detect_outliers (self : StatisticalEngine) (data : list R)
    (timestamps : option (list pyobj)) : list OutlierDict.t :=
  let mean := np.mean data in
  let std := np.std data 1 in
  if Reqb std 0 then []
  else
    let z_scores := map (fun x => (x - mean) / std) data in
    outliers_loop self timestamps 0 (combine data z_scores).

(** [analyze_trends]: [LinearRegression.fit] raises on an empty array, and
    the [except] clause raises the exception again. *)
Definition analyze_trends (data : list R) (period_type : string) : result Trends.t :=
  let n := length data in
  let day_over_day :=
    if (2 <=? n)%nat then
      let last_value := item_from_end data 1 in
      let prev_value := item_from_end data 2 in
      if negb (Reqb prev_value 0)
      then Some ((last_value - prev_value) / prev_value * 100)
      else None
    else None in
  let month_over_month :=
    if (30 <=? n)%nat then
      let recent_mean := np.mean (slice_from_end data 30 0) in
      if (60 <=? n)%nat then
        let prev_mean := np.mean (slice_from_end data 60 30) in
        if negb (Reqb prev_mean 0)
        then Some ((recent_mean - prev_mean) / prev_mean * 100)
        else None
      else None
    else None in
  if (n =? 0)%nat then Raise LinearRegression.no_sample
  else
    let model := LinearRegression.fit data in
    let slope := LinearRegression.coef_ model in
    let intercept := LinearRegression.intercept_ model in
    let r_squared := LinearRegression.score model data in
    let forecast := LinearRegression.predict model (INR n) in
    let trend_direction :=
      if Rltb (Rabs slope) (0.01 * np.mean data) then "stable"
      else if Rltb 0 slope then "upward"
      else "downward" in
    Ok {| Trends.day_over_day_pct := day_over_day;
          Trends.month_over_month_pct := month_over_month;
          Trends.regression_slope := slope;
          Trends.regression_intercept := intercept;
          Trends.r_squared := r_squared;
          Trends.forecast_next_period := forecast;
          Trends.trend_direction := trend_direction |}.

(** [classify_distribution]: nothing in the body raises on an array of
    floats, so the ["unknown"] of the [except] clause is never produced. *)
Definition classify_distribution (data : list R) (p_value : R) : string :=
  if Rltb 0.05 p_value then "normal"
  else
    let skewness := stats.skew data in
    let kurtosis := stats.kurtosis data in
    if Rltb (Rabs skewness) 0.5 && Rltb (Rabs kurtosis) 0.5 then "approximately_normal"
    else if Rltb 1 skewness then "right_skewed"
    else if Rltb skewness (-1) then "left_skewed"
    else if Rltb 3 kurtosis then "heavy_tailed"
    else if Rltb kurtosis (-1) then "light_tailed"
    else "non_normal".

(** What the builtin [float(value)] does with a value: it converts it,
    raises the [ValueError] or [TypeError] that [extract_values] catches, or
    raises another exception (an [OverflowError] for a huge integer). *)
Inductive conversion : Type :=
| Converted (f : pyfloat)
| Rejected
| Failed (e : exn).

(** ** The rate limiter ([app/middleware/rate_limiter.py]) *)

(** An [HTTPException]: the status code, and the error code and the message
    of its detail (the other fields of the detail are not modelled). *)
Record HTTPException : Type := {
  status_code : Z;
  error_code : string;
  message : string
}.

(** What an HTTP-facing function does: it answers, or raises an
    [HTTPException]. *)
Inductive http_result (A : Type) : Type :=
| Respond (a : A)
| Abort (e : HTTPException).

Arguments Respond {A} a.
Arguments Abort {A} e.

(** A [datetime] is counted in microseconds; [timedelta(minutes=1)]. *)
Definition minute : Z := 60000000.

Module RateLimiter.
Record t : Type := mk {
  requests_per_minute : Z;
  requests : dict (list Z)
}.
End RateLimiter.

(** [RateLimiter.__init__] (the clean-up task it starts is [cleanup_old_entries]
    below, run whenever the event loop schedules it). *)
Definition RateLimiter_init (requests_per_minute : Z) : RateLimiter.t :=
  RateLimiter.mk requests_per_minute [].

(** [d[k]] of a [defaultdict(list)]: a missing key is inserted with the
    empty list. *)
Definition defaultdict_get (d : dict (list Z)) (k : string) : list Z * dict (list Z) :=
  match dict_get d k with
  | Some l => (l, d)
  | None => ([], dict_set d k [])
  end.

(** [del d[k]]. *)
Fixpoint dict_del {V : Type} (d : dict V) (k : string) : dict V :=
  match d with
  | [] => []
  | (k', v) :: t => if String.eqb k k' then t else (k', v) :: dict_del t k
  end.

(** [[ts for ts in stored if ts > bound]]. *)
Definition later_than (bound : Z) (stored : list Z) : list Z :=
  filter (fun ts => (bound <? ts)%Z) stored.

(** The [HTTPException] of a client over its limit. *)
Definition too_many_requests : HTTPException :=
  {| status_code := 429; error_code := "E006"; message := "Rate limit exceeded" |}.

(** [check_rate_limit], for the key [_get_client_key(request)] gives and
    the instant [datetime.utcnow()] gives; [rate_limit_enabled] is the
    setting.  It returns its result and the limiter as it leaves it. *)
Definition check_rate_limit (rate_limit_enabled : bool) (self : RateLimiter.t)
    (client_key : string) (now : Z) : http_result bool * RateLimiter.t :=
  if negb rate_limit_enabled then (Respond true, self)
  else
    let minute_ago := (now - minute)%Z in
    let '(stored, requests) := defaultdict_get (RateLimiter.requests self) client_key in
    let recent_requests := later_than minute_ago stored in
    if (RateLimiter.requests_per_minute self <=? Z.of_nat (length recent_requests))%Z
    then (Abort too_many_requests,
          RateLimiter.mk (RateLimiter.requests_per_minute self) requests)
    else (Respond true,
          RateLimiter.mk (RateLimiter.requests_per_minute self)
            (dict_set requests client_key (stored ++ [now]))).

(** The loop of [_cleanup_old_entries] over [list(self.requests.keys())]. *)
Fixpoint cleanup_loop (cutoff : Z) (keys : list string) (requests : dict (list Z))
    : dict (list Z) :=
  match keys with
  | [] => requests
  | key :: rest =>
      let '(stored, requests) := defaultdict_get requests key in
      let requests := dict_set requests key (later_than cutoff stored) in
      let '(kept, requests) := defaultdict_get requests key in
      cleanup_loop cutoff rest
        (match kept with
         | [] => dict_del requests key
         | _ :: _ => requests
         end)
  end.

(** One round of [_cleanup_old_entries], at the instant [now]. *)
Definition cleanup_old_entries (self : RateLimiter.t) (now : Z) : RateLimiter.t :=
  let cutoff := (now - minute)%Z in
  RateLimiter.mk (RateLimiter.requests_per_minute self)
    (cleanup_loop cutoff (dict_keys (RateLimiter.requests self)) (RateLimiter.requests self)).

(** The limiter after a series of calls of [check_rate_limit], each with its
    key and its instant. *)
Fixpoint serve (rate_limit_enabled : bool) (self : RateLimiter.t)
    (calls : list (string * Z)) : RateLimiter.t :=
  match calls with
  | [] => self
  | (client_key, now) :: rest =>
      serve rate_limit_enabled
        (snd (check_rate_limit rate_limit_enabled self client_key now)) rest
  end.

(** The timestamps the limiter holds for a key. *)
Definition stored_for (self : RateLimiter.t) (client_key : string) : list Z :=
  match dict_get (RateLimiter.requests self) client_key with
  | Some l => l
  | None => []
  end.

(** ** Stand-ins for the examples

    Concrete functions in the place of the library functions the development
    is parametric in, used only to run the model on the concrete inputs of
    the examples at the end of the file: a test that always returns the
    statistic 1 and the p-value 0.5, two correlation tests that always
    return the coefficient 1 and the p-value 0, and a conversion that
    accepts the numbers of a JSON document and rejects everything else. *)

Module Example.

Definition shapiro (data : list R) : result (R * R) := Ok (1, 0.5).

Definition pearsonr (x y : list R) : result (R * R) := Ok (1, 0).

Definition spearmanr (x y : list R) : result (R * R) := Ok (1, 0).

Definition float (value : pyobj) : conversion :=
  match value with
  | PyInt z => Converted (Finite (IZR z))
  | PyFloat f => Converted f
  | _ => Rejected
  end.

(** The record [{"value": v}]. *)
Definition point (v : pyobj) : pyobj := PyDict [("value", v)].

(** Four datasets, two of whose pairs get the key ["a_vs_b_vs_c"]. *)
Definition colliding : dict (list R) :=
  [("a", [1; 2; 3]); ("b_vs_c", [1; 2; 3]); ("a_vs_b", [1; 2; 3]); ("c", [1; 2; 3])].

(** Two datasets of different lengths. *)
Definition two_series : dict (list R) :=
  [("x", [1; 2; 3]); ("y", [2; 4; 6; 8])].

End Example.

Section Core.

(** [stats.shapiro(data)]: the statistic and the p-value, or an exception. *)
Variable shapiro : list R -> result (R * R).

(** [stats.pearsonr(x, y)] and [stats.spearmanr(x, y)]: the coefficient and
    the p-value, or an exception. *)
Variable pearsonr : list R -> list R -> result (R * R).
Variable spearmanr : list R -> list R -> result (R * R).

(** The builtin [float]. *)
Variable float : pyobj -> conversion.

(** [test_normality]: an exception of the test is absorbed as [(0.0, False)]. *)
Definition test_normality (data : list R) : R * bool :=
  if (length data <? 3)%nat then (1.0, false)
  else
    match shapiro data with
    | Ok (statistic, p_value) => (p_value, Rltb 0.05 p_value)
    | Raise e => (0.0, false)
    end.

(** The [KeyError] of [datasets[name]]. *)
Definition key_error (name : string) : exn := OtherError name.

(** The body of the two loops of [calculate_correlations] for one pair. *)
Definition correlate (datasets : dict (list R)) (name1 name2 : string)
    (correlations : dict PairCorrelation.t) : result (dict PairCorrelation.t) :=
  match dict_get datasets name1, dict_get datasets name2 with
  | Some data1, Some data2 =>
      let min_len := Nat.min (length data1) (length data2) in
      let data1 := firstn min_len data1 in
      let data2 := firstn min_len data2 in
      pp <- pearsonr data1 data2 ;;
      sp <- spearmanr data1 data2 ;;
      let '(pearson_coef, pearson_p) := pp in
      let '(spearman_coef, spearman_p) := sp in
      let key := (name1 ++ "_vs_" ++ name2)%string in
      Ok (dict_set correlations key
            {| PairCorrelation.pearson :=
                 {| Correlation.coefficient := pearson_coef;
                    Correlation.p_value := pearson_p;
                    Correlation.is_significant := Rltb pearson_p 0.05 |};
               PairCorrelation.spearman :=
                 {| Correlation.coefficient := spearman_coef;
                    Correlation.p_value := spearman_p;
                    Correlation.is_significant := Rltb spearman_p 0.05 |} |})
  | None, _ => Raise (key_error name1)
  | _, None => Raise (key_error name2)
  end.

(** [for j in range(i + 1, len(dataset_names))], over the names after
    [name1]. *)
Fixpoint inner_loop (datasets : dict (list R)) (name1 : string) (later : list string)
    (correlations : dict PairCorrelation.t) : result (dict PairCorrelation.t) :=
  match later with
  | [] => Ok correlations
  | name2 :: rest =>
      c <- correlate datasets name1 name2 correlations ;;
      inner_loop datasets name1 rest c
  end.

(** [for i in range(len(dataset_names))], over the names still to come. *)
Fixpoint outer_loop (datasets : dict (list R)) (names : list string)
    (correlations : dict PairCorrelation.t) : result (dict PairCorrelation.t) :=
  match names with
  | [] => Ok correlations
  | name1 :: rest =>
      c <- inner_loop datasets name1 rest correlations ;;
      outer_loop datasets rest c
  end.

(** [calculate_correlations]: the [except] clause raises the exception
    again. *)
Definition calculate_correlations (datasets : dict (list R))
    : result (dict PairCorrelation.t) :=
  if (length datasets <? 2)%nat then Ok []
  else outer_loop datasets (dict_keys datasets) [].

(** ** The processor ([app/core/processor.py]) *)

Record DataProcessor : Type := { engine : StatisticalEngine }.

(** [DataProcessor.__init__]. *)
Definition DataProcessor_init : DataProcessor := {| engine := StatisticalEngine_init |}.

(** [extract_values]: the values and, in lockstep, their timestamps. *)
Fixpoint extract_values (data : list pyobj) : result (list pyfloat * list pyobj) :=
  match data with
  | [] => Ok ([], [])
  | point :: rest =>
      let '(value, timestamp) :=
        match point with
        | PyDict d => (py_get d "value", py_get d "timestamp")
        | _ => (point, PyNone)
        end in
      match value with
      | PyNone => extract_values rest
      | _ =>
          match float value with
          | Converted f =>
              vt <- extract_values rest ;;
              Ok (f :: fst vt, timestamp :: snd vt)
          | Rejected => extract_values rest
          | Failed e => Raise e
          end
      end
  end.

(** [masked_item[field] = "***MASKED***"] for every field present. *)
Fixpoint mask_item (item : dict pyobj) (fields_to_mask : list string) : dict pyobj :=
  match fields_to_mask with
  | [] => item
  | field :: rest =>
      mask_item (if dict_mem item field then dict_set item field (PyStr "***MASKED***")
                 else item) rest
  end.

(** [mask_sensitive_fields]. *)
Definition mask_sensitive_fields (data : list pyobj) (fields_to_mask : option (list string))
    : list pyobj :=
  match fields_to_mask with
  | Some (f :: fs) =>
      map (fun item =>
             match item with
             | PyDict d => PyDict (mask_item d (f :: fs))
             | _ => item
             end) data
  | _ => data
  end.

(** The failures of [validate_data], by the names the specification gives
    them; each is a [ValueError] with code E002. *)
Definition EmptyData : exn :=
  ValueError "E002: No valid numeric values found in data".
Definition InsufficientData : exn :=
  ValueError "E002: Insufficient data points for statistical analysis (minimum 3 required)".
Definition NonFiniteData_nan : exn :=
  ValueError "E002: Data contains NaN values".
Definition NonFiniteData_inf : exn :=
  ValueError "E002: Data contains infinite values".

(** [validate_data]. *)
Definition validate_data (values : list pyfloat) : result unit :=
  if (length values =? 0)%nat then Raise EmptyData
  else if (length values <? 3)%nat then Raise InsufficientData
  else if existsb isnan values then Raise NonFiniteData_nan
  else if existsb isinf values then Raise NonFiniteData_inf
  else Ok tt.

(** The validation error of a schema (pydantic's [ValidationError] is a
    [ValueError]). *)
Definition validation_error (field : string) : exn :=
  ValueError ("validation error: " ++ field)%string.

(** The schema [Outlier] built from an outlier dictionary: the schema wants
    the timestamp to be a string or [None]. *)
Definition Outlier_init (o : OutlierDict.t) : result Outlier.t :=
  ts <- match OutlierDict.timestamp o with
        | PyNone => Ok None
        | PyStr s => Ok (Some s)
        | _ => Raise (validation_error "timestamp")
        end ;;
  Ok {| Outlier.index := OutlierDict.index o;
        Outlier.value := OutlierDict.value o;
        Outlier.z_score := OutlierDict.z_score o;
        Outlier.is_extreme := OutlierDict.is_extreme o;
        Outlier.timestamp := ts |}.

(** The schema [Outlier] built from every dictionary of [outliers_list], in
    order. *)
Fixpoint Outlier_all (l : list OutlierDict.t) : result (list Outlier.t) :=
  match l with
  | [] => Ok []
  | o :: rest =>
      o' <- Outlier_init o ;;
      rest' <- Outlier_all rest ;;
      Ok (o' :: rest')
  end.

Definition is_dict (o : pyobj) : bool :=
  match o with
  | PyDict _ => true
  | _ => false
  end.

(** [GenerateRequest(dataset=..., period=..., data=...)]: the schema wants
    [data] to be a non-empty list of dictionaries. *)
Definition GenerateRequest_init (dataset period : string) (data : list pyobj)
    : result GenerateRequest.t :=
  if (1 <=? length data)%nat && forallb is_dict data
  then Ok {| GenerateRequest.dataset := dataset;
             GenerateRequest.period := period;
             GenerateRequest.filters := None;
             GenerateRequest.data := data |}
  else Raise (validation_error "data").

(** The two [except] clauses of [process_request]: a [ValueError] is raised
    again, anything else becomes [Exception("E003: ...")]. *)
Definition process_request_except {A : Type} (e : exn) : result A :=
  match e with
  | ValueError msg => Raise (ValueError msg)
  | OtherError msg => Raise (OtherError ("E003: " ++ msg)%string)
  end.

(** [process_request]. *)
Definition process_request (self : DataProcessor) (request : GenerateRequest.t)
    (masking_fields : option (list string)) : result StatisticalPackage.t :=
  try_except
    (vt <- extract_values (GenerateRequest.data request) ;;
     let '(values, timestamps) := vt in
     _ <- validate_data values ;;
     let values := map real_of values in
     statistics <- calculate_descriptive_statistics values ;;
     trends <- analyze_trends values "daily" ;;
     let outliers_list := detect_outliers (engine self) values (Some timestamps) in
     outliers <- Outlier_all outliers_list ;;
     let '(p_value, is_normal) := test_normality values in
     let distribution_type := classify_distribution values p_value in
     Ok {| StatisticalPackage.statistics := statistics;
           StatisticalPackage.trends := trends;
           StatisticalPackage.correlations := None;
           StatisticalPackage.outliers := outliers;
           StatisticalPackage.distribution_type := distribution_type;
           StatisticalPackage.normality_test_p_value := p_value;
           StatisticalPackage.is_normal_distribution := is_normal |})
    process_request_except.

(** The loop of [process_multi_dataset] over [datasets.items()]. *)
Fixpoint multi_loop (self : DataProcessor) (items : list (string * list pyobj))
    (packages : dict StatisticalPackage.t) (dataset_arrays : dict (list R))
    : result (dict StatisticalPackage.t * dict (list R)) :=
  match items with
  | [] => Ok (packages, dataset_arrays)
  | (name, data) :: rest =>
      vt <- extract_values data ;;
      _ <- validate_data (fst vt) ;;
      let dataset_arrays := dict_set dataset_arrays name (map real_of (fst vt)) in
      request <- GenerateRequest_init name "multi" data ;;
      package <- process_request self request None ;;
      multi_loop self rest (dict_set packages name package) dataset_arrays
  end.

(** [process_multi_dataset]: the [except] clause raises the exception
    again. *)
Definition process_multi_dataset (self : DataProcessor)
    (datasets : dict (list pyobj)) : result MultiResult.t :=
  pa <- multi_loop self datasets [] [] ;;
  correlations <- calculate_correlations (snd pa) ;;
  Ok {| MultiResult.packages := fst pa;
        MultiResult.cross_correlations := correlations |}.

(** ** The route ([app/routers/v1.py]) *)

(** The settings the route reads ([app/config.py]); [masking_fields_list] is
    the value of the property of that name. *)
Record Settings : Type := {
  rate_limit_enabled : bool;
  data_masking_enabled : bool;
  masking_fields_list : list string
}.

(** [needle in text], for strings. *)
Definition contains (needle text : string) : bool :=
  match String.index 0 needle text with
  | Some _ => true
  | None => false
  end.

(** The answer to a [ValueError] with the text [error_msg]. *)
Definition bad_request (error_msg : string) : HTTPException :=
  {| status_code := 400;
     error_code := if contains "E001" error_msg then "E001" else "E002";
     message := error_msg |}.

(** The answer to any other exception. *)
Definition internal_error : HTTPException :=
  {| status_code := 500; error_code := "E003"; message := "Internal processing error" |}.

(** [generate_statistical_package], after its dependency has authenticated
    the user: the rate limit is checked and the request processed inside one
    [try]; a [ValueError] is answered by [bad_request], and every other
    exception, the [HTTPException] of the rate limiter among them, by
    [internal_error].  Nothing in the body raises a [TimeoutError]
    ([process_request] raises a [ValueError] or an [Exception]), so that
    clause is never taken.  Of the response, the package is modelled. *)
Definition generate_statistical_package (settings : Settings) (limiter : RateLimiter.t)
    (processor : DataProcessor) (client_key : string) (now : Z)
    (request_data : GenerateRequest.t)
    : http_result StatisticalPackage.t * RateLimiter.t :=
  let '(checked, limiter) :=
    check_rate_limit (rate_limit_enabled settings) limiter client_key now in
  match checked with
  | Abort e => (Abort internal_error, limiter)
  | Respond _ =>
      match process_request processor request_data
              (if data_masking_enabled settings
               then Some (masking_fields_list settings) else None) with
      | Ok statistical_package => (Respond statistical_package, limiter)
      | Raise (ValueError error_msg) => (Abort (bad_request error_msg), limiter)
      | Raise (OtherError error_msg) => (Abort internal_error, limiter)
      end
  end.

(** * Properties *)

(** ** Booleans of comparisons *)

Lemma Rltb_true (x y : R) : Rltb x y = true <-> x < y.
Proof. unfold Rltb; destruct (Rlt_dec x y); split; intros; auto; discriminate. Qed.

Lemma Rltb_false (x y : R) : Rltb x y = false <-> ~ x < y.
Proof. unfold Rltb; destruct (Rlt_dec x y); split; intros; auto; try discriminate; tauto. Qed.

Lemma Reqb_true (x y : R) : Reqb x y = true <-> x = y.
Proof. unfold Reqb; destruct (Req_dec_T x y); split; intros; auto; discriminate. Qed.

Lemma Reqb_false (x y : R) : Reqb x y = false <-> x <> y.
Proof. unfold Reqb; destruct (Req_dec_T x y); split; intros; auto; try discriminate; tauto. Qed.

(** ** Sums, variance *)

Lemma sum_squares_nonneg (m : R) (data : list R) :
  0 <= np.sum (map (fun x => (x - m) * (x - m)) data).
Proof.
  induction data as [|x t IH]; simpl.
  - lra.
  - pose proof (Rle_0_sqr (x - m)) as Hsq. unfold Rsqr in Hsq. lra.
Qed.

Lemma Rinv_INR_nonneg (k : nat) : 0 <= / INR k.
Proof.
  destruct k as [|k].
  - simpl. rewrite Rinv_0. lra.
  - left. apply Rinv_0_lt_compat. apply lt_0_INR. lia.
Qed.

Lemma var_nonneg (data : list R) (ddof : nat) : 0 <= np.var data ddof.
Proof.
  unfold np.var, Rdiv.
  apply Rmult_le_pos; [apply sum_squares_nonneg | apply Rinv_INR_nonneg].
Qed.

Lemma std_nonneg (data : list R) (ddof : nat) : 0 <= np.std data ddof.
Proof. apply sqrt_pos. Qed.

Lemma std_squared (data : list R) (ddof : nat) :
  np.std data ddof * np.std data ddof = np.var data ddof.
Proof. apply sqrt_sqrt, var_nonneg. Qed.

Lemma std_zero_iff (data : list R) (ddof : nat) :
  np.std data ddof = 0 <-> np.var data ddof = 0.
Proof.
  split; intros H.
  - apply sqrt_eq_0; [apply var_nonneg | exact H].
  - unfold np.std. rewrite H. apply sqrt_0.
Qed.

(** ** Sorting *)

Lemma insert_perm (x : R) (l : list R) : Permutation (x :: l) (np.insert x l).
Proof.
  induction l as [|y t IH]; simpl.
  - apply Permutation_refl.
  - destruct (Rle_dec x y).
    + apply Permutation_refl.
    + eapply perm_trans; [apply perm_swap | apply perm_skip, IH].
Qed.

Lemma sort_perm (l : list R) : Permutation l (np.sort l).
Proof.
  induction l as [|x t IH]; simpl.
  - apply perm_nil.
  - eapply perm_trans; [apply perm_skip, IH | apply insert_perm].
Qed.

Lemma sort_length (l : list R) : length (np.sort l) = length l.
Proof. symmetry. apply Permutation_length, sort_perm. Qed.

Lemma insert_sorted (x : R) (l : list R) :
  StronglySorted Rle l -> StronglySorted Rle (np.insert x l).
Proof.
  induction 1 as [|y t Hs IH Hall]; simpl.
  - repeat constructor.
  - destruct (Rle_dec x y) as [Hle|Hgt].
    + constructor; [constructor; assumption|].
      constructor; [exact Hle|].
      eapply Forall_impl; [|exact Hall]. intros z Hz. simpl in Hz. lra.
    + constructor; [exact IH|].
      apply (Permutation_Forall (insert_perm x t)).
      constructor; [lra | exact Hall].
Qed.

Lemma sort_sorted (l : list R) : StronglySorted Rle (np.sort l).
Proof.
  induction l as [|x t IH]; simpl; [constructor | apply insert_sorted, IH].
Qed.

Lemma sorted_nth (s : list R) :
  StronglySorted Rle s ->
  forall i j : nat, (i <= j)%nat -> (j < length s)%nat -> nth i s 0 <= nth j s 0.
Proof.
  induction 1 as [|a t Hs IH Hall]; intros i j Hij Hj; simpl in Hj.
  - lia.
  - destruct i as [|i], j as [|j]; simpl; try lia.
    + lra.
    + rewrite Forall_forall in Hall. apply Hall, nth_In. lia.
    + apply IH; lia.
Qed.

(** ** Minimum and maximum *)

Lemma amin_le (x : R) (t : list R) (y : R) : In y (x :: t) -> np.amin x t <= y.
Proof.
  unfold np.amin. induction t as [|z t IH]; simpl; intros H.
  - destruct H as [->|[]]. lra.
  - destruct H as [->|[->|H]].
    + eapply Rle_trans; [apply Rmin_r | apply IH; now left].
    + apply Rmin_l.
    + eapply Rle_trans; [apply Rmin_r | apply IH; now right].
Qed.

Lemma amax_ge (x : R) (t : list R) (y : R) : In y (x :: t) -> y <= np.amax x t.
Proof.
  unfold np.amax. induction t as [|z t IH]; simpl; intros H.
  - destruct H as [->|[]]. lra.
  - destruct H as [->|[->|H]].
    + eapply Rle_trans; [apply IH; now left | apply Rmax_r].
    + apply Rmax_l.
    + eapply Rle_trans; [apply IH; now right | apply Rmax_r].
Qed.

(** ** Linear interpolation between order statistics *)

Lemma INR_100 : INR 100 = 100.
Proof. rewrite INR_IZR_INZ. reflexivity. Qed.

Lemma gamma_bounds (k : nat) : 0 <= INR (k mod 100) / 100 < 1.
Proof.
  assert (H : (k mod 100 < 100)%nat) by (apply Nat.mod_upper_bound; lia).
  apply lt_INR in H. rewrite INR_100 in H.
  pose proof (pos_INR (k mod 100)). lra.
Qed.

Section Interpolation.

Variable s : list R.
Hypothesis s_sorted : StronglySorted Rle s.
Hypothesis s_nonempty : (1 <= length s)%nat.

(** The two indices an in-range position interpolates between. *)
Lemma interpolate_indices (k : nat) :
  (k <= 100 * (length s - 1))%nat ->
  let lo := (k / 100)%nat in
  let hi := Nat.min (lo + 1) (length s - 1) in
  (lo <= hi)%nat /\ (hi < length s)%nat /\ (hi <= lo + 1)%nat.
Proof.
  intros Hk lo hi.
  assert (Hlo : (lo <= length s - 1)%nat).
  { unfold lo. apply Nat.Div0.div_le_upper_bound. lia. }
  unfold hi. lia.
Qed.

Lemma interpolate_between (k : nat) :
  (k <= 100 * (length s - 1))%nat ->
  nth (k / 100) s 0 <= np.interpolate s k
  /\ np.interpolate s k <= nth (Nat.min (k / 100 + 1) (length s - 1)) s 0.
Proof.
  intros Hk. destruct (interpolate_indices k Hk) as (H1 & H2 & _).
  pose proof (sorted_nth s s_sorted _ _ H1 H2) as Hab.
  pose proof (gamma_bounds k) as Hg.
  unfold np.interpolate, np.lerp.
  set (a := nth (k / 100) s 0) in *.
  set (b := nth (Nat.min (k / 100 + 1) (length s - 1)) s 0) in *.
  set (g := INR (k mod 100) / 100) in *.
  split; nra.
Qed.

(** A later position interpolates to a value at least as large. *)
Lemma interpolate_mono (k1 k2 : nat) :
  (k1 <= k2)%nat -> (k2 <= 100 * (length s - 1))%nat ->
  np.interpolate s k1 <= np.interpolate s k2.
Proof.
  intros H12 H2.
  assert (H1 : (k1 <= 100 * (length s - 1))%nat) by lia.
  assert (Hq : (k1 / 100 <= k2 / 100)%nat) by (apply Nat.Div0.div_le_mono; exact H12).
  destruct (Nat.eq_dec (k1 / 100) (k2 / 100)) as [Heq|Hne].
  - assert (Hm : (k1 mod 100 <= k2 mod 100)%nat).
    { pose proof (Nat.div_mod_eq k1 100). pose proof (Nat.div_mod_eq k2 100). lia. }
    destruct (interpolate_indices k2 H2) as (Ha & Hb & _).
    pose proof (sorted_nth s s_sorted _ _ Ha Hb) as Hab.
    apply le_INR in Hm.
    pose proof (gamma_bounds k1) as Hg1. pose proof (gamma_bounds k2) as Hg2.
    unfold np.interpolate, np.lerp. rewrite Heq.
    set (a := nth (k2 / 100) s 0) in *.
    set (b := nth (Nat.min (k2 / 100 + 1) (length s - 1)) s 0) in *.
    assert (Hg : INR (k1 mod 100) / 100 <= INR (k2 mod 100) / 100) by lra.
    nra.
  - destruct (interpolate_between k1 H1) as [_ Hup].
    destruct (interpolate_between k2 H2) as [Hlow _].
    destruct (interpolate_indices k1 H1) as (_ & _ & Hhi).
    destruct (interpolate_indices k2 H2) as (Hlo2 & Hhi2 & _).
    eapply Rle_trans; [exact Hup|].
    eapply Rle_trans; [|exact Hlow].
    apply sorted_nth; [exact s_sorted | lia | lia].
Qed.

End Interpolation.

(** [np.median] is the interpolation at position [(n - 1) / 2]. *)
Lemma median_as_interpolation (data : list R) :
  (1 <= length data)%nat ->
  np.median data = np.interpolate (np.sort data) ((length data - 1) * 50).
Proof.
  intros Hn. unfold np.median, np.interpolate, np.lerp. rewrite sort_length.
  set (n := length data) in *.
  destruct (Nat.even n) eqn:Hev.
  - apply Nat.even_spec in Hev. destruct Hev as [m Hm].
    assert (Hpos : ((n - 1) * 50 = (m - 1) * 100 + 50)%nat) by lia.
    assert (Hdiv : ((n - 1) * 50 / 100 = m - 1)%nat).
    { rewrite Hpos, Nat.div_add_l, (Nat.div_small 50 100) by lia. lia. }
    assert (Hmod : (((n - 1) * 50) mod 100 = 50)%nat).
    { rewrite Hpos. rewrite Nat.add_comm, Nat.Div0.mod_add. reflexivity. }
    rewrite Hdiv, Hmod.
    replace (n / 2)%nat with m by (rewrite Hm, Nat.mul_comm, Nat.div_mul; lia).
    replace (Nat.min (m - 1 + 1) (n - 1)) with m by lia.
    replace (INR 50) with 50 by (rewrite INR_IZR_INZ; reflexivity).
    lra.
  - assert (Hodd : Nat.odd n = true) by (rewrite <- Nat.negb_even, Hev; reflexivity).
    apply Nat.odd_spec in Hodd. destruct Hodd as [m Hm].
    assert (Hpos : ((n - 1) * 50 = m * 100)%nat) by lia.
    rewrite Hpos, Nat.div_mul, Nat.Div0.mod_mul by lia.
    replace (n / 2)%nat with m.
    + simpl INR. lra.
    + rewrite Hm. replace (2 * m + 1)%nat with (1 + m * 2)%nat by lia.
      rewrite Nat.div_add by lia. reflexivity.
Qed.

(** Every in-range interpolation of the sorted data lies between the
    minimum and the maximum. *)
Lemma interpolate_in_range (x : R) (t : list R) (k : nat) :
  (k <= 100 * (length (x :: t) - 1))%nat ->
  np.amin x t <= np.interpolate (np.sort (x :: t)) k
  /\ np.interpolate (np.sort (x :: t)) k <= np.amax x t.
Proof.
  intros Hk.
  pose proof (sort_sorted (x :: t)) as Hs.
  pose proof (sort_length (x :: t)) as Hl.
  rewrite <- Hl in Hk.
  assert (Hne : (1 <= length (np.sort (x :: t)))%nat) by (rewrite Hl; simpl; lia).
  destruct (interpolate_between _ Hs Hne k Hk) as [Hlow Hup].
  destruct (interpolate_indices _ Hne k Hk) as (Hlh & Hhi & _).
  split.
  - eapply Rle_trans; [|exact Hlow].
    apply amin_le. apply (Permutation_in _ (Permutation_sym (sort_perm (x :: t)))).
    apply nth_In. lia.
  - eapply Rle_trans; [exact Hup|].
    apply amax_ge. apply (Permutation_in _ (Permutation_sym (sort_perm (x :: t)))).
    apply nth_In. exact Hhi.
Qed.

Lemma percentile_mono (data : list R) (p q : nat) :
  (1 <= length data)%nat -> (p <= q)%nat -> (q <= 100)%nat ->
  np.percentile data p <= np.percentile data q.
Proof.
  intros Hn Hpq Hq. unfold np.percentile.
  apply interpolate_mono.
  - apply sort_sorted.
  - rewrite sort_length. exact Hn.
  - apply Nat.mul_le_mono_l. exact Hpq.
  - rewrite sort_length. nia.
Qed.

(** C1. For a sample of at least three points whose variance is not zero,
    [calculate_descriptive_statistics] returns a result in which [count] is
    the length of the sample, [min <= q1 <= median <= q3 <= max],
    [iqr = q3 - q1 >= 0], the standard deviation and the variance are not
    negative, and the variance is the square of the standard deviation. *)
Theorem descriptive_statistics_order (data : list R) :
  (3 <= length data)%nat ->
  np.var data 1 <> 0 ->
  exists st : Statistics.t,
    calculate_descriptive_statistics data = Ok st
    /\ Statistics.count st = Z.of_nat (length data)
    /\ Statistics.min st <= Statistics.q1 st
    /\ Statistics.q1 st <= Statistics.median st
    /\ Statistics.median st <= Statistics.q3 st
    /\ Statistics.q3 st <= Statistics.max st
    /\ Statistics.iqr st = Statistics.q3 st - Statistics.q1 st
    /\ 0 <= Statistics.iqr st
    /\ 0 <= Statistics.std_dev st
    /\ 0 <= Statistics.variance st
    /\ Statistics.variance st = Statistics.std_dev st * Statistics.std_dev st.
Proof.
  intros Hn _.
  destruct data as [|x t]; [simpl in Hn; lia|].
  assert (H1 : (1 <= length (x :: t))%nat) by lia.
  eexists. split; [reflexivity|]. cbn [Statistics.count Statistics.min Statistics.max
    Statistics.q1 Statistics.q3 Statistics.median Statistics.iqr Statistics.std_dev
    Statistics.variance].
  assert (Hq1 : np.percentile (x :: t) 25 <= np.median (x :: t)).
  { rewrite median_as_interpolation by exact H1. apply percentile_mono; lia. }
  assert (Hq3 : np.median (x :: t) <= np.percentile (x :: t) 75).
  { rewrite median_as_interpolation by exact H1. apply percentile_mono; lia. }
  repeat split.
  - apply interpolate_in_range. nia.
  - exact Hq1.
  - exact Hq3.
  - apply interpolate_in_range. nia.
  - lra.
  - apply std_nonneg.
  - apply var_nonneg.
  - symmetry. apply std_squared.
Qed.

(** ** The estimators of the descriptive statistics *)

Lemma sum_of_powers_map (k : nat) (data : list R) (m : R) :
  fold_right (fun x acc => (x - m) ^ k + acc) 0 data
  = np.sum (map (fun x => (x - m) ^ k) data).
Proof.
  unfold np.sum. induction data as [|x t IH]; cbn [map fold_right];
    [reflexivity | now rewrite IH].
Qed.

Lemma sum_of_squares_map (data : list R) (m : R) :
  np.sum (map (fun x => (x - m) * (x - m)) data)
  = np.sum (map (fun x => (x - m) ^ 2) data).
Proof.
  unfold np.sum. induction data as [|x t IH]; cbn [map fold_right];
    [reflexivity | rewrite IH; ring].
Qed.

Lemma central_moment_eq (k : nat) (data : list R) :
  stats.moment k data = Textbook.central_moment k data.
Proof.
  unfold stats.moment, Textbook.central_moment, Textbook.sum_of_powers.
  now rewrite sum_of_powers_map.
Qed.

Lemma moment2_nonneg (data : list R) : 0 <= stats.moment 2 data.
Proof.
  unfold stats.moment, Rdiv. rewrite <- sum_of_squares_map.
  apply Rmult_le_pos; [apply sum_squares_nonneg | apply Rinv_INR_nonneg].
Qed.

(** The variance [np.var(data, ddof=1)] is the sample variance. *)
Lemma var_is_sample_variance (data : list R) :
  (1 <= length data)%nat -> np.var data 1 = Textbook.sample_variance data.
Proof.
  intros Hn. unfold np.var, Textbook.sample_variance, Textbook.sum_of_powers.
  rewrite sum_of_powers_map, sum_of_squares_map, minus_INR by exact Hn.
  reflexivity.
Qed.

(** The sample variance is [n / (n - 1)] times the population variance. *)
Lemma sample_vs_population (data : list R) :
  (2 <= length data)%nat ->
  Textbook.sample_variance data
  = INR (length data) / (INR (length data) - 1) * Textbook.population_variance data.
Proof.
  intros Hn. unfold Textbook.sample_variance, Textbook.population_variance.
  apply le_INR in Hn. replace (INR 2) with 2 in Hn by (simpl; lra).
  field. lra.
Qed.

Lemma skew_is_g1 (data : list R) : stats.skew data = Textbook.g1 data.
Proof.
  unfold stats.skew, Textbook.g1. rewrite !central_moment_eq.
  pose proof (moment2_nonneg data) as H. rewrite central_moment_eq in H.
  set (m2 := Textbook.central_moment 2 data) in *.
  replace (sqrt m2 ^ 3) with (sqrt m2 * sqrt m2 * sqrt m2) by ring.
  rewrite (sqrt_sqrt m2 H). reflexivity.
Qed.

Lemma kurtosis_is_g2 (data : list R) : stats.kurtosis data = Textbook.g2 data.
Proof.
  unfold stats.kurtosis, Textbook.g2. rewrite !central_moment_eq.
  replace (Textbook.central_moment 2 data ^ 2)
    with (Textbook.central_moment 2 data * Textbook.central_moment 2 data) by ring.
  reflexivity.
Qed.

(** C2, as the code has it. For a sample of at least three points the
    variance is the sample variance (denominator [n - 1], hence different
    from the population variance unless it is zero), the standard deviation
    is its square root, and the skewness and the kurtosis are the
    Fisher-Pearson coefficients [g1] and [g2] computed from the central
    moments with denominator [n], without the adjustment for bias; the
    kurtosis is the excess kurtosis ([m4 / m2^2 - 3]). *)
Theorem descriptive_statistics_estimators (data : list R) :
  (3 <= length data)%nat ->
  exists st : Statistics.t,
    calculate_descriptive_statistics data = Ok st
    /\ Statistics.variance st = Textbook.sample_variance data
    /\ (Statistics.variance st <> 0 ->
        Statistics.variance st <> Textbook.population_variance data)
    /\ Statistics.std_dev st = sqrt (Textbook.sample_variance data)
    /\ Statistics.skewness st = Textbook.g1 data
    /\ Statistics.kurtosis st = Textbook.g2 data.
Proof.
  intros Hn.
  destruct data as [|x t]; [simpl in Hn; lia|].
  set (data := x :: t) in *.
  assert (Hv : np.var data 1 = Textbook.sample_variance data)
    by (apply var_is_sample_variance; lia).
  exists {| Statistics.count := Z.of_nat (length data);
            Statistics.mean := np.mean data;
            Statistics.median := np.median data;
            Statistics.min := np.amin x t;
            Statistics.max := np.amax x t;
            Statistics.std_dev := np.std data 1;
            Statistics.variance := np.var data 1;
            Statistics.q1 := np.percentile data 25;
            Statistics.q3 := np.percentile data 75;
            Statistics.iqr := np.percentile data 75 - np.percentile data 25;
            Statistics.skewness := stats.skew data;
            Statistics.kurtosis := stats.kurtosis data |}.
  cbn [Statistics.variance Statistics.std_dev Statistics.skewness Statistics.kurtosis].
  split; [reflexivity|]. split; [exact Hv|]. split; [|split; [|split]].
  - rewrite Hv, sample_vs_population by lia.
    intros Hnz Heq.
    assert (Hlen : 3 <= INR (length data)).
    { apply le_INR in Hn. replace (INR 3) with 3 in Hn by (simpl; lra). exact Hn. }
    set (n := INR (length data)) in *.
    set (v := Textbook.population_variance data) in *.
    assert (Hn1 : n / (n - 1) * v - v = v / (n - 1)) by (field; lra).
    assert (Hv0 : v / (n - 1) = 0) by lra.
    assert (Hvz : v = 0).
    { replace v with (v / (n - 1) * (n - 1)) by (field; lra). rewrite Hv0. ring. }
    apply Hnz. rewrite Hvz. ring.
  - unfold np.std. now rewrite Hv.
  - apply skew_is_g1.
  - apply kurtosis_is_g2.
Qed.

(** ** Outliers *)

(** The z-score of [x] in [data]. *)
Definition z_score_of (data : list R) (x : R) : R :=
  (x - np.mean data) / np.std data 1.

(** The timestamp the entry of index [idx] carries. *)
Definition timestamp_of (timestamps : option (list pyobj)) (idx : nat) : pyobj :=
  if truthy timestamps && (idx <? len_of timestamps)%nat
  then item_of timestamps idx else PyNone.

(** The entry the loop builds at index [idx] for the pair [p]. *)
Definition entry_of (self : StatisticalEngine) (timestamps : option (list pyobj))
    (idx : nat) (p : R * R) : OutlierDict.t :=
  {| OutlierDict.index := Z.of_nat idx;
     OutlierDict.value := fst p;
     OutlierDict.z_score := snd p;
     OutlierDict.is_extreme := Rltb (extreme_threshold self) (Rabs (snd p));
     OutlierDict.timestamp := timestamp_of timestamps idx |}.

Lemma outliers_loop_In (self : StatisticalEngine) (timestamps : option (list pyobj))
    (pairs : list (R * R)) :
  forall (idx : nat) (o : OutlierDict.t),
    In o (outliers_loop self timestamps idx pairs) <->
    exists j : nat,
      (j < length pairs)%nat
      /\ outlier_threshold self < Rabs (snd (nth j pairs (0, 0)))
      /\ o = entry_of self timestamps (idx + j) (nth j pairs (0, 0)).
Proof.
  induction pairs as [|[v z] rest IH]; intros idx o.
  - simpl. split; [tauto | intros (j & Hj & _); lia].
  - cbn [outliers_loop].
    assert (Hrest : In o (outliers_loop self timestamps (S idx) rest) <->
                    exists j : nat, (0 < j)%nat /\ (j < length ((v, z) :: rest))%nat
                      /\ outlier_threshold self < Rabs (snd (nth j ((v, z) :: rest) (0, 0)))
                      /\ o = entry_of self timestamps (idx + j) (nth j ((v, z) :: rest) (0, 0))).
    { rewrite IH. split.
      - intros (j & Hj & Hz & Ho). exists (S j). cbn [nth length].
        replace (idx + S j)%nat with (S idx + j)%nat by lia.
        repeat split; [lia | lia | exact Hz | exact Ho].
      - intros (j & Hpos & Hj & Hz & Ho). destruct j as [|j]; [lia|].
        exists j. cbn [nth length] in *.
        replace (S idx + j)%nat with (idx + S j)%nat by lia.
        repeat split; [lia | exact Hz | exact Ho]. }
    destruct (Rltb (outlier_threshold self) (Rabs z)) eqn:Hthr.
    + apply Rltb_true in Hthr. cbn [In]. rewrite Hrest. split.
      * intros [Ho | (j & Hpos & Hj & Hz & Ho)].
        -- exists 0%nat. cbn [nth length snd]. rewrite Nat.add_0_r.
           repeat split; [lia | exact Hthr | now rewrite <- Ho].
        -- exists j. auto.
      * intros (j & Hj & Hz & Ho). destruct j as [|j].
        -- left. rewrite Ho, Nat.add_0_r. reflexivity.
        -- right. exists (S j). repeat split; [lia | exact Hj | exact Hz | exact Ho].
    + apply Rltb_false in Hthr. rewrite Hrest. split.
      * intros (j & Hpos & Hj & Hz & Ho). exists j. auto.
      * intros (j & Hj & Hz & Ho). destruct j as [|j].
        -- cbn [nth snd] in Hz. contradiction.
        -- exists (S j). repeat split; [lia | exact Hj | exact Hz | exact Ho].
Qed.

Lemma outliers_loop_from (self : StatisticalEngine) (timestamps : option (list pyobj))
    (pairs : list (R * R)) :
  forall idx : nat,
    Forall (fun i => (Z.of_nat idx <= i)%Z)
           (map OutlierDict.index (outliers_loop self timestamps idx pairs)).
Proof.
  induction pairs as [|[v z] rest IH]; intros idx; cbn [outliers_loop].
  - constructor.
  - assert (Hrest : Forall (fun i => (Z.of_nat idx <= i)%Z)
        (map OutlierDict.index (outliers_loop self timestamps (S idx) rest))).
    { eapply Forall_impl; [|apply IH]. intros i Hi. simpl in Hi. lia. }
    destruct (Rltb (outlier_threshold self) (Rabs z)); [|exact Hrest].
    cbn [map OutlierDict.index]. constructor; [lia | exact Hrest].
Qed.

Lemma outliers_loop_ascending (self : StatisticalEngine)
    (timestamps : option (list pyobj)) (pairs : list (R * R)) :
  forall idx : nat,
    StronglySorted Z.lt (map OutlierDict.index (outliers_loop self timestamps idx pairs)).
Proof.
  induction pairs as [|[v z] rest IH]; intros idx; cbn [outliers_loop].
  - constructor.
  - destruct (Rltb (outlier_threshold self) (Rabs z)); [|apply IH].
    cbn [map OutlierDict.index]. constructor; [apply IH|].
    eapply Forall_impl; [|apply (outliers_loop_from self timestamps rest (S idx))].
    intros i Hi. simpl in Hi. lia.
Qed.

Lemma nth_zip_z_scores (data : list R) (f : R -> R) (j : nat) :
  (j < length data)%nat ->
  nth j (combine data (map f data)) (0, 0) = (nth j data 0, f (nth j data 0)).
Proof.
  revert j. induction data as [|x t IH]; intros j Hj; simpl in Hj; [lia|].
  destruct j as [|j]; simpl; [reflexivity | apply IH; lia].
Qed.

Lemma length_zip_z_scores (data : list R) (f : R -> R) :
  length (combine data (map f data)) = length data.
Proof. rewrite length_combine, length_map. lia. Qed.

Lemma timestamp_of_spec (timestamps : option (list pyobj)) (idx : nat) :
  (forall ts, timestamps = Some ts -> (idx < length ts)%nat ->
     timestamp_of timestamps idx = nth idx ts PyNone)
  /\ (timestamps = None -> timestamp_of timestamps idx = PyNone)
  /\ (forall ts, timestamps = Some ts -> (length ts <= idx)%nat ->
        timestamp_of timestamps idx = PyNone).
Proof.
  unfold timestamp_of. repeat split.
  - intros ts -> Hlt. destruct ts as [|t ts]; [simpl in Hlt; lia|].
    cbn [truthy len_of item_of andb].
    apply Nat.ltb_lt in Hlt. now rewrite Hlt.
  - intros ->. reflexivity.
  - intros ts -> Hge. destruct ts as [|t ts]; [reflexivity|].
    cbn [truthy len_of andb].
    apply Nat.ltb_ge in Hge. now rewrite Hge.
Qed.

(** C3. With the thresholds of [__init__], [detect_outliers] returns the
    empty list when the sample standard deviation is zero; otherwise its
    entries come in strictly ascending index order, an index has an entry
    exactly when the z-score [(x - mean) / std] of its point exceeds 3.0 in
    absolute value, and the entry of index [i] holds the value and the
    z-score of point [i], and the timestamp at [i] when timestamps were
    given and [i] is in their range, no timestamp otherwise. *)
Theorem detect_outliers_spec (data : list R) (timestamps : option (list pyobj)) :
  let out := detect_outliers StatisticalEngine_init data timestamps in
  (np.std data 1 = 0 -> out = [])
  /\ (np.std data 1 <> 0 ->
      StronglySorted Z.lt (map OutlierDict.index out)
      /\ (forall i : nat,
            (exists o, In o out /\ OutlierDict.index o = Z.of_nat i) <->
            (i < length data)%nat /\ 3.0 < Rabs (z_score_of data (nth i data 0)))
      /\ (forall o, In o out ->
            exists i : nat,
              (i < length data)%nat
              /\ OutlierDict.index o = Z.of_nat i
              /\ OutlierDict.value o = nth i data 0
              /\ OutlierDict.z_score o = z_score_of data (nth i data 0)
              /\ (forall ts, timestamps = Some ts -> (i < length ts)%nat ->
                    OutlierDict.timestamp o = nth i ts PyNone)
              /\ (timestamps = None -> OutlierDict.timestamp o = PyNone)
              /\ (forall ts, timestamps = Some ts -> (length ts <= i)%nat ->
                    OutlierDict.timestamp o = PyNone))).
Proof.
  intros out. subst out. unfold detect_outliers. split.
  - intros Hz. apply Reqb_true in Hz. now rewrite Hz.
  - intros Hnz. apply Reqb_false in Hnz. rewrite Hnz.
    set (f := fun x : R => (x - np.mean data) / np.std data 1).
    assert (Hin : forall o,
      In o (outliers_loop StatisticalEngine_init timestamps 0 (combine data (map f data))) <->
      exists j : nat, (j < length data)%nat
        /\ 3.0 < Rabs (z_score_of data (nth j data 0))
        /\ o = entry_of StatisticalEngine_init timestamps j
                 (nth j data 0, z_score_of data (nth j data 0))).
    { intros o. rewrite outliers_loop_In. rewrite length_zip_z_scores.
      split; intros (j & Hj & Hthr & Ho); exists j;
        rewrite (nth_zip_z_scores data f j Hj) in *; cbn [snd] in *;
        repeat split; assumption. }
    split; [apply outliers_loop_ascending|]. split.
    + intros i. split.
      * intros (o & Ho & Hi). apply Hin in Ho. destruct Ho as (j & Hj & Hthr & ->).
        cbn [entry_of OutlierDict.index] in Hi. apply Nat2Z.inj in Hi. subst j. auto.
      * intros [Hi Hthr]. eexists. split; [apply Hin; exists i; eauto | reflexivity].
    + intros o Ho. apply Hin in Ho. destruct Ho as (j & Hj & Hthr & ->).
      exists j. cbn [entry_of OutlierDict.index OutlierDict.value OutlierDict.z_score
                      OutlierDict.timestamp fst snd].
      destruct (timestamp_of_spec timestamps j) as (T1 & T2 & T3).
      repeat split; auto.
Qed.

(** ** Normality and classification *)

(** Case analysis on a comparison, and the step that settles every rule of
    the ladder once the comparisons above it are decided. *)
Ltac case_Rltb a b :=
  let H := fresh "Hcmp" in
  destruct (Rltb a b) eqn:H; [apply Rltb_true in H | apply Rltb_false in H].

Ltac rung :=
  repeat split; try (intros; reflexivity); try (intros; exfalso; tauto); discriminate.

(** C4. [test_normality] returns the p-value 1.0 and [is_normal = false]
    below three points; from three points on it returns the p-value of the
    Shapiro-Wilk test with [is_normal = (p_value > 0.05)] (and [(0.0, false)]
    if the test raises).  [classify_distribution] returns "normal" when
    [p_value > 0.05]; otherwise it returns the first label whose rule holds,
    in the order "approximately_normal", "right_skewed", "left_skewed",
    "heavy_tailed", "light_tailed", and "non_normal" when none does; it does
    not return "unknown". *)
Theorem normality_and_classification (data : list R) :
  ((length data < 3)%nat -> test_normality data = (1.0, false))
  /\ (forall statistic p : R,
        (3 <= length data)%nat -> shapiro data = Ok (statistic, p) ->
        fst (test_normality data) = p
        /\ (snd (test_normality data) = true <-> p > 0.05))
  /\ (forall e : exn,
        (3 <= length data)%nat -> shapiro data = Raise e ->
        test_normality data = (0.0, false))
  /\ (forall p_value : R,
        let skew := stats.skew data in
        let kurtosis := stats.kurtosis data in
        let approx := Rabs skew < 0.5 /\ Rabs kurtosis < 0.5 in
        (p_value > 0.05 -> classify_distribution data p_value = "normal")
        /\ (~ p_value > 0.05 -> approx ->
            classify_distribution data p_value = "approximately_normal")
        /\ (~ p_value > 0.05 -> ~ approx -> skew > 1 ->
            classify_distribution data p_value = "right_skewed")
        /\ (~ p_value > 0.05 -> ~ approx -> ~ skew > 1 -> skew < -1 ->
            classify_distribution data p_value = "left_skewed")
        /\ (~ p_value > 0.05 -> ~ approx -> ~ skew > 1 -> ~ skew < -1 ->
            kurtosis > 3 ->
            classify_distribution data p_value = "heavy_tailed")
        /\ (~ p_value > 0.05 -> ~ approx -> ~ skew > 1 -> ~ skew < -1 ->
            ~ kurtosis > 3 -> kurtosis < -1 ->
            classify_distribution data p_value = "light_tailed")
        /\ (~ p_value > 0.05 -> ~ approx -> ~ skew > 1 -> ~ skew < -1 ->
            ~ kurtosis > 3 -> ~ kurtosis < -1 ->
            classify_distribution data p_value = "non_normal")
        /\ classify_distribution data p_value <> "unknown").
Proof using shapiro.
  split; [|split; [|split]].
  - intros H. unfold test_normality. apply Nat.ltb_lt in H. now rewrite H.
  - intros statistic p H Hs. unfold test_normality.
    apply Nat.ltb_ge in H. rewrite H, Hs. cbn [fst snd].
    split; [reflexivity | apply Rltb_true].
  - intros e H Hs. unfold test_normality.
    apply Nat.ltb_ge in H. now rewrite H, Hs.
  - clear shapiro pearsonr spearmanr float.
    intros p_value skew kurtosis approx. subst skew kurtosis approx.
    unfold classify_distribution.
    case_Rltb 0.05 p_value; [rung|].
    case_Rltb (Rabs (stats.skew data)) 0.5;
      case_Rltb (Rabs (stats.kurtosis data)) 0.5; cbn [andb]; try rung;
      (case_Rltb 1 (stats.skew data); [rung|];
       case_Rltb (stats.skew data) (-1); [rung|];
       case_Rltb 3 (stats.kurtosis data); [rung|];
       case_Rltb (stats.kurtosis data) (-1); rung).
Qed.

(** ** Trends *)

(** The points of [data] at the indices [a], ..., [a + k - 1]. *)
Definition points (data : list R) (a k : nat) : list R :=
  map (fun i => nth i data 0) (seq a k).

Lemma firstn_skipn_points (data : list R) :
  forall a k : nat, (a + k <= length data)%nat ->
    firstn k (skipn a data) = points data a k.
Proof.
  unfold points. induction data as [|x t IH]; intros a k H; simpl in H.
  - assert (a = 0%nat) by lia. assert (k = 0%nat) by lia. subst. reflexivity.
  - destruct a as [|a].
    + cbn [skipn]. destruct k as [|k]; [reflexivity|].
      cbn [firstn seq map nth]. f_equal.
      rewrite <- seq_shift, map_map. cbn [nth].
      rewrite <- (IH 0%nat k) by lia. reflexivity.
    + cbn [skipn]. rewrite IH by lia.
      rewrite <- seq_shift, map_map. reflexivity.
Qed.

Lemma slice_last_30 (data : list R) :
  (30 <= length data)%nat ->
  slice_from_end data 30 0 = points data (length data - 30) 30.
Proof.
  intros H. unfold slice_from_end.
  replace (length data - 0 - (length data - 30))%nat with 30%nat by lia.
  apply firstn_skipn_points. lia.
Qed.

Lemma slice_previous_30 (data : list R) :
  (60 <= length data)%nat ->
  slice_from_end data 60 30 = points data (length data - 60) 30.
Proof.
  intros H. unfold slice_from_end.
  replace (length data - 30 - (length data - 60))%nat with 30%nat by lia.
  apply firstn_skipn_points. lia.
Qed.

(** C5. On a non-empty sample of length [n], [analyze_trends] returns a
    day-over-day change exactly when [n >= 2] and the second-to-last value
    is not zero, and it is then [(last - prev) / prev * 100]; it returns a
    month-over-month change exactly when [n >= 60] and the mean of the
    points [n - 60, n - 30) is not zero, and it is then
    [(recent - prev) / prev * 100] for the mean of the last 30 points and
    that mean; otherwise the field is absent. *)
Theorem trends_period_changes (data : list R) (period_type : string) :
  (1 <= length data)%nat ->
  exists t : Trends.t,
    analyze_trends data period_type = Ok t
    /\ (let n := length data in
        let last := nth (n - 1) data 0 in
        let prev := nth (n - 2) data 0 in
        ((2 <= n)%nat /\ prev <> 0 ->
           Trends.day_over_day_pct t = Some ((last - prev) / prev * 100))
        /\ (~ ((2 <= n)%nat /\ prev <> 0) -> Trends.day_over_day_pct t = None))
    /\ (let n := length data in
        let recent := np.mean (points data (n - 30) 30) in
        let prev := np.mean (points data (n - 60) 30) in
        ((60 <= n)%nat /\ prev <> 0 ->
           Trends.month_over_month_pct t = Some ((recent - prev) / prev * 100))
        /\ (~ ((60 <= n)%nat /\ prev <> 0) -> Trends.month_over_month_pct t = None)).
Proof.
  intros Hn. unfold analyze_trends.
  destruct (length data =? 0)%nat eqn:H0; [apply Nat.eqb_eq in H0; lia|].
  eexists. split; [reflexivity|].
  cbn [Trends.day_over_day_pct Trends.month_over_month_pct]. split.
  - unfold item_from_end.
    destruct (2 <=? length data)%nat eqn:H2;
      [apply Nat.leb_le in H2 | apply Nat.leb_gt in H2].
    + destruct (Reqb (nth (length data - 2) data 0) 0) eqn:Hp;
        [apply Reqb_true in Hp | apply Reqb_false in Hp]; cbn [negb]; split.
      * intros [_ Hne]. contradiction.
      * reflexivity.
      * reflexivity.
      * intros Hno. exfalso. apply Hno. split; assumption.
    + split; [intros [Hge _]; lia | reflexivity].
  - destruct (60 <=? length data)%nat eqn:H60;
      [apply Nat.leb_le in H60 | apply Nat.leb_gt in H60].
    + assert (H30 : (30 <=? length data)%nat = true) by (apply Nat.leb_le; lia).
      rewrite H30, slice_last_30, slice_previous_30 by lia.
      destruct (Reqb (np.mean (points data (length data - 60) 30)) 0) eqn:Hp;
        [apply Reqb_true in Hp | apply Reqb_false in Hp]; cbn [negb]; split.
      * intros [_ Hne]. contradiction.
      * reflexivity.
      * reflexivity.
      * intros Hno. exfalso. apply Hno. split; assumption.
    + destruct (30 <=? length data)%nat; (split; [intros [Hge _]; lia | reflexivity]).
Qed.

(** C6. On a non-empty sample of length [n], [analyze_trends] reports the
    slope and the intercept of the least-squares fit over the indices
    [0 .. n - 1], the forecast [intercept + slope * n], and the direction
    "stable" exactly when [|slope| < 0.01 * mean(data)], otherwise "upward"
    when [slope > 0] and "downward" when [slope <= 0]; with a zero or
    negative mean the direction is never "stable". *)
Theorem trends_forecast_direction (data : list R) (period_type : string) :
  (1 <= length data)%nat ->
  exists t : Trends.t,
    analyze_trends data period_type = Ok t
    /\ (let slope := Trends.regression_slope t in
        let intercept := Trends.regression_intercept t in
        let stable := Rabs slope < 0.01 * np.mean data in
        slope = LinearRegression.coef_ (LinearRegression.fit data)
        /\ intercept = LinearRegression.intercept_ (LinearRegression.fit data)
        /\ Trends.forecast_next_period t = intercept + slope * INR (length data)
        /\ (Trends.trend_direction t = "stable" <-> stable)
        /\ (~ stable -> slope > 0 -> Trends.trend_direction t = "upward")
        /\ (~ stable -> slope <= 0 -> Trends.trend_direction t = "downward")
        /\ (np.mean data <= 0 -> Trends.trend_direction t <> "stable")).
Proof.
  intros Hn. unfold analyze_trends.
  destruct (length data =? 0)%nat eqn:H0; [apply Nat.eqb_eq in H0; lia|].
  eexists. split; [reflexivity|].
  cbn [Trends.regression_slope Trends.regression_intercept Trends.forecast_next_period
       Trends.trend_direction].
  set (slope := LinearRegression.coef_ (LinearRegression.fit data)).
  assert (Hstable : forall d : string,
            (if Rltb (Rabs slope) (0.01 * np.mean data) then "stable" else d) = "stable"
            <-> (Rabs slope < 0.01 * np.mean data \/ d = "stable")).
  { intros d. destruct (Rltb (Rabs slope) (0.01 * np.mean data)) eqn:Hs;
      [apply Rltb_true in Hs | apply Rltb_false in Hs]; split; auto.
    intros [H|H]; [contradiction | exact H]. }
  assert (Hdir : (if Rltb 0 slope then "upward" else "downward") <> "stable")
    by (destruct (Rltb 0 slope); discriminate).
  repeat split.
  - intros H. apply Hstable in H. destruct H as [H|H]; [exact H | contradiction].
  - intros H. apply Hstable. now left.
  - intros Hns Hpos. apply Rltb_false in Hns. rewrite Hns.
    assert (Hp : Rltb 0 slope = true) by (apply Rltb_true; lra). now rewrite Hp.
  - intros Hns Hneg. apply Rltb_false in Hns. rewrite Hns.
    assert (Hp : Rltb 0 slope = false) by (apply Rltb_false; lra). now rewrite Hp.
  - intros Hmean H. apply Hstable in H. destruct H as [H|H]; [|contradiction].
    pose proof (Rabs_pos slope). lra.
Qed.

(** ** Correlations *)

(** The pairs [(names[i], names[j])] with [i < j], in the order the two
    loops visit them. *)
Fixpoint unordered_pairs (names : list string) : list (string * string) :=
  match names with
  | [] => []
  | a :: rest => map (pair a) rest ++ unordered_pairs rest
  end.

Definition pair_key (p : string * string) : string :=
  (fst p ++ "_vs_" ++ snd p)%string.

(** A coefficient and its p-value, with the significance flag. *)
Definition correlation_of (cp : R * R) : Correlation.t :=
  {| Correlation.coefficient := fst cp;
     Correlation.p_value := snd cp;
     Correlation.is_significant := Rltb (snd cp) 0.05 |}.

(** [e] is the entry of the pair [p]: its key is ["{a}_vs_{b}"], and its
    value holds the two correlations of the series of [a] and [b], both cut
    to the length of the shorter one. *)
Definition is_entry (datasets : dict (list R)) (p : string * string)
    (e : string * PairCorrelation.t) : Prop :=
  fst e = pair_key p
  /\ exists (d1 d2 : list R) (pr sr : R * R),
       dict_get datasets (fst p) = Some d1
       /\ dict_get datasets (snd p) = Some d2
       /\ pearsonr (firstn (Nat.min (length d1) (length d2)) d1)
                   (firstn (Nat.min (length d1) (length d2)) d2) = Ok pr
       /\ spearmanr (firstn (Nat.min (length d1) (length d2)) d1)
                    (firstn (Nat.min (length d1) (length d2)) d2) = Ok sr
       /\ snd e = {| PairCorrelation.pearson := correlation_of pr;
                     PairCorrelation.spearman := correlation_of sr |}.

(** Both tests return on the pair [p]. *)
Definition tests_return (datasets : dict (list R)) (p : string * string) : Prop :=
  forall d1 d2 : list R,
    dict_get datasets (fst p) = Some d1 ->
    dict_get datasets (snd p) = Some d2 ->
    is_ok (pearsonr (firstn (Nat.min (length d1) (length d2)) d1)
                    (firstn (Nat.min (length d1) (length d2)) d2)) = true
    /\ is_ok (spearmanr (firstn (Nat.min (length d1) (length d2)) d1)
                        (firstn (Nat.min (length d1) (length d2)) d2)) = true.

(** The pairs of a list, one after the other. *)
Fixpoint run_pairs (datasets : dict (list R)) (pairs : list (string * string))
    (correlations : dict PairCorrelation.t) : result (dict PairCorrelation.t) :=
  match pairs with
  | [] => Ok correlations
  | p :: rest =>
      c <- correlate datasets (fst p) (snd p) correlations ;;
      run_pairs datasets rest c
  end.

Lemma run_pairs_app (datasets : dict (list R)) (ps qs : list (string * string)) :
  forall acc,
    run_pairs datasets (ps ++ qs) acc
    = (c <- run_pairs datasets ps acc ;; run_pairs datasets qs c).
Proof.
  induction ps as [|p ps IH]; intros acc; cbn [run_pairs app bind].
  - reflexivity.
  - destruct (correlate datasets (fst p) (snd p) acc) as [c|e]; cbn [bind].
    + apply IH.
    + reflexivity.
Qed.

Lemma inner_loop_run (datasets : dict (list R)) (name1 : string) (later : list string) :
  forall acc,
    inner_loop datasets name1 later acc
    = run_pairs datasets (map (pair name1) later) acc.
Proof.
  induction later as [|b rest IH]; intros acc; cbn [inner_loop run_pairs map fst snd].
  - reflexivity.
  - destruct (correlate datasets name1 b acc) as [c|e]; cbn [bind]; [apply IH | reflexivity].
Qed.

Lemma outer_loop_run (datasets : dict (list R)) (names : list string) :
  forall acc,
    outer_loop datasets names acc = run_pairs datasets (unordered_pairs names) acc.
Proof.
  induction names as [|a rest IH]; intros acc; cbn [outer_loop unordered_pairs].
  - reflexivity.
  - rewrite run_pairs_app, inner_loop_run.
    destruct (run_pairs datasets (map (pair a) rest) acc) as [c|e]; cbn [bind];
      [apply IH | reflexivity].
Qed.

Lemma dict_set_fresh {V : Type} (d : dict V) (k : string) (v : V) :
  ~ In k (dict_keys d) -> dict_set d k v = d ++ [(k, v)].
Proof.
  induction d as [|[k' v'] t IH]; intros Hk; cbn [dict_set app].
  - reflexivity.
  - cbn [dict_keys map fst In] in Hk.
    destruct (String.eqb k k') eqn:He.
    + apply String.eqb_eq in He. subst. tauto.
    + rewrite IH; [reflexivity | unfold dict_keys; tauto].
Qed.

Lemma dict_get_keys {V : Type} (d : dict V) (k : string) :
  In k (dict_keys d) -> exists v, dict_get d k = Some v.
Proof.
  induction d as [|[k' v'] t IH]; cbn [dict_keys map fst In dict_get]; intros H.
  - contradiction.
  - destruct (String.eqb k k') eqn:He; [eauto|].
    destruct H as [H|H]; [subst; rewrite String.eqb_refl in He; discriminate|].
    apply IH, H.
Qed.

Lemma in_unordered_pairs (names : list string) (p : string * string) :
  In p (unordered_pairs names) -> In (fst p) names /\ In (snd p) names.
Proof.
  induction names as [|a rest IH]; cbn [unordered_pairs]; intros H.
  - contradiction.
  - apply in_app_or in H. destruct H as [H|H].
    + apply in_map_iff in H. destruct H as (b & <- & Hb). cbn [fst snd In]. auto.
    + destruct (IH H). cbn [In]. auto.
Qed.

Lemma correlate_returns (datasets : dict (list R)) (p : string * string)
    (acc : dict PairCorrelation.t) (d1 d2 : list R) (pr sr : R * R) :
  dict_get datasets (fst p) = Some d1 ->
  dict_get datasets (snd p) = Some d2 ->
  pearsonr (firstn (Nat.min (length d1) (length d2)) d1)
           (firstn (Nat.min (length d1) (length d2)) d2) = Ok pr ->
  spearmanr (firstn (Nat.min (length d1) (length d2)) d1)
            (firstn (Nat.min (length d1) (length d2)) d2) = Ok sr ->
  correlate datasets (fst p) (snd p) acc
  = Ok (dict_set acc (pair_key p)
          {| PairCorrelation.pearson := correlation_of pr;
             PairCorrelation.spearman := correlation_of sr |}).
Proof.
  intros Hd1 Hd2 Hpr Hsr. unfold correlate.
  rewrite Hd1, Hd2. cbv zeta. rewrite Hpr, Hsr.
  destruct pr as [pc pp], sr as [sc sp]. reflexivity.
Qed.

Lemma run_pairs_entries (datasets : dict (list R)) (pairs : list (string * string)) :
  forall acc,
    NoDup (dict_keys acc ++ map pair_key pairs) ->
    (forall p, In p pairs -> In (fst p) (dict_keys datasets)
                             /\ In (snd p) (dict_keys datasets)) ->
    (forall p, In p pairs -> tests_return datasets p) ->
    exists entries,
      run_pairs datasets pairs acc = Ok (acc ++ entries)
      /\ Forall2 (is_entry datasets) pairs entries.
Proof.
  induction pairs as [|p rest IH]; intros acc Hnd Hin Hret; cbn [run_pairs].
  - exists []. rewrite app_nil_r. split; [reflexivity | constructor].
  - destruct (Hin p (or_introl eq_refl)) as [Ha Hb].
    destruct (dict_get_keys _ _ Ha) as [d1 Hd1].
    destruct (dict_get_keys _ _ Hb) as [d2 Hd2].
    destruct (Hret p (or_introl eq_refl) d1 d2 Hd1 Hd2) as [Hp Hs].
    destruct (pearsonr _ _) as [pr|] eqn:Hpr; [|discriminate].
    destruct (spearmanr _ _) as [sr|] eqn:Hsr; [|discriminate].
    rewrite (correlate_returns datasets p acc d1 d2 pr sr Hd1 Hd2 Hpr Hsr).
    cbn [bind].
    assert (Hfresh : ~ In (pair_key p) (dict_keys acc)).
    { intros Hk. cbn [map] in Hnd. apply NoDup_remove_2 in Hnd.
      apply Hnd. apply in_or_app. now left. }
    rewrite (dict_set_fresh acc _ _ Hfresh).
    set (entry := (pair_key p,
                   {| PairCorrelation.pearson := correlation_of pr;
                      PairCorrelation.spearman := correlation_of sr |})).
    destruct (IH (acc ++ [entry])) as (entries & Hrun & Hall).
    + unfold dict_keys in *. rewrite map_app. cbn [map fst entry].
      rewrite <- app_assoc. cbn [app]. cbn [map] in Hnd.
      apply NoDup_Add with (a := pair_key p) (l := map fst acc ++ map pair_key rest).
      * apply Add_app.
      * apply NoDup_remove in Hnd. destruct Hnd as [Hnd Hnot].
        constructor; assumption.
    + intros q Hq. apply Hin. now right.
    + intros q Hq. apply Hret. now right.
    + exists (entry :: entries). split.
      * rewrite Hrun, <- app_assoc. reflexivity.
      * constructor; [|exact Hall].
        split; [reflexivity|]. exists d1, d2, pr, sr. auto.
Qed.

Lemma entries_keys (datasets : dict (list R)) (pairs : list (string * string))
    (entries : dict PairCorrelation.t) :
  Forall2 (is_entry datasets) pairs entries ->
  dict_keys entries = map pair_key pairs.
Proof.
  unfold dict_keys. induction 1 as [|p e ps es [Hk _] _ IH]; cbn [map].
  - reflexivity.
  - now rewrite Hk, IH.
Qed.

(** C7, as the code has it. With fewer than two datasets
    [calculate_correlations] returns the empty map.  With two or more, when
    the keys ["{nameA}_vs_{nameB}"] of the unordered pairs are pairwise
    distinct and both tests return on every pair, it returns a map with
    exactly one entry per unordered pair, in the order the pairs are first
    seen, each under its key and holding the Pearson and the Spearman
    coefficient and p-value of the two series cut to the shorter length from
    index 0, each with the flag [p_value < 0.05]. *)
Theorem calculate_correlations_pairs (datasets : dict (list R)) :
  ((length datasets < 2)%nat -> calculate_correlations datasets = Ok [])
  /\ ((2 <= length datasets)%nat ->
      NoDup (map pair_key (unordered_pairs (dict_keys datasets))) ->
      (forall p, In p (unordered_pairs (dict_keys datasets)) -> tests_return datasets p) ->
      exists c : dict PairCorrelation.t,
        calculate_correlations datasets = Ok c
        /\ Forall2 (is_entry datasets) (unordered_pairs (dict_keys datasets)) c
        /\ dict_keys c = map pair_key (unordered_pairs (dict_keys datasets))
        /\ length c = length (unordered_pairs (dict_keys datasets))).
Proof.
  unfold calculate_correlations. split.
  - intros H. apply Nat.ltb_lt in H. now rewrite H.
  - intros H Hnd Hret. apply Nat.ltb_ge in H. rewrite H, outer_loop_run.
    destruct (run_pairs_entries datasets (unordered_pairs (dict_keys datasets)) [])
      as (c & Hrun & Hall).
    + exact Hnd.
    + apply in_unordered_pairs.
    + exact Hret.
    + exists c. cbn [app] in Hrun. split; [exact Hrun|]. split; [exact Hall|].
      split.
      * eapply entries_keys, Hall.
      * symmetry. eapply Forall2_length, Hall.
Qed.

(** ** Validation *)

(** The failure the specification calls [NonFiniteData]. *)
Definition NonFiniteData (e : exn) : Prop :=
  e = NonFiniteData_nan \/ e = NonFiniteData_inf.

Lemma existsb_false_Forall {A : Type} (f : A -> bool) (l : list A) :
  existsb f l = false <-> Forall (fun x => f x = false) l.
Proof.
  induction l as [|x t IH]; cbn [existsb].
  - split; [constructor | reflexivity].
  - rewrite orb_false_iff, IH. split.
    + intros [Hx Ht]. constructor; assumption.
    + intros H. inversion H; subst. split; assumption.
Qed.

Lemma finite_iff (v : pyfloat) : isfinite v = true <-> isnan v = false /\ isinf v = false.
Proof. destruct v; cbn; intuition discriminate. Qed.

Lemma validate_data_ok (values : list pyfloat) :
  validate_data values = Ok tt <->
  (3 <= length values)%nat /\ Forall (fun v => isfinite v = true) values.
Proof.
  unfold validate_data.
  destruct (length values =? 0)%nat eqn:H0;
    [apply Nat.eqb_eq in H0 | apply Nat.eqb_neq in H0].
  { split; [discriminate | intros [H _]; lia]. }
  destruct (length values <? 3)%nat eqn:H3;
    [apply Nat.ltb_lt in H3 | apply Nat.ltb_ge in H3].
  { split; [discriminate | intros [H _]; lia]. }
  destruct (existsb isnan values) eqn:Hnan.
  { split; [discriminate|]. intros [_ Hfin]. exfalso.
    apply existsb_exists in Hnan. destruct Hnan as (v & Hv & Hn).
    rewrite Forall_forall in Hfin. apply Hfin, finite_iff in Hv.
    destruct Hv as [Hv _]. congruence. }
  destruct (existsb isinf values) eqn:Hinf.
  { split; [discriminate|]. intros [_ Hfin]. exfalso.
    apply existsb_exists in Hinf. destruct Hinf as (v & Hv & Hn).
    rewrite Forall_forall in Hfin. apply Hfin, finite_iff in Hv.
    destruct Hv as [_ Hv]. congruence. }
  split; [|reflexivity]. intros _. split; [exact H3|].
  apply existsb_false_Forall in Hnan. apply existsb_false_Forall in Hinf.
  rewrite Forall_forall in *. intros v Hv. apply finite_iff. auto.
Qed.

(** What a returned package was made of. *)
Lemma process_request_inv (self : DataProcessor) (request : GenerateRequest.t)
    (masking_fields : option (list string)) (package : StatisticalPackage.t) :
  process_request self request masking_fields = Ok package ->
  exists (values : list pyfloat) (timestamps : list pyobj) (statistics : Statistics.t)
         (trends : Trends.t) (outliers : list Outlier.t),
    extract_values (GenerateRequest.data request) = Ok (values, timestamps)
    /\ validate_data values = Ok tt
    /\ calculate_descriptive_statistics (map real_of values) = Ok statistics
    /\ analyze_trends (map real_of values) "daily" = Ok trends
    /\ Outlier_all (detect_outliers (engine self) (map real_of values) (Some timestamps))
       = Ok outliers
    /\ package =
       {| StatisticalPackage.statistics := statistics;
          StatisticalPackage.trends := trends;
          StatisticalPackage.correlations := None;
          StatisticalPackage.outliers := outliers;
          StatisticalPackage.distribution_type :=
            classify_distribution (map real_of values)
              (fst (test_normality (map real_of values)));
          StatisticalPackage.normality_test_p_value :=
            fst (test_normality (map real_of values));
          StatisticalPackage.is_normal_distribution :=
            snd (test_normality (map real_of values)) |}.
Proof.
  unfold process_request, try_except. intros H.
  destruct (extract_values (GenerateRequest.data request)) as [[values timestamps]|e]
    eqn:He; cbn [bind] in H; [|destruct e; discriminate].
  destruct (validate_data values) as [[]|e] eqn:Hv; cbn [bind] in H;
    [|destruct e; discriminate].
  destruct (calculate_descriptive_statistics (map real_of values)) as [statistics|e]
    eqn:Hs; cbn [bind] in H; [|destruct e; discriminate].
  destruct (analyze_trends (map real_of values) "daily") as [trends|e] eqn:Ha;
    cbn [bind] in H; [|destruct e; discriminate].
  destruct (Outlier_all _) as [outliers|e] eqn:Ho; cbn [bind] in H;
    [|destruct e; discriminate].
  destruct (test_normality (map real_of values)) as [p_value is_normal] eqn:Ht.
  injection H as <-.
  exists values, timestamps, statistics, trends, outliers.
  rewrite Ht. cbn [fst snd]. repeat split; try assumption; reflexivity.
Qed.

(** A failed validation is the failure of the request. *)
Lemma process_request_invalid (self : DataProcessor) (request : GenerateRequest.t)
    (masking_fields : option (list string)) (values : list pyfloat)
    (timestamps : list pyobj) (e : exn) :
  extract_values (GenerateRequest.data request) = Ok (values, timestamps) ->
  validate_data values = Raise e ->
  process_request self request masking_fields = Raise e.
Proof.
  intros He Hv. unfold process_request, try_except. rewrite He. cbn [bind].
  rewrite Hv. cbn [bind].
  unfold validate_data in Hv.
  repeat match type of Hv with
         | (if ?c then _ else _) = _ => destruct c
         end; try discriminate; injection Hv as <-; reflexivity.
Qed.

(** C8. [validate_data] fails with [EmptyData] on an array of length 0,
    with [InsufficientData] on an array of length 1 or 2, and, from length 3
    on, with [NonFiniteData] when a value is NaN or an infinity; it returns
    without error exactly when there are at least three values and all are
    finite.  A request whose values fail the validation fails with that
    error, and a request that returns a package had at least three values,
    all finite: no statistic is computed below three points. *)
Theorem validate_data_spec (values : list pyfloat) :
  (length values = 0%nat -> validate_data values = Raise EmptyData)
  /\ ((0 < length values < 3)%nat -> validate_data values = Raise InsufficientData)
  /\ (length values = 2%nat -> validate_data values = Raise InsufficientData)
  /\ ((3 <= length values)%nat ->
      (exists v, In v values /\ (v = NaN \/ v = PosInf \/ v = NegInf)) ->
      exists e, validate_data values = Raise e /\ NonFiniteData e)
  /\ (validate_data values = Ok tt <->
      (3 <= length values)%nat /\ Forall (fun v => isfinite v = true) values)
  /\ (forall self request masking_fields timestamps e,
        extract_values (GenerateRequest.data request) = Ok (values, timestamps) ->
        validate_data values = Raise e ->
        process_request self request masking_fields = Raise e)
  /\ (forall self request masking_fields timestamps package,
        extract_values (GenerateRequest.data request) = Ok (values, timestamps) ->
        process_request self request masking_fields = Ok package ->
        (3 <= length values)%nat /\ Forall (fun v => isfinite v = true) values).
Proof.
  assert (Hshort : (0 < length values < 3)%nat ->
                   validate_data values = Raise InsufficientData).
  { intros H. unfold validate_data.
    destruct (length values =? 0)%nat eqn:H0; [apply Nat.eqb_eq in H0; lia|].
    destruct (length values <? 3)%nat eqn:H3; [reflexivity|].
    apply Nat.ltb_ge in H3. lia. }
  split; [|split; [exact Hshort|split; [|split; [|split; [|split]]]]].
  - intros H. unfold validate_data. now rewrite H.
  - intros H. apply Hshort. lia.
  - intros H3 (v & Hv & Hbad). unfold validate_data, NonFiniteData.
    destruct (length values =? 0)%nat eqn:H0; [apply Nat.eqb_eq in H0; lia|].
    destruct (length values <? 3)%nat eqn:Hlt; [apply Nat.ltb_lt in Hlt; lia|].
    destruct (existsb isnan values) eqn:Hnan; [eauto|].
    destruct (existsb isinf values) eqn:Hinf; [eauto|].
    exfalso.
    apply existsb_false_Forall in Hnan. apply existsb_false_Forall in Hinf.
    rewrite Forall_forall in *. specialize (Hnan v Hv). specialize (Hinf v Hv).
    destruct Hbad as [->|[->| ->]]; discriminate.
  - apply validate_data_ok.
  - intros self request masking_fields timestamps e.
    apply process_request_invalid.
  - intros self request masking_fields timestamps package He Hp.
    apply process_request_inv in Hp.
    destruct Hp as (values' & ts' & _ & _ & _ & He' & Hv & _).
    rewrite He in He'. injection He' as <- <-.
    apply validate_data_ok, Hv.
Qed.

(** ** The orchestration *)

Lemma dict_get_set_same {V : Type} (d : dict V) (k : string) (v : V) :
  dict_get (dict_set d k v) k = Some v.
Proof.
  induction d as [|[k' v'] t IH]; cbn [dict_set dict_get].
  - now rewrite String.eqb_refl.
  - destruct (String.eqb k k') eqn:He; cbn [dict_get]; rewrite He; [reflexivity | exact IH].
Qed.

Lemma dict_get_set_other {V : Type} (d : dict V) (k k' : string) (v : V) :
  k' <> k -> dict_get (dict_set d k v) k' = dict_get d k'.
Proof.
  intros Hne. induction d as [|[k0 v0] t IH]; cbn [dict_set dict_get].
  - apply String.eqb_neq in Hne. now rewrite Hne.
  - destruct (String.eqb k k0) eqn:He; cbn [dict_get].
    + apply String.eqb_eq in He. subst k0.
      apply String.eqb_neq in Hne. now rewrite Hne.
    + destruct (String.eqb k' k0); [reflexivity | exact IH].
Qed.

(** The request [process_multi_dataset] builds for a dataset. *)
Definition multi_request (name : string) (data : list pyobj) : GenerateRequest.t :=
  {| GenerateRequest.dataset := name;
     GenerateRequest.period := "multi";
     GenerateRequest.filters := None;
     GenerateRequest.data := data |}.

(** A dataset that fails its validation makes the loop fail, whatever was
    collected before. *)
Lemma multi_loop_invalid (self : DataProcessor) (items : list (string * list pyobj))
    (name : string) (data : list pyobj) (vt : list pyfloat * list pyobj) (e : exn) :
  In (name, data) items ->
  extract_values data = Ok vt ->
  validate_data (fst vt) = Raise e ->
  forall packages dataset_arrays,
    exists e', multi_loop self items packages dataset_arrays = Raise e'.
Proof.
  intros Hin He Hv. induction items as [|[name' data'] rest IH]; [contradiction|].
  intros packages dataset_arrays. cbn [multi_loop].
  destruct Hin as [Heq|Hin].
  - injection Heq as -> ->. rewrite He. cbn [bind]. rewrite Hv. cbn [bind]. eauto.
  - destruct (extract_values data') as [vt'|e1]; cbn [bind]; [|eauto].
    destruct (validate_data (fst vt')) as [[]|e1]; cbn [bind]; [|eauto].
    destruct (GenerateRequest_init name' "multi" data') as [request|e1];
      cbn [bind]; [|eauto].
    destruct (process_request self request None) as [package|e1]; cbn [bind]; [|eauto].
    apply IH, Hin.
Qed.

(** When the loop returns, every dataset has its package. *)
Lemma multi_loop_packages (self : DataProcessor) (items : list (string * list pyobj)) :
  forall packages dataset_arrays packages' dataset_arrays',
    NoDup (map fst items) ->
    multi_loop self items packages dataset_arrays = Ok (packages', dataset_arrays') ->
    (forall name data, In (name, data) items ->
       exists package,
         process_request self (multi_request name data) None = Ok package
         /\ dict_get packages' name = Some package)
    /\ (forall k, ~ In k (map fst items) -> dict_get packages' k = dict_get packages k).
Proof.
  induction items as [|[name' data'] rest IH];
    intros packages dataset_arrays packages' dataset_arrays' Hnd H; cbn [multi_loop] in H.
  - injection H as <- <-. split; [contradiction | reflexivity].
  - destruct (extract_values data') as [vt'|e1]; cbn [bind] in H; [|discriminate].
    destruct (validate_data (fst vt')) as [[]|e1]; cbn [bind] in H; [|discriminate].
    unfold GenerateRequest_init in H.
    destruct ((1 <=? length data')%nat && forallb is_dict data'); cbn [bind] in H;
      [|discriminate].
    fold (multi_request name' data') in H.
    destruct (process_request self (multi_request name' data') None) as [package|e1]
      eqn:Hp; cbn [bind] in H; [|discriminate].
    cbn [map fst] in Hnd. inversion Hnd as [|? ? Hnot Hnd']; subst.
    destruct (IH _ _ _ _ Hnd' H) as [Hall Hframe]. split.
    + intros name data [Heq|Hin].
      * injection Heq as <- <-. exists package. split; [exact Hp|].
        rewrite (Hframe name' Hnot). apply dict_get_set_same.
      * apply Hall, Hin.
    + intros k Hk. cbn [map fst In] in Hk.
      rewrite Hframe by tauto. apply dict_get_set_other.
      intros ->. tauto.
Qed.

(** C9. If the validation of one dataset fails, [process_multi_dataset]
    fails as a whole.  When it returns, every dataset has the package
    [process_request] returns for it.  And [process_request] either fails,
    or returns a package whose every field is the result of its analysis of
    the validated values. *)
Theorem no_partial_results (self : DataProcessor) :
  (forall datasets name data vt e,
     In (name, data) datasets ->
     extract_values data = Ok vt ->
     validate_data (fst vt) = Raise e ->
     exists e', process_multi_dataset self datasets = Raise e')
  /\ (forall datasets r,
        NoDup (dict_keys datasets) ->
        process_multi_dataset self datasets = Ok r ->
        forall name data, In (name, data) datasets ->
          exists package,
            process_request self (multi_request name data) None = Ok package
            /\ dict_get (MultiResult.packages r) name = Some package)
  /\ (forall request masking_fields,
        (exists e, process_request self request masking_fields = Raise e)
        \/ (exists package values timestamps statistics trends outliers,
              process_request self request masking_fields = Ok package
              /\ extract_values (GenerateRequest.data request) = Ok (values, timestamps)
              /\ validate_data values = Ok tt
              /\ calculate_descriptive_statistics (map real_of values) = Ok statistics
              /\ analyze_trends (map real_of values) "daily" = Ok trends
              /\ Outlier_all (detect_outliers (engine self) (map real_of values)
                                (Some timestamps)) = Ok outliers
              /\ StatisticalPackage.statistics package = statistics
              /\ StatisticalPackage.trends package = trends
              /\ StatisticalPackage.correlations package = None
              /\ StatisticalPackage.outliers package = outliers
              /\ StatisticalPackage.distribution_type package
                 = classify_distribution (map real_of values)
                     (fst (test_normality (map real_of values)))
              /\ StatisticalPackage.normality_test_p_value package
                 = fst (test_normality (map real_of values))
              /\ StatisticalPackage.is_normal_distribution package
                 = snd (test_normality (map real_of values)))).
Proof.
  split; [|split].
  - intros datasets name data vt e Hin He Hv. unfold process_multi_dataset.
    destruct (multi_loop_invalid self datasets name data vt e Hin He Hv [] []) as [e' ->].
    cbn [bind]. eauto.
  - intros datasets r Hnd H name data Hin. unfold process_multi_dataset in H.
    destruct (multi_loop self datasets [] []) as [[packages arrays]|e] eqn:Hl;
      cbn [bind] in H; [|discriminate].
    destruct (calculate_correlations (snd (packages, arrays))) as [c|e];
      cbn [bind] in H; [|discriminate].
    injection H as <-. cbn [MultiResult.packages fst].
    destruct (multi_loop_packages self datasets _ _ _ _ Hnd Hl) as [Hall _].
    apply Hall, Hin.
  - intros request masking_fields.
    destruct (process_request self request masking_fields) as [package|e] eqn:Hp;
      [right | left; eauto].
    destruct (process_request_inv _ _ _ _ Hp)
      as (values & timestamps & statistics & trends & outliers
          & He & Hv & Hs & Ha & Ho & ->).
    eexists; exists values, timestamps, statistics, trends, outliers.
    split; [reflexivity|]. cbn. repeat split; assumption.
Qed.

(** C10. The result of [process_request] does not depend on
    [masking_fields]: the values are extracted from the data of the request
    as they are, and [mask_sensitive_fields], which would replace the value
    of a listed field by the redaction marker, is not applied. *)
Theorem masking_fields_ignored (self : DataProcessor) (request : GenerateRequest.t)
    (masking_fields : option (list string)) :
  process_request self request masking_fields = process_request self request None
  /\ (forall package,
        process_request self request masking_fields = Ok package ->
        exists values timestamps,
          extract_values (GenerateRequest.data request) = Ok (values, timestamps)
          /\ calculate_descriptive_statistics (map real_of values)
             = Ok (StatisticalPackage.statistics package))
  /\ (forall (value : pyobj) (field : string),
        mask_sensitive_fields [PyDict [(field, value)]] (Some [field])
        = [PyDict [(field, PyStr "***MASKED***")]]).
Proof.
  split; [reflexivity|]. split.
  - intros package Hp. apply process_request_inv in Hp.
    destruct Hp as (values & timestamps & statistics & trends & outliers
                    & He & _ & Hs & _ & _ & ->).
    exists values, timestamps. cbn [StatisticalPackage.statistics]. auto.
  - intros value field. unfold mask_sensitive_fields, mask_item, dict_mem.
    cbn [map dict_get]. rewrite String.eqb_refl.
    cbn [dict_set]. rewrite String.eqb_refl. reflexivity.
Qed.


(** * Further properties of the processor and the engine *)

(** ** Extraction *)

(** The value [extract_values] reads from a record. *)
Definition record_value (point : pyobj) : pyobj :=
  match point with
  | PyDict d => py_get d "value"
  | _ => point
  end.

(** The timestamp [extract_values] reads from a record. *)
Definition record_timestamp (point : pyobj) : pyobj :=
  match point with
  | PyDict d => py_get d "timestamp"
  | _ => PyNone
  end.

(** One step of the loop of [extract_values], in terms of the value and the
    timestamp of the record. *)
Lemma extract_values_cons (point : pyobj) (rest : list pyobj) :
  extract_values (point :: rest)
  = match record_value point with
    | PyNone => extract_values rest
    | value =>
        match float value with
        | Converted f =>
            vt <- extract_values rest ;;
            Ok (f :: fst vt, record_timestamp point :: snd vt)
        | Rejected => extract_values rest
        | Failed e => Raise e
        end
    end.
Proof.
  cbn [extract_values]. unfold record_value, record_timestamp.
  destruct point as [| | | | | |d]; try reflexivity.
  destruct (py_get d "value"); reflexivity.
Qed.

(** X1. The values and the timestamps come in lockstep, at most one pair per
    record. *)
Theorem extract_values_lockstep (data : list pyobj) :
  forall (values : list pyfloat) (timestamps : list pyobj),
    extract_values data = Ok (values, timestamps) ->
    length values = length timestamps /\ (length values <= length data)%nat.
Proof.
  induction data as [|point rest IH]; intros values timestamps H.
  - cbn in H. injection H as <- <-. split; [reflexivity | apply Nat.le_refl].
  - rewrite extract_values_cons in H.
    assert (Hskip : extract_values rest = Ok (values, timestamps) ->
                    length values = length timestamps
                    /\ (length values <= length (point :: rest))%nat).
    { intros Hr. destruct (IH _ _ Hr). cbn [length]. split; [assumption | lia]. }
    assert (Hconv : forall value, record_value point = value ->
              match float value with
              | Converted f =>
                  vt <- extract_values rest ;;
                  Ok (f :: fst vt, record_timestamp point :: snd vt)
              | Rejected => extract_values rest
              | Failed e => Raise e
              end = Ok (values, timestamps) ->
              length values = length timestamps
              /\ (length values <= length (point :: rest))%nat).
    { intros value _ Hm. destruct (float value) as [f| |e]; [|auto|discriminate].
      destruct (extract_values rest) as [[vs ts]|e]; cbn [bind fst snd] in Hm;
        [|discriminate].
      injection Hm as <- <-. destruct (IH vs ts eq_refl). cbn [length].
      split; lia. }
    destruct (record_value point) eqn:Hv; eauto.
Qed.

(** X2. Extraction of a concatenation is the concatenation of the extractions,
    and fails where the first of them fails. *)
Theorem extract_values_app (data1 data2 : list pyobj) :
  extract_values (data1 ++ data2)
  = (vt1 <- extract_values data1 ;;
     vt2 <- extract_values data2 ;;
     Ok (fst vt1 ++ fst vt2, snd vt1 ++ snd vt2)).
Proof.
  induction data1 as [|point rest IH].
  - cbn [app extract_values bind fst snd].
    destruct (extract_values data2) as [[vs ts]|e]; reflexivity.
  - rewrite <- app_comm_cons, !extract_values_cons, IH.
    assert (Hconv : forall value,
      match float value with
      | Converted f =>
          vt <- (vt1 <- extract_values rest ;;
                 vt2 <- extract_values data2 ;;
                 Ok (fst vt1 ++ fst vt2, snd vt1 ++ snd vt2)) ;;
          Ok (f :: fst vt, record_timestamp point :: snd vt)
      | Rejected =>
          vt1 <- extract_values rest ;;
          vt2 <- extract_values data2 ;;
          Ok (fst vt1 ++ fst vt2, snd vt1 ++ snd vt2)
      | Failed e => Raise e
      end
      = (vt1 <- match float value with
                | Converted f =>
                    vt <- extract_values rest ;;
                    Ok (f :: fst vt, record_timestamp point :: snd vt)
                | Rejected => extract_values rest
                | Failed e => Raise e
                end ;;
         vt2 <- extract_values data2 ;;
         Ok (fst vt1 ++ fst vt2, snd vt1 ++ snd vt2))).
    { intros value. destruct (float value) as [f| |e]; [|reflexivity|reflexivity].
      destruct (extract_values rest) as [[vs ts]|e]; cbn [bind fst snd];
        [|reflexivity].
      destruct (extract_values data2) as [[vs2 ts2]|e]; reflexivity. }
    destruct (record_value point); try apply Hconv. reflexivity.
Qed.

(** X3. A request all of whose records are dropped fails with [EmptyData]. *)
Theorem all_records_dropped (self : DataProcessor) (request : GenerateRequest.t)
    (masking_fields : option (list string)) :
  Forall (fun point => record_value point = PyNone
                       \/ float (record_value point) = Rejected)
         (GenerateRequest.data request) ->
  extract_values (GenerateRequest.data request) = Ok ([], [])
  /\ process_request self request masking_fields = Raise EmptyData.
Proof.
  intros Hall.
  assert (He : extract_values (GenerateRequest.data request) = Ok ([], [])).
  { induction Hall as [|point rest Hp _ IH]; [reflexivity|].
    rewrite extract_values_cons. destruct Hp as [Hp|Hp].
    - rewrite Hp. exact IH.
    - destruct (record_value point); try exact IH; rewrite Hp; exact IH. }
  split; [exact He|].
  apply (process_request_invalid self request masking_fields [] [] EmptyData He).
  reflexivity.
Qed.

(** ** Masking *)

(** The redaction marker. *)
Definition marker : pyobj := PyStr "***MASKED***".

Lemma dict_keys_set_present {V : Type} (d : dict V) (k : string) (v : V) :
  dict_mem d k = true -> dict_keys (dict_set d k v) = dict_keys d.
Proof.
  unfold dict_mem, dict_keys.
  induction d as [|[k' v'] t IH]; cbn [dict_get dict_set map fst]; intros H.
  - discriminate.
  - destruct (String.eqb k k') eqn:He; cbn [map fst]; [reflexivity|].
    f_equal. apply IH, H.
Qed.

Lemma dict_set_same_value {V : Type} (d : dict V) (k : string) (v : V) :
  dict_get d k = Some v -> dict_set d k v = d.
Proof.
  induction d as [|[k' v'] t IH]; cbn [dict_get dict_set]; intros H.
  - discriminate.
  - destruct (String.eqb k k') eqn:He.
    + injection H as ->. reflexivity.
    + f_equal. apply IH, H.
Qed.

(** One field of the loop of [mask_item]. *)
Definition mask_field (item : dict pyobj) (field : string) : dict pyobj :=
  if dict_mem item field then dict_set item field marker else item.

Lemma mask_item_cons (item : dict pyobj) (field : string) (rest : list string) :
  mask_item item (field :: rest) = mask_item (mask_field item field) rest.
Proof. reflexivity. Qed.

Lemma mask_field_keys (item : dict pyobj) (field : string) :
  dict_keys (mask_field item field) = dict_keys item.
Proof.
  unfold mask_field. destruct (dict_mem item field) eqn:H; [|reflexivity].
  apply dict_keys_set_present, H.
Qed.

Lemma mask_field_get (item : dict pyobj) (field k : string) :
  dict_get (mask_field item field) k
  = match dict_get item k with
    | Some v => if String.eqb k field then Some marker else Some v
    | None => None
    end.
Proof.
  unfold mask_field, dict_mem.
  destruct (String.eqb k field) eqn:He.
  - apply String.eqb_eq in He. subst k.
    destruct (dict_get item field) eqn:Hg; [apply dict_get_set_same | exact Hg].
  - apply String.eqb_neq in He.
    destruct (dict_get item field).
    + rewrite dict_get_set_other by exact He. destruct (dict_get item k); reflexivity.
    + destruct (dict_get item k); reflexivity.
Qed.

Lemma mask_item_keys (fields : list string) :
  forall item, dict_keys (mask_item item fields) = dict_keys item.
Proof.
  induction fields as [|f rest IH]; intros item; [reflexivity|].
  rewrite mask_item_cons, IH. apply mask_field_keys.
Qed.

Lemma mask_item_get (fields : list string) (k : string) :
  forall item,
    dict_get (mask_item item fields) k
    = match dict_get item k with
      | Some v => if in_dec string_dec k fields then Some marker else Some v
      | None => None
      end.
Proof.
  induction fields as [|f rest IH]; intros item.
  - cbn [mask_item]. destruct (dict_get item k); reflexivity.
  - rewrite mask_item_cons, IH, mask_field_get.
    destruct (dict_get item k) as [v|]; [|reflexivity].
    destruct (String.eqb k f) eqn:He.
    + apply String.eqb_eq in He. subst f.
      destruct (in_dec string_dec k (k :: rest)) as [_|Hn];
        [|exfalso; apply Hn; now left].
      destruct (in_dec string_dec k rest); reflexivity.
    + apply String.eqb_neq in He.
      destruct (in_dec string_dec k rest) as [Hi|Hi],
               (in_dec string_dec k (f :: rest)) as [Hj|Hj]; try reflexivity.
      * exfalso. apply Hj. now right.
      * exfalso. destruct Hj as [Hj|Hj]; [congruence | contradiction].
Qed.

(** The fields a masking request names ([None] and the empty list name
    none). *)
Definition named_fields (fields_to_mask : option (list string)) : list string :=
  match fields_to_mask with
  | Some fs => fs
  | None => []
  end.

(** What masking does to one record. *)
Definition mask_record (fields : list string) (item : pyobj) : pyobj :=
  match item with
  | PyDict d => PyDict (mask_item d fields)
  | _ => item
  end.

Lemma mask_sensitive_fields_map (data : list pyobj) (fields_to_mask : option (list string)) :
  mask_sensitive_fields data fields_to_mask
  = map (mask_record (named_fields fields_to_mask)) data.
Proof.
  destruct fields_to_mask as [[|f fs]|]; cbn [mask_sensitive_fields named_fields].
  - induction data as [|item rest IH]; [reflexivity|].
    cbn [map]. rewrite <- IH. destruct item; reflexivity.
  - reflexivity.
  - induction data as [|item rest IH]; [reflexivity|].
    cbn [map]. rewrite <- IH. destruct item; reflexivity.
Qed.

(** X4. Masking keeps the number and the order of the records, leaves every
    record that is not a dictionary as it is, and in a dictionary keeps the
    keys in their order, replaces the value of every named field that is
    present by the marker and leaves the other fields as they are; it adds no
    field. *)
Theorem mask_sensitive_fields_spec (data : list pyobj)
    (fields_to_mask : option (list string)) :
  let masked := mask_sensitive_fields data fields_to_mask in
  length masked = length data
  /\ (forall (i : nat) (item : pyobj),
        nth_error data i = Some item -> is_dict item = false ->
        nth_error masked i = Some item)
  /\ (forall (i : nat) (d : dict pyobj),
        nth_error data i = Some (PyDict d) ->
        exists d' : dict pyobj,
          nth_error masked i = Some (PyDict d')
          /\ dict_keys d' = dict_keys d
          /\ (forall k v, dict_get d k = Some v ->
                In k (named_fields fields_to_mask) -> dict_get d' k = Some marker)
          /\ (forall k, ~ In k (named_fields fields_to_mask) ->
                dict_get d' k = dict_get d k)
          /\ (forall k, dict_get d k = None -> dict_get d' k = None)).
Proof.
  intros masked. subst masked. rewrite mask_sensitive_fields_map.
  split; [apply length_map|]. split.
  - intros i item Hi Hd. rewrite nth_error_map, Hi. cbn [option_map].
    destruct item; try reflexivity. discriminate.
  - intros i d Hi. exists (mask_item d (named_fields fields_to_mask)).
    split; [rewrite nth_error_map, Hi; reflexivity|].
    split; [apply mask_item_keys|].
    split; [|split].
    + intros k v Hg Hin. rewrite mask_item_get, Hg.
      destruct (in_dec string_dec k (named_fields fields_to_mask)); [reflexivity|].
      contradiction.
    + intros k Hnot. rewrite mask_item_get.
      destruct (dict_get d k); [|reflexivity].
      destruct (in_dec string_dec k (named_fields fields_to_mask)); [|reflexivity].
      contradiction.
    + intros k Hg. now rewrite mask_item_get, Hg.
Qed.

Lemma mask_item_fixed (fields : list string) :
  forall item,
    (forall f, In f fields -> mask_field item f = item) ->
    mask_item item fields = item.
Proof.
  induction fields as [|f rest IH]; intros item H; [reflexivity|].
  rewrite mask_item_cons, (H f) by now left.
  apply IH. intros g Hg. apply H. now right.
Qed.

Lemma mask_item_idempotent (fields : list string) (item : dict pyobj) :
  mask_item (mask_item item fields) fields = mask_item item fields.
Proof.
  apply mask_item_fixed. intros f Hf. unfold mask_field, dict_mem.
  pose proof (mask_item_get fields f item) as Hg.
  destruct (dict_get item f) as [v|].
  - destruct (in_dec string_dec f fields); [|contradiction].
    rewrite Hg. apply dict_set_same_value, Hg.
  - now rewrite Hg.
Qed.

(** X5. Masking twice with the same fields is masking once. *)
Theorem mask_sensitive_fields_idempotent (data : list pyobj)
    (fields_to_mask : option (list string)) :
  mask_sensitive_fields (mask_sensitive_fields data fields_to_mask) fields_to_mask
  = mask_sensitive_fields data fields_to_mask.
Proof.
  rewrite !mask_sensitive_fields_map, map_map.
  apply map_ext. intros item. destruct item; try reflexivity.
  cbn [mask_record]. f_equal. apply mask_item_idempotent.
Qed.

(** X6. Masking fields other than ["value"] and ["timestamp"] does not change
    what the extraction returns. *)
Theorem masking_preserves_extraction (data : list pyobj)
    (fields_to_mask : option (list string)) :
  ~ In "value" (named_fields fields_to_mask) ->
  ~ In "timestamp" (named_fields fields_to_mask) ->
  extract_values (mask_sensitive_fields data fields_to_mask) = extract_values data.
Proof.
  intros Hv Ht. rewrite mask_sensitive_fields_map.
  induction data as [|point rest IH]; [reflexivity|].
  cbn [map]. rewrite !extract_values_cons, IH.
  assert (Hval : record_value (mask_record (named_fields fields_to_mask) point)
                 = record_value point).
  { destruct point; try reflexivity. cbn [mask_record record_value]. unfold py_get.
    rewrite mask_item_get. destruct (dict_get d "value"); [|reflexivity].
    destruct (in_dec string_dec "value" (named_fields fields_to_mask));
      [contradiction | reflexivity]. }
  assert (Hts : record_timestamp (mask_record (named_fields fields_to_mask) point)
                = record_timestamp point).
  { destruct point; try reflexivity. cbn [mask_record record_timestamp]. unfold py_get.
    rewrite mask_item_get. destruct (dict_get d "timestamp"); [|reflexivity].
    destruct (in_dec string_dec "timestamp" (named_fields fields_to_mask));
      [contradiction | reflexivity]. }
  rewrite Hval, Hts. reflexivity.
Qed.

(** ** Outliers: what a small sample cannot have *)

Lemma sum_permutation (l l' : list R) : Permutation l l' -> np.sum l = np.sum l'.
Proof.
  unfold np.sum. induction 1; cbn [fold_right]; lra.
Qed.

Lemma sum_app (l l' : list R) : np.sum (l ++ l') = np.sum l + np.sum l'.
Proof.
  unfold np.sum. induction l as [|x t IH]; cbn [app fold_right]; [lra | rewrite IH; lra].
Qed.

Lemma sum_map_minus (m : R) (l : list R) :
  np.sum (map (fun x => x - m) l) = np.sum l - INR (length l) * m.
Proof.
  unfold np.sum. induction l as [|x t IH].
  - simpl. lra.
  - cbn [map fold_right]. rewrite IH.
    change (length (x :: t)) with (S (length t)). rewrite S_INR. lra.
Qed.

(** The deviations from the mean sum to zero. *)
Lemma deviations_sum_zero (data : list R) :
  (1 <= length data)%nat ->
  np.sum (map (fun x => x - np.mean data) data) = 0.
Proof.
  intros Hn. rewrite sum_map_minus. unfold np.mean.
  assert (H : 0 < INR (length data)) by (apply lt_0_INR; lia).
  field. lra.
Qed.

Lemma sum_of_products_nonneg (l : list R) : 0 <= np.sum (map (fun a => a * a) l).
Proof.
  unfold np.sum. induction l as [|a t IH]; cbn [map fold_right]; [lra|].
  pose proof (Rle_0_sqr a) as H. unfold Rsqr in H. lra.
Qed.

(** The square of a sum is at most the number of terms times the sum of
    the squares. *)
Lemma square_of_sum (l : list R) :
  np.sum l * np.sum l <= INR (length l) * np.sum (map (fun a => a * a) l).
Proof.
  induction l as [|a t IH].
  - unfold np.sum. simpl. lra.
  - change (np.sum (a :: t)) with (a + np.sum t).
    change (np.sum (map (fun a => a * a) (a :: t)))
      with (a * a + np.sum (map (fun a => a * a) t)).
    change (length (a :: t)) with (S (length t)). rewrite S_INR.
    pose proof (sum_of_products_nonneg t) as HQ.
    pose proof (pos_INR (length t)) as Hk.
    set (k := INR (length t)) in *. set (S := np.sum t) in *.
    set (Q := np.sum (map (fun a => a * a) t)) in *.
    assert (Hcross : 2 * a * S <= k * (a * a) + Q).
    { destruct (Req_dec_T k 0) as [Hk0|Hk0].
      - assert (HS : S * S <= 0) by (rewrite Hk0 in IH; lra).
        assert (HS0 : S = 0) by nra. rewrite HS0, Hk0. lra.
      - assert (Hkpos : 0 < k) by lra.
        apply (Rmult_le_reg_l k); [exact Hkpos|].
        pose proof (Rle_0_sqr (k * a - S)) as Hsq. unfold Rsqr in Hsq. nra. }
    nra.
Qed.

Lemma sum_map_permutation (f : R -> R) (l l' : list R) :
  Permutation l l' -> np.sum (map f l) = np.sum (map f l').
Proof. intros H. apply sum_permutation, Permutation_map, H. Qed.

(** No point lies further from the mean than the sample allows: for a point
    [x] of a sample of [n] points, [n * (x - mean)^2 <= (n - 1) * S], where
    [S] is the sum of the squared deviations. *)
Lemma deviation_bound (data : list R) (x : R) :
  In x data ->
  INR (length data) * ((x - np.mean data) * (x - np.mean data))
  <= (INR (length data) - 1)
     * np.sum (map (fun y => (y - np.mean data) * (y - np.mean data)) data).
Proof.
  intros Hin. set (m := np.mean data).
  destruct (in_split _ _ Hin) as (l1 & l2 & Hsplit).
  assert (Hperm : Permutation data (x :: l1 ++ l2)).
  { rewrite Hsplit. symmetry. apply Permutation_middle. }
  assert (Hlen : length data = S (length (l1 ++ l2))).
  { rewrite (Permutation_length Hperm). reflexivity. }
  assert (Hzero : np.sum (map (fun y => y - m) data) = 0).
  { apply deviations_sum_zero. lia. }
  rewrite (sum_map_permutation _ _ _ Hperm) in Hzero.
  rewrite (sum_map_permutation _ _ _ Hperm).
  cbn [map] in *.
  change (np.sum ((x - m) :: map (fun y => y - m) (l1 ++ l2)))
    with ((x - m) + np.sum (map (fun y => y - m) (l1 ++ l2))) in Hzero.
  change (np.sum ((x - m) * (x - m) :: map (fun y => (y - m) * (y - m)) (l1 ++ l2)))
    with ((x - m) * (x - m) + np.sum (map (fun y => (y - m) * (y - m)) (l1 ++ l2))).
  pose proof (square_of_sum (map (fun y => y - m) (l1 ++ l2))) as Hcs.
  rewrite length_map, map_map in Hcs.
  rewrite Hlen, S_INR.
  set (k := INR (length (l1 ++ l2))) in *.
  set (others := np.sum (map (fun y => y - m) (l1 ++ l2))) in *.
  set (Q := np.sum (map (fun y => (y - m) * (y - m)) (l1 ++ l2))) in *.
  assert (Ho : others = - (x - m)) by lra.
  rewrite Ho in Hcs. nra.
Qed.

(** In a sample of at most ten points no z-score exceeds 3 in absolute
    value. *)
Lemma small_sample_z_score (data : list R) (x : R) :
  (length data <= 10)%nat -> In x data -> np.std data 1 <> 0 ->
  Rabs (z_score_of data x) <= 3.
Proof.
  intros Hlen Hin Hstd.
  pose proof (deviation_bound data x Hin) as Hb.
  pose proof (var_nonneg data 1) as Hv0.
  pose proof (std_nonneg data 1) as Hs0.
  pose proof (std_squared data 1) as Hsq.
  assert (Hspos : 0 < np.std data 1) by lra.
  assert (Hn2 : (2 <= length data)%nat).
  { destruct data as [|a [|b t]]; cbn [length]; try lia.
    - contradiction.
    - exfalso. apply Hstd. unfold np.std, np.var. cbn [length Nat.sub INR].
      unfold Rdiv. rewrite Rinv_0, Rmult_0_r. apply sqrt_0. }
  assert (Hvar : np.sum (map (fun y => (y - np.mean data) * (y - np.mean data)) data)
                 = (INR (length data) - 1) * np.var data 1).
  { unfold np.var. rewrite minus_INR by lia. cbn [INR].
    assert (H2 : 2 <= INR (length data)).
    { apply le_INR in Hn2. replace (INR 2) with 2 in Hn2 by (simpl; lra). exact Hn2. }
    field. lra. }
  rewrite Hvar in Hb.
  assert (HN : 2 <= INR (length data) <= 10).
  { split.
    - apply le_INR in Hn2. replace (INR 2) with 2 in Hn2 by (simpl; lra). exact Hn2.
    - apply le_INR in Hlen. replace (INR 10) with 10 in Hlen
        by (rewrite INR_IZR_INZ; reflexivity). exact Hlen. }
  set (N := INR (length data)) in *. set (v := np.var data 1) in *.
  set (s := np.std data 1) in *. unfold z_score_of. fold s.
  set (d := x - np.mean data) in *.
  assert (Hd : d * d <= 9 * v).
  { assert (Hq : (N - 1) * (N - 1) <= 9 * N) by nra.
    assert (Hm : 0 <= (9 * N - (N - 1) * (N - 1)) * v)
      by (apply Rmult_le_pos; lra).
    assert (H1 : N * (d * d) <= N * (9 * v)) by nra.
    apply (Rmult_le_reg_l N); [lra | exact H1]. }
  assert (Hz : (d / s) * (d / s) <= 9).
  { assert (Heq : (d / s) * (d / s) * (s * s) = d * d) by (field; lra).
    assert (Hss : 0 < s * s) by nra.
    apply (Rmult_le_reg_r (s * s)); [exact Hss|]. rewrite Heq, Hsq. lra. }
  apply Rabs_le. split; nra.
Qed.

(** X7. With the thresholds of [__init__], a sample of at most ten points has no
    outlier, whatever its values. *)
Theorem no_outlier_up_to_ten_points (data : list R) (timestamps : option (list pyobj)) :
  (length data <= 10)%nat ->
  detect_outliers StatisticalEngine_init data timestamps = [].
Proof.
  intros Hlen. unfold detect_outliers.
  destruct (Reqb (np.std data 1) 0) eqn:Hs; [reflexivity|].
  apply Reqb_false in Hs.
  set (f := fun x : R => (x - np.mean data) / np.std data 1).
  destruct (outliers_loop StatisticalEngine_init timestamps 0 (combine data (map f data)))
    as [|o rest] eqn:Hloop; [reflexivity|].
  exfalso.
  assert (Ho : In o (outliers_loop StatisticalEngine_init timestamps 0
                       (combine data (map f data)))) by (rewrite Hloop; now left).
  apply outliers_loop_In in Ho. destruct Ho as (j & Hj & Hthr & _).
  rewrite length_zip_z_scores in Hj.
  rewrite (nth_zip_z_scores data f j Hj) in Hthr. cbn [snd] in Hthr.
  pose proof (small_sample_z_score data (nth j data 0) Hlen (nth_In data 0 Hj) Hs) as Hz.
  unfold z_score_of in Hz. unfold f in Hthr.
  cbn [outlier_threshold StatisticalEngine_init] in Hthr. lra.
Qed.

(** X8. With the thresholds of [__init__], every entry [detect_outliers] returns
    is flagged extreme, and its z-score exceeds 3.0 in absolute value. *)
Theorem every_outlier_is_extreme (data : list R) (timestamps : option (list pyobj)) :
  Forall (fun o => OutlierDict.is_extreme o = true
                   /\ 3.0 < Rabs (OutlierDict.z_score o))
         (detect_outliers StatisticalEngine_init data timestamps).
Proof.
  apply Forall_forall. intros o. unfold detect_outliers.
  destruct (Reqb (np.std data 1) 0); [intros []|].
  intros Ho. apply outliers_loop_In in Ho. destruct Ho as (j & _ & Hthr & ->).
  cbn [entry_of OutlierDict.is_extreme OutlierDict.z_score].
  cbn [outlier_threshold extreme_threshold StatisticalEngine_init] in *.
  split; [apply Rltb_true, Hthr | exact Hthr].
Qed.

(** ** Trends of a straight line *)

(** The series [a, a + b, a + 2 b, ...] of [n] points. *)
Definition progression (a b : R) (n : nat) : list R :=
  map (fun i => a + b * INR i) (seq 0 n).

Lemma sum_map_affine (a b : R) (l : list R) :
  np.sum (map (fun x => a + b * x) l) = a * INR (length l) + b * np.sum l.
Proof.
  unfold np.sum. induction l as [|x t IH].
  - simpl. lra.
  - cbn [map fold_right]. rewrite IH.
    change (length (x :: t)) with (S (length t)). rewrite S_INR. lra.
Qed.

Lemma sum_map_scale (b : R) (g : R -> R) (l : list R) :
  np.sum (map (fun x => b * g x) l) = b * np.sum (map g l).
Proof.
  unfold np.sum. induction l as [|x t IH]; cbn [map fold_right]; [lra | rewrite IH; lra].
Qed.

Lemma sum_map_zero (g : R -> R) (l : list R) :
  (forall x, In x l -> g x = 0) -> np.sum (map g l) = 0.
Proof.
  intros Hg. unfold np.sum.
  induction l as [|x t IH]; cbn [map fold_right]; [reflexivity|].
  rewrite IH, Hg; [lra | now left | intros y Hy; apply Hg; now right].
Qed.

Lemma combine_map_r {A B : Type} (f : A -> B) (l : list A) :
  combine l (map f l) = map (fun x => (x, f x)) l.
Proof. induction l as [|x t IH]; cbn [map combine]; [reflexivity | now rewrite IH]. Qed.

Lemma progression_as_map (a b : R) (n : nat) :
  progression a b n = map (fun x => a + b * x) (map INR (seq 0 n)).
Proof. unfold progression. now rewrite map_map. Qed.

Lemma progression_length (a b : R) (n : nat) : length (progression a b n) = n.
Proof. unfold progression. now rewrite length_map, length_seq. Qed.

Lemma mean_affine (a b : R) (l : list R) :
  (1 <= length l)%nat ->
  np.mean (map (fun x => a + b * x) l) = a + b * np.mean l.
Proof.
  intros Hn. unfold np.mean. rewrite sum_map_affine, length_map.
  assert (H : 0 < INR (length l)) by (apply lt_0_INR; lia).
  field. lra.
Qed.

(** The indices [0 .. n - 1] are not all equal when there are two of them. *)
Lemma indices_spread (n : nat) :
  (2 <= n)%nat ->
  let xs := map INR (seq 0 n) in
  0 < np.sum (map (fun x => (x - np.mean xs) * (x - np.mean xs)) xs).
Proof.
  intros Hn xs. subst xs. set (m := np.mean (map INR (seq 0 n))).
  destruct n as [|[|n]]; try lia.
  cbn [seq map]. unfold np.sum. cbn [fold_right].
  pose proof (sum_squares_nonneg m (map INR (seq 2 n))) as Hrest.
  unfold np.sum in Hrest. cbn [INR].
  pose proof (Rle_0_sqr (0 - m)) as H0. pose proof (Rle_0_sqr (1 - m)) as H1.
  unfold Rsqr in H0, H1.
  destruct (Req_dec_T m 0) as [Hm|Hm]; [rewrite Hm in *; lra|].
  assert (0 < (0 - m) * (0 - m)) by nra. lra.
Qed.

(** The least-squares fit of a straight line is that line. *)
Lemma fit_progression (a b : R) (n : nat) :
  (2 <= n)%nat ->
  LinearRegression.fit (progression a b n) = LinearRegression.mk b a.
Proof.
  intros Hn. unfold LinearRegression.fit.
  rewrite progression_length, progression_as_map.
  set (xs := map INR (seq 0 n)).
  assert (Hlen : (1 <= length xs)%nat).
  { unfold xs. rewrite length_map, length_seq. lia. }
  rewrite (mean_affine a b xs Hlen), combine_map_r, map_map. cbn [fst snd].
  set (m := np.mean xs).
  pose proof (indices_spread n Hn) as Hxx. cbv zeta in Hxx. fold xs m in Hxx.
  set (sxx := np.sum (map (fun x => (x - m) * (x - m)) xs)) in *.
  assert (Hxy : np.sum (map (fun x => (x - m) * (a + b * x - (a + b * m))) xs) = b * sxx).
  { unfold sxx. rewrite <- sum_map_scale. f_equal. apply map_ext. intros x. ring. }
  rewrite Hxy. f_equal; field; lra.
Qed.

(** X9. On the straight line [a + b * i] of at least two points,
    [analyze_trends] finds the slope [b] and the intercept [a], forecasts the
    next point of the line, [a + b * n], and reports the fit as perfect. *)
Theorem trends_of_a_progression (a b : R) (n : nat) (period_type : string) :
  (2 <= n)%nat ->
  exists t : Trends.t,
    analyze_trends (progression a b n) period_type = Ok t
    /\ Trends.regression_slope t = b
    /\ Trends.regression_intercept t = a
    /\ Trends.forecast_next_period t = a + b * INR n
    /\ Trends.r_squared t = 1.
Proof.
  intros Hn. unfold analyze_trends. rewrite progression_length.
  destruct (n =? 0)%nat eqn:H0; [apply Nat.eqb_eq in H0; lia|].
  eexists. split; [reflexivity|].
  cbn [Trends.regression_slope Trends.regression_intercept
       Trends.forecast_next_period Trends.r_squared].
  rewrite (fit_progression a b n Hn).
  cbn [LinearRegression.coef_ LinearRegression.intercept_].
  unfold LinearRegression.predict.
  cbn [LinearRegression.coef_ LinearRegression.intercept_].
  repeat split.
  unfold LinearRegression.score, LinearRegression.predict.
  cbn [LinearRegression.coef_ LinearRegression.intercept_].
  rewrite progression_length, progression_as_map, combine_map_r, map_map.
  cbn [fst snd].
  assert (Hres : np.sum
            (map (fun p : R * R => (snd p - (a + b * fst p)) * (snd p - (a + b * fst p)))
                 (map (fun x : R => (x, a + b * x)) (map INR (seq 0 n)))) = 0).
  { rewrite map_map. apply sum_map_zero. intros x _. cbn [fst snd]. ring. }
  rewrite Hres.
  destruct (Reqb _ 0); [|unfold Rdiv; rewrite Rmult_0_l; lra].
  rewrite (proj2 (Reqb_true 0 0) eq_refl). reflexivity.
Qed.


Lemma progression_constant (c : R) (n : nat) : progression c 0 n = repeat c n.
Proof.
  unfold progression. generalize 0%nat.
  induction n as [|n IH]; intros k; cbn [seq map repeat]; [reflexivity|].
  rewrite IH. f_equal. lra.
Qed.

Lemma sum_repeat (c : R) (n : nat) : np.sum (repeat c n) = INR n * c.
Proof.
  unfold np.sum. induction n as [|n IH].
  - simpl. lra.
  - cbn [repeat fold_right]. rewrite IH, S_INR. lra.
Qed.

Lemma mean_repeat (c : R) (n : nat) : (1 <= n)%nat -> np.mean (repeat c n) = c.
Proof.
  intros Hn. unfold np.mean. rewrite sum_repeat, repeat_length.
  assert (H : 0 < INR n) by (apply lt_0_INR; lia).
  field. lra.
Qed.

(** X10. A constant series of at least two points, all equal to [c]: the
    variance is zero, there is no outlier, the slope is zero, the forecast is
    [c], and the direction is "stable" when [c > 0] and "downward" when
    [c <= 0]. *)
Theorem constant_series (c : R) (n : nat) (period_type : string)
    (timestamps : option (list pyobj)) :
  (2 <= n)%nat ->
  np.var (repeat c n) 1 = 0
  /\ detect_outliers StatisticalEngine_init (repeat c n) timestamps = []
  /\ exists t : Trends.t,
       analyze_trends (repeat c n) period_type = Ok t
       /\ Trends.regression_slope t = 0
       /\ Trends.forecast_next_period t = c
       /\ (0 < c -> Trends.trend_direction t = "stable")
       /\ (c <= 0 -> Trends.trend_direction t = "downward").
Proof.
  intros Hn.
  assert (Hvar : np.var (repeat c n) 1 = 0).
  { unfold np.var. rewrite mean_repeat by lia.
    rewrite (sum_map_zero (fun x => (x - c) * (x - c))).
    - unfold Rdiv. apply Rmult_0_l.
    - intros x Hx. apply repeat_spec in Hx. subst x. ring. }
  split; [exact Hvar|]. split.
  - unfold detect_outliers.
    rewrite (proj2 (Reqb_true _ _) (proj2 (std_zero_iff _ _) Hvar)). reflexivity.
  - unfold analyze_trends. rewrite repeat_length.
    destruct (n =? 0)%nat eqn:H0; [apply Nat.eqb_eq in H0; lia|].
    eexists. split; [reflexivity|].
    cbn [Trends.regression_slope Trends.forecast_next_period Trends.trend_direction].
    rewrite <- progression_constant, (fit_progression c 0 n Hn).
    unfold LinearRegression.predict.
    cbn [LinearRegression.coef_ LinearRegression.intercept_].
    rewrite progression_constant, mean_repeat by lia.
    rewrite Rabs_R0.
    split; [reflexivity|]. split; [lra|]. split.
    + intros Hc. rewrite (proj2 (Rltb_true 0 (0.01 * c))) by lra. reflexivity.
    + intros Hc. rewrite (proj2 (Rltb_false 0 (0.01 * c))) by lra.
      rewrite (proj2 (Rltb_false 0 0)) by lra. reflexivity.
Qed.

(** ** Descriptive statistics: bounds and order independence *)




(** Two sorted lists with the same elements are equal. *)
Lemma sorted_permutation_eq (l1 : list R) :
  forall l2 : list R,
    StronglySorted Rle l1 -> StronglySorted Rle l2 -> Permutation l1 l2 -> l1 = l2.
Proof.
  induction l1 as [|a t IH]; intros l2 H1 H2 Hp.
  - apply Permutation_nil in Hp. now subst.
  - destruct l2 as [|b u]; [apply Permutation_sym, Permutation_nil in Hp; discriminate|].
    inversion H1 as [|? ? Ht Ha]; subst. inversion H2 as [|? ? Hu Hb]; subst.
    rewrite Forall_forall in Ha, Hb.
    assert (Hab : a = b).
    { assert (Hin_b : In b (a :: t))
        by (apply (Permutation_in _ (Permutation_sym Hp)); now left).
      assert (Hin_a : In a (b :: u)) by (apply (Permutation_in _ Hp); now left).
      destruct Hin_b as [Hb1|Hb1]; [exact Hb1|].
      destruct Hin_a as [Ha1|Ha1]; [now symmetry|].
      apply Rle_antisym; [apply Ha, Hb1 | apply Hb, Ha1]. }
    subst b. f_equal. apply IH; try assumption.
    apply Permutation_cons_inv with (a := a), Hp.
Qed.

Lemma sort_permutation (l l' : list R) : Permutation l l' -> np.sort l = np.sort l'.
Proof.
  intros Hp. apply sorted_permutation_eq; try apply sort_sorted.
  eapply perm_trans; [apply Permutation_sym, sort_perm|].
  eapply perm_trans; [exact Hp | apply sort_perm].
Qed.

Lemma amin_In (x : R) (t : list R) : In (np.amin x t) (x :: t).
Proof.
  unfold np.amin. induction t as [|y t IH]; cbn [fold_right]; [now left|].
  apply Rmin_case.
  - right. now left.
  - destruct IH as [IH|IH]; [left; exact IH | right; right; exact IH].
Qed.

Lemma amax_In (x : R) (t : list R) : In (np.amax x t) (x :: t).
Proof.
  unfold np.amax. induction t as [|y t IH]; cbn [fold_right]; [now left|].
  apply Rmax_case.
  - right. now left.
  - destruct IH as [IH|IH]; [left; exact IH | right; right; exact IH].
Qed.

Lemma amin_permutation (x x' : R) (t t' : list R) :
  Permutation (x :: t) (x' :: t') -> np.amin x t = np.amin x' t'.
Proof.
  intros Hp. apply Rle_antisym.
  - apply amin_le. apply (Permutation_in _ (Permutation_sym Hp)), amin_In.
  - apply amin_le. apply (Permutation_in _ Hp), amin_In.
Qed.

Lemma amax_permutation (x x' : R) (t t' : list R) :
  Permutation (x :: t) (x' :: t') -> np.amax x t = np.amax x' t'.
Proof.
  intros Hp. apply Rle_antisym.
  - apply amax_ge. apply (Permutation_in _ Hp), amax_In.
  - apply amax_ge. apply (Permutation_in _ (Permutation_sym Hp)), amax_In.
Qed.

Lemma mean_permutation (l l' : list R) : Permutation l l' -> np.mean l = np.mean l'.
Proof.
  intros Hp. unfold np.mean.
  now rewrite (sum_permutation _ _ Hp), (Permutation_length Hp).
Qed.

Lemma moment_permutation (k : nat) (l l' : list R) :
  Permutation l l' -> stats.moment k l = stats.moment k l'.
Proof.
  intros Hp. unfold stats.moment.
  rewrite (mean_permutation _ _ Hp), (Permutation_length Hp).
  f_equal. apply sum_map_permutation, Hp.
Qed.

(** X12. The descriptive statistics do not depend on the order of the sample. *)
Theorem descriptive_statistics_permutation (data data' : list R) :
  Permutation data data' ->
  calculate_descriptive_statistics data = calculate_descriptive_statistics data'.
Proof.
  intros Hp.
  destruct data as [|x t], data' as [|x' t'].
  - reflexivity.
  - apply Permutation_nil in Hp. discriminate.
  - apply Permutation_sym, Permutation_nil in Hp. discriminate.
  - unfold calculate_descriptive_statistics.
    assert (Hvar : np.var (x :: t) 1 = np.var (x' :: t') 1).
    { unfold np.var. rewrite (mean_permutation _ _ Hp), (Permutation_length Hp).
      f_equal. apply sum_map_permutation, Hp. }
    assert (Hperc : forall q, np.percentile (x :: t) q = np.percentile (x' :: t') q).
    { intros q. unfold np.percentile.
      now rewrite (sort_permutation _ _ Hp), (Permutation_length Hp). }
    assert (Hmed : np.median (x :: t) = np.median (x' :: t')).
    { unfold np.median. now rewrite (sort_permutation _ _ Hp), (Permutation_length Hp). }
    assert (Hskew : stats.skew (x :: t) = stats.skew (x' :: t')).
    { unfold stats.skew. now rewrite !(moment_permutation _ _ _ Hp). }
    assert (Hkurt : stats.kurtosis (x :: t) = stats.kurtosis (x' :: t')).
    { unfold stats.kurtosis. now rewrite !(moment_permutation _ _ _ Hp). }
    unfold np.std.
    rewrite (mean_permutation _ _ Hp), (Permutation_length Hp), Hvar, !Hperc, Hmed,
            Hskew, Hkurt, (amin_permutation _ _ _ _ Hp), (amax_permutation _ _ _ _ Hp).
    reflexivity.
Qed.

(** ** Several datasets *)

Lemma dict_set_length {V : Type} (d : dict V) (k : string) (v : V) :
  (length (dict_set d k v) <= S (length d))%nat.
Proof.
  induction d as [|[k' v'] t IH]; cbn [dict_set length]; [lia|].
  destruct (String.eqb k k'); cbn [length]; lia.
Qed.

Lemma multi_loop_arrays (self : DataProcessor) (items : list (string * list pyobj)) :
  forall packages dataset_arrays packages' dataset_arrays',
    multi_loop self items packages dataset_arrays = Ok (packages', dataset_arrays') ->
    (length dataset_arrays' <= length dataset_arrays + length items)%nat.
Proof.
  induction items as [|[name data] rest IH];
    intros packages dataset_arrays packages' dataset_arrays' H; cbn [multi_loop] in H.
  - injection H as <- <-. cbn [length]. lia.
  - destruct (extract_values data) as [vt|e]; cbn [bind] in H; [|discriminate].
    destruct (validate_data (fst vt)) as [[]|e]; cbn [bind] in H; [|discriminate].
    destruct (GenerateRequest_init name "multi" data) as [request|e];
      cbn [bind] in H; [|discriminate].
    destruct (process_request self request None) as [package|e]; cbn [bind] in H;
      [|discriminate].
    apply IH in H.
    pose proof (dict_set_length dataset_arrays name (map real_of (fst vt))).
    cbn [length]. lia.
Qed.

(** X13. With fewer than two datasets, a call of [process_multi_dataset] that
    returns has an empty map of cross-correlations; with no dataset at all it
    returns no package either. *)
Theorem single_dataset_has_no_correlation (self : DataProcessor)
    (datasets : dict (list pyobj)) :
  (length datasets < 2)%nat ->
  (forall r, process_multi_dataset self datasets = Ok r ->
             MultiResult.cross_correlations r = [])
  /\ (datasets = [] ->
      process_multi_dataset self datasets
      = Ok {| MultiResult.packages := []; MultiResult.cross_correlations := [] |}).
Proof.
  intros Hlen. split.
  - intros r H. unfold process_multi_dataset in H.
    destruct (multi_loop self datasets [] []) as [[packages arrays]|e] eqn:Hl;
      cbn [bind snd fst] in H; [|discriminate].
    apply multi_loop_arrays in Hl. cbn [length] in Hl.
    unfold calculate_correlations in H.
    assert (Hs : (length arrays <? 2)%nat = true) by (apply Nat.ltb_lt; lia).
    rewrite Hs in H. cbn [bind] in H. injection H as <-. reflexivity.
  - intros ->. reflexivity.
Qed.

(** * The rate limiter *)

(** The list a dictionary of lists holds for a key, empty for a missing key. *)
Definition lookup (d : dict (list Z)) (k : string) : list Z :=
  match dict_get d k with
  | Some l => l
  | None => []
  end.

Lemma lookup_set_same (d : dict (list Z)) (k : string) (l : list Z) :
  lookup (dict_set d k l) k = l.
Proof. unfold lookup. now rewrite dict_get_set_same. Qed.

Lemma lookup_set_other (d : dict (list Z)) (k k' : string) (l : list Z) :
  k' <> k -> lookup (dict_set d k l) k' = lookup d k'.
Proof. intros H. unfold lookup. now rewrite dict_get_set_other. Qed.

Lemma defaultdict_get_fst (d : dict (list Z)) (k : string) :
  fst (defaultdict_get d k) = lookup d k.
Proof. unfold defaultdict_get, lookup. destruct (dict_get d k); reflexivity. Qed.

Lemma defaultdict_get_lookup (d : dict (list Z)) (k k' : string) :
  lookup (snd (defaultdict_get d k)) k' = lookup d k'.
Proof.
  unfold defaultdict_get. destruct (dict_get d k) eqn:Hg; cbn [snd]; [reflexivity|].
  destruct (string_dec k' k) as [->|Hne].
  - rewrite lookup_set_same. unfold lookup. now rewrite Hg.
  - apply lookup_set_other, Hne.
Qed.

Lemma later_than_app (bound : Z) (l l' : list Z) :
  later_than bound (l ++ l') = later_than bound l ++ later_than bound l'.
Proof. apply filter_app. Qed.

Lemma later_than_length_mono (b b' : Z) (l : list Z) :
  (b <= b')%Z -> (length (later_than b' l) <= length (later_than b l))%nat.
Proof.
  intros Hb. unfold later_than. induction l as [|x t IH]; cbn [filter]; [lia|].
  destruct (b' <? x)%Z eqn:H1, (b <? x)%Z eqn:H2; cbn [length]; lia.
Qed.

Lemma later_than_twice (b b' : Z) (l : list Z) :
  (b <= b')%Z -> later_than b' (later_than b l) = later_than b' l.
Proof.
  intros Hb. unfold later_than. induction l as [|x t IH]; cbn [filter]; [reflexivity|].
  destruct (b <? x)%Z eqn:H2; cbn [filter]; rewrite IH; [reflexivity|].
  destruct (b' <? x)%Z eqn:H1; [|reflexivity].
  apply Z.ltb_lt in H1. apply Z.ltb_ge in H2. lia.
Qed.

(** What a call does to the timestamps the limiter holds. *)
Lemma check_rate_limit_stored (enabled : bool) (self : RateLimiter.t)
    (client_key : string) (now : Z) (k : string) :
  let out := check_rate_limit enabled self client_key now in
  RateLimiter.requests_per_minute (snd out) = RateLimiter.requests_per_minute self
  /\ stored_for (snd out) k
     = if enabled
          && negb (RateLimiter.requests_per_minute self
                   <=? Z.of_nat (length (later_than (now - minute)
                                           (stored_for self client_key))))%Z
          && String.eqb k client_key
       then stored_for self client_key ++ [now]
       else stored_for self k.
Proof.
  unfold check_rate_limit. destruct enabled; cbn [negb andb]; [|split; reflexivity].
  change (stored_for self client_key) with (lookup (RateLimiter.requests self) client_key).
  rewrite <- (defaultdict_get_fst (RateLimiter.requests self) client_key).
  pose proof (defaultdict_get_lookup (RateLimiter.requests self) client_key) as Hl.
  destruct (defaultdict_get (RateLimiter.requests self) client_key) as [stored requests].
  cbn [fst snd] in *.
  destruct (RateLimiter.requests_per_minute self
            <=? Z.of_nat (length (later_than (now - minute) stored)))%Z;
    cbn [negb andb snd RateLimiter.requests_per_minute]; (split; [reflexivity|]).
  - unfold stored_for. cbn [RateLimiter.requests]. apply Hl.
  - unfold stored_for. cbn [RateLimiter.requests].
    destruct (String.eqb k client_key) eqn:He.
    + apply String.eqb_eq in He. subst k. apply lookup_set_same.
    + apply String.eqb_neq in He. fold (lookup (dict_set requests client_key (stored ++ [now])) k).
      rewrite lookup_set_other by exact He. apply Hl.
Qed.

(** The result of a call, read off the timestamps of its key. *)
Lemma check_rate_limit_result (self : RateLimiter.t) (client_key : string) (now : Z) :
  fst (check_rate_limit true self client_key now)
  = if (RateLimiter.requests_per_minute self
        <=? Z.of_nat (length (later_than (now - minute)
                                (stored_for self client_key))))%Z
    then Abort too_many_requests
    else Respond true.
Proof.
  unfold check_rate_limit. cbn [negb].
  change (stored_for self client_key) with (lookup (RateLimiter.requests self) client_key).
  rewrite <- (defaultdict_get_fst (RateLimiter.requests self) client_key).
  destruct (defaultdict_get (RateLimiter.requests self) client_key) as [stored requests].
  cbn [fst].
  destruct (RateLimiter.requests_per_minute self
            <=? Z.of_nat (length (later_than (now - minute) stored)))%Z; reflexivity.
Qed.

(** X15. A call either answers [True] or raises the 429 exception; a rejected
    call is not recorded; an accepted one adds its instant to the timestamps
    of its key; and no call changes the timestamps of another key. *)
Theorem check_rate_limit_effect (enabled : bool) (self : RateLimiter.t)
    (client_key : string) (now : Z) :
  let out := check_rate_limit enabled self client_key now in
  (fst out = Respond true \/ fst out = Abort too_many_requests)
  /\ (fst out = Abort too_many_requests ->
      forall k, stored_for (snd out) k = stored_for self k)
  /\ (enabled = true -> fst out = Respond true ->
      stored_for (snd out) client_key = stored_for self client_key ++ [now])
  /\ (forall k, k <> client_key -> stored_for (snd out) k = stored_for self k).
Proof.
  intros out. subst out.
  pose proof (fun k => proj2 (check_rate_limit_stored enabled self client_key now k)) as Hs.
  cbv zeta in Hs.
  destruct enabled.
  - pose proof (check_rate_limit_result self client_key now) as Hr.
    destruct (RateLimiter.requests_per_minute self
              <=? Z.of_nat (length (later_than (now - minute)
                                      (stored_for self client_key))))%Z;
      cbn [negb andb] in Hs; rewrite Hr.
    + split; [now right|]. split; [intros _ k; apply Hs|].
      split; [discriminate|]. intros k _. apply Hs.
    + split; [now left|]. split; [discriminate|].
      split; [intros _ _; rewrite Hs, String.eqb_refl; reflexivity|].
      intros k Hk. rewrite Hs. apply String.eqb_neq in Hk. now rewrite Hk.
  - cbn [andb] in Hs. unfold check_rate_limit at 1 2 3. cbn [negb fst].
    split; [now left|]. split; [discriminate|]. split; [discriminate|].
    intros k _. apply Hs.
Qed.

(** The limiter holds, for every key, no more timestamps of the minute before
    [t] than its limit allows. *)
Definition within_limit (self : RateLimiter.t) (t : Z) : Prop :=
  forall key : string,
    (Z.of_nat (length (later_than (t - minute) (stored_for self key)))
     <= Z.max 0 (RateLimiter.requests_per_minute self))%Z.

Lemma within_limit_later (self : RateLimiter.t) (t t' : Z) :
  (t <= t')%Z -> within_limit self t -> within_limit self t'.
Proof.
  intros Ht H key. specialize (H key).
  pose proof (later_than_length_mono (t - minute) (t' - minute) (stored_for self key)).
  lia.
Qed.

Lemma within_limit_step (self : RateLimiter.t) (client_key : string) (now : Z) :
  within_limit self now ->
  within_limit (snd (check_rate_limit true self client_key now)) now.
Proof.
  intros H key.
  destruct (check_rate_limit_stored true self client_key now key) as [Hlimit Hs].
  cbv zeta in Hlimit, Hs. rewrite Hlimit, Hs. cbn [andb].
  destruct (RateLimiter.requests_per_minute self
            <=? Z.of_nat (length (later_than (now - minute)
                                    (stored_for self client_key))))%Z eqn:Hfull;
    cbn [negb andb]; [apply H|].
  destruct (String.eqb key client_key); [|apply H].
  apply Z.leb_gt in Hfull.
  rewrite later_than_app, length_app. unfold later_than at 2. cbn [filter].
  assert (Hnow : (now - minute <? now)%Z = true) by (apply Z.ltb_lt; unfold minute; lia).
  rewrite Hnow. cbn [length]. lia.
Qed.

Lemma serve_within_limit (calls : list (string * Z)) :
  forall (self : RateLimiter.t) (t0 : Z),
    within_limit self t0 ->
    StronglySorted Z.le (t0 :: map snd calls) ->
    forall t : Z, (t0 <= t)%Z -> (forall c, In c calls -> (snd c <= t)%Z) ->
      within_limit (serve true self calls) t
      /\ RateLimiter.requests_per_minute (serve true self calls)
         = RateLimiter.requests_per_minute self.
Proof.
  induction calls as [|[key now] rest IH]; intros self t0 Hinv Hsorted t Ht Hlast.
  - cbn [serve]. split; [eapply within_limit_later; eassumption | reflexivity].
  - cbn [serve]. cbn [map snd] in Hsorted.
    inversion Hsorted as [|? ? Hs1 Hall]; subst.
    inversion Hall as [|? ? Hnow _]; subst.
    assert (Hnow_t : (now <= t)%Z) by (apply (Hlast (key, now)); now left).
    destruct (IH (snd (check_rate_limit true self key now)) now) with (t := t)
      as [Hinv' Hlimit'].
    + apply within_limit_step. eapply within_limit_later; eassumption.
    + exact Hs1.
    + exact Hnow_t.
    + intros c Hc. apply Hlast. now right.
    + split; [exact Hinv'|]. rewrite Hlimit'.
      apply (check_rate_limit_stored true self key now key).
Qed.

(** X16. Started empty and called at instants that never go back, the limiter
    never holds, for any client, more timestamps of the last minute than
    [requests_per_minute]: a client is accepted at most that many times in
    any minute that ends at the last call or later. *)
Theorem rate_limit_respected (requests_per_minute : Z) (calls : list (string * Z))
    (key : string) (t : Z) :
  StronglySorted Z.le (map snd calls) ->
  (forall c, In c calls -> (snd c <= t)%Z) ->
  (Z.of_nat (length (later_than (t - minute)
                       (stored_for (serve true (RateLimiter_init requests_per_minute) calls)
                                   key)))
   <= Z.max 0 requests_per_minute)%Z.
Proof.
  intros Hsorted Hlast.
  destruct calls as [|[k0 t0] rest].
  - cbn [serve]. unfold stored_for, RateLimiter_init. cbn. lia.
  - assert (Hinit : within_limit (RateLimiter_init requests_per_minute) t0).
    { intros k. unfold stored_for, RateLimiter_init. cbn. lia. }
    assert (Hs : StronglySorted Z.le (t0 :: map snd ((k0, t0) :: rest))).
    { constructor; [exact Hsorted|]. cbn [map snd]. constructor; [lia|].
      inversion Hsorted; assumption. }
    destruct (serve_within_limit ((k0, t0) :: rest) _ t0 Hinit Hs t) as [Hinv Hlimit].
    + apply (Hlast (k0, t0)). now left.
    + exact Hlast.
    + specialize (Hinv key). rewrite Hlimit in Hinv. exact Hinv.
Qed.

(** ** The clean-up task *)

Lemma dict_keys_set {V : Type} (d : dict V) (k : string) (v : V) :
  dict_keys (dict_set d k v)
  = if dict_mem d k then dict_keys d else dict_keys d ++ [k].
Proof.
  unfold dict_mem, dict_keys.
  induction d as [|[k' v'] t IH]; cbn [dict_get dict_set map fst app]; [reflexivity|].
  destruct (String.eqb k k') eqn:He; cbn [map fst]; [reflexivity|].
  rewrite IH. destruct (dict_get t k); reflexivity.
Qed.

Lemma dict_mem_keys {V : Type} (d : dict V) (k : string) :
  dict_mem d k = false -> ~ In k (dict_keys d).
Proof.
  unfold dict_mem. intros H Hin. apply dict_get_keys in Hin.
  destruct Hin as [v Hv]. rewrite Hv in H. discriminate.
Qed.

Lemma dict_set_NoDup {V : Type} (d : dict V) (k : string) (v : V) :
  NoDup (dict_keys d) -> NoDup (dict_keys (dict_set d k v)).
Proof.
  intros H. rewrite dict_keys_set. destruct (dict_mem d k) eqn:Hm; [exact H|].
  apply dict_mem_keys in Hm.
  apply NoDup_Add with (a := k) (l := dict_keys d).
  - rewrite <- (app_nil_r (dict_keys d)) at 1. apply Add_app.
  - constructor; assumption.
Qed.

Lemma dict_del_keys_incl {V : Type} (d : dict V) (k k' : string) :
  In k' (dict_keys (dict_del d k)) -> In k' (dict_keys d).
Proof.
  unfold dict_keys. induction d as [|[k0 v0] t IH]; cbn [dict_del map fst]; [auto|].
  destruct (String.eqb k k0); cbn [map fst In]; [auto|].
  intros [H|H]; [now left | right; apply IH, H].
Qed.

Lemma dict_del_NoDup {V : Type} (d : dict V) (k : string) :
  NoDup (dict_keys d) -> NoDup (dict_keys (dict_del d k)).
Proof.
  unfold dict_keys. induction d as [|[k0 v0] t IH]; cbn [dict_del map fst]; intros H.
  - constructor.
  - inversion H as [|? ? Hnot Ht]; subst.
    destruct (String.eqb k k0); [exact Ht|].
    cbn [map fst]. constructor; [|apply IH, Ht].
    intros Hin. apply Hnot. apply (dict_del_keys_incl t k), Hin.
Qed.

Lemma dict_get_del_same {V : Type} (d : dict V) (k : string) :
  NoDup (dict_keys d) -> dict_get (dict_del d k) k = None.
Proof.
  unfold dict_keys. induction d as [|[k0 v0] t IH]; cbn [dict_del map fst]; intros H.
  - reflexivity.
  - inversion H as [|? ? Hnot Ht]; subst.
    destruct (String.eqb k k0) eqn:He.
    + apply String.eqb_eq in He. subst k0.
      destruct (dict_get t k) eqn:Hg; [|reflexivity].
      exfalso. apply Hnot.
      clear -Hg. induction t as [|[k1 v1] t IH]; [discriminate|].
      cbn [dict_get] in Hg. cbn [map fst In].
      destruct (String.eqb k k1) eqn:He; [left; symmetry; now apply String.eqb_eq|].
      right. apply IH, Hg.
    + cbn [dict_get]. rewrite He. apply IH, Ht.
Qed.

Lemma dict_get_del_other {V : Type} (d : dict V) (k k' : string) :
  k' <> k -> dict_get (dict_del d k) k' = dict_get d k'.
Proof.
  intros Hne. induction d as [|[k0 v0] t IH]; cbn [dict_del dict_get]; [reflexivity|].
  destruct (String.eqb k k0) eqn:He.
  - apply String.eqb_eq in He. subst k0.
    apply String.eqb_neq in Hne. now rewrite Hne.
  - cbn [dict_get]. destruct (String.eqb k' k0); [reflexivity | exact IH].
Qed.

(** One key of the loop of the clean-up: its old timestamps go, and the key
    with them when none is left; the other keys keep theirs. *)
Lemma cleanup_loop_lookup (cutoff : Z) (keys : list string) :
  forall (requests : dict (list Z)) (k : string),
    NoDup (dict_keys requests) ->
    NoDup (dict_keys (cleanup_loop cutoff keys requests))
    /\ lookup (cleanup_loop cutoff keys requests) k
       = if in_dec string_dec k keys
         then later_than cutoff (lookup requests k)
         else lookup requests k.
Proof.
  induction keys as [|key rest IH]; intros requests k Hnd.
  - cbn [cleanup_loop]. split; [exact Hnd | reflexivity].
  - cbn [cleanup_loop].
    pose proof (defaultdict_get_fst requests key) as Hfst.
    pose proof (defaultdict_get_lookup requests key) as Hlk.
    assert (Hnd0 : NoDup (dict_keys (snd (defaultdict_get requests key)))).
    { unfold defaultdict_get. destruct (dict_get requests key); cbn [snd];
        [exact Hnd | apply dict_set_NoDup, Hnd]. }
    destruct (defaultdict_get requests key) as [stored requests0].
    cbn [fst snd] in *. subst stored.
    set (requests1 := dict_set requests0 key (later_than cutoff (lookup requests key))).
    assert (Hnd1 : NoDup (dict_keys requests1)) by (apply dict_set_NoDup, Hnd0).
    assert (Hget1 : dict_get requests1 key = Some (later_than cutoff (lookup requests key)))
      by apply dict_get_set_same.
    unfold defaultdict_get. rewrite Hget1. cbv beta iota zeta.
    set (requests2 := match later_than cutoff (lookup requests key) with
                      | [] => dict_del requests1 key
                      | _ :: _ => requests1
                      end).
    assert (Hnd2 : NoDup (dict_keys requests2)).
    { unfold requests2. destruct (later_than cutoff (lookup requests key));
        [apply dict_del_NoDup, Hnd1 | exact Hnd1]. }
    assert (Hl2 : forall k', lookup requests2 k'
                   = if string_dec k' key
                     then later_than cutoff (lookup requests key)
                     else lookup requests k').
    { intros k'. unfold requests2. destruct (string_dec k' key) as [->|Hne].
      - destruct (later_than cutoff (lookup requests key)) eqn:Hl.
        + unfold lookup at 1. now rewrite dict_get_del_same.
        + unfold requests1. rewrite lookup_set_same. reflexivity.
      - destruct (later_than cutoff (lookup requests key)).
        + unfold lookup at 1. rewrite dict_get_del_other by exact Hne.
          fold (lookup requests1 k'). unfold requests1.
          rewrite lookup_set_other by exact Hne. apply Hlk.
        + unfold requests1. rewrite lookup_set_other by exact Hne. apply Hlk. }
    destruct (IH requests2 k Hnd2) as [Hnd' Hl']. split; [exact Hnd'|].
    rewrite Hl', Hl2.
    destruct (string_dec k key) as [->|Hne].
    + destruct (in_dec string_dec key (key :: rest)) as [_|Hn];
        [|exfalso; apply Hn; now left].
      destruct (in_dec string_dec key rest); [|reflexivity].
      apply later_than_twice, Z.le_refl.
    + destruct (in_dec string_dec k rest) as [Hi|Hi],
               (in_dec string_dec k (key :: rest)) as [Hj|Hj]; try reflexivity.
      * exfalso. apply Hj. now right.
      * exfalso. destruct Hj as [Hj|Hj]; [congruence | contradiction].
Qed.

(** X17. A round of the clean-up keeps, for every key, the timestamps of the
    minute before it and nothing else; it changes the answer of no later
    call. *)
Theorem cleanup_is_not_observable (enabled : bool) (self : RateLimiter.t)
    (cleaned_at now : Z) (client_key : string) :
  NoDup (dict_keys (RateLimiter.requests self)) ->
  (cleaned_at <= now)%Z ->
  (forall k, stored_for (cleanup_old_entries self cleaned_at) k
             = later_than (cleaned_at - minute) (stored_for self k))
  /\ fst (check_rate_limit enabled (cleanup_old_entries self cleaned_at) client_key now)
     = fst (check_rate_limit enabled self client_key now).
Proof.
  intros Hnd Hle.
  assert (Hstored : forall k, stored_for (cleanup_old_entries self cleaned_at) k
                      = later_than (cleaned_at - minute) (stored_for self k)).
  { intros k. unfold stored_for, cleanup_old_entries. cbn [RateLimiter.requests].
    destruct (cleanup_loop_lookup (cleaned_at - minute)
                (dict_keys (RateLimiter.requests self)) (RateLimiter.requests self) k Hnd)
      as [_ Hl].
    unfold lookup in Hl. rewrite Hl.
    destruct (in_dec string_dec k (dict_keys (RateLimiter.requests self))) as [Hin|Hnot];
      [reflexivity|].
    destruct (dict_get (RateLimiter.requests self) k) eqn:Hg; [|reflexivity].
    exfalso. apply Hnot.
    clear -Hg. induction (RateLimiter.requests self) as [|[k1 v1] t IH]; [discriminate|].
    cbn [dict_get] in Hg. cbn [dict_keys map fst In].
    destruct (String.eqb k k1) eqn:He; [left; symmetry; now apply String.eqb_eq|].
    right. apply IH, Hg. }
  split; [exact Hstored|].
  destruct enabled; [|reflexivity].
  rewrite !check_rate_limit_result, Hstored.
  rewrite later_than_twice by lia. reflexivity.
Qed.

(** * The route *)

(** X18. How [generate_statistical_package] answers: a client over its limit gets
    the answer 500 with code E003 (the 429 of the limiter is caught with
    every other exception) and its request is not processed; otherwise the
    package of [process_request] is the answer, a [ValueError] is answered
    400 with its text, and any other exception 500 with E003.  No failure
    has another status than 400 or 500, the masking settings change nothing,
    and the limiter is left as [check_rate_limit] left it. *)
Theorem generate_statistical_package_answers (settings : Settings)
    (limiter : RateLimiter.t) (processor : DataProcessor) (client_key : string)
    (now : Z) (request_data : GenerateRequest.t) :
  let out := generate_statistical_package settings limiter processor client_key now
               request_data in
  let checked := check_rate_limit (rate_limit_enabled settings) limiter client_key now in
  (fst checked = Abort too_many_requests -> fst out = Abort internal_error)
  /\ (fst checked = Respond true ->
      (forall package, process_request processor request_data None = Ok package ->
                       fst out = Respond package)
      /\ (forall msg, process_request processor request_data None = Raise (ValueError msg) ->
                      fst out = Abort (bad_request msg))
      /\ (forall msg, process_request processor request_data None = Raise (OtherError msg) ->
                      fst out = Abort internal_error))
  /\ (forall e, fst out = Abort e -> status_code e = 400%Z \/ status_code e = 500%Z)
  /\ snd out = snd checked.
Proof.
  intros out checked. subst out checked. unfold generate_statistical_package.
  change (process_request processor request_data
            (if data_masking_enabled settings
             then Some (masking_fields_list settings) else None))
    with (process_request processor request_data None).
  destruct (check_rate_limit (rate_limit_enabled settings) limiter client_key now)
    as [[answer|e] limiter'] eqn:Hc; cbn [fst snd].
  - split; [discriminate|].
    destruct (process_request processor request_data None) as [package|[msg|msg]];
      cbn [fst snd]; (split; [|split; [|reflexivity]]).
    + intros _. split; [|split]; try discriminate.
      intros package' Hp. now injection Hp as <-.
    + discriminate.
    + intros _. split; [|split]; try discriminate.
      intros msg' Hp. now injection Hp as <-.
    + intros e He. injection He as <-. now left.
    + intros _. split; [|split]; try discriminate. reflexivity.
    + intros e He. injection He as <-. now right.
  - split; [reflexivity|]. split; [discriminate|]. split; [|reflexivity].
    intros e' He. injection He as <-. now right.
Qed.

(** X19. A request whose values fail the validation is answered 400, with the
    error code E002 and the text of the failure. *)
Theorem validation_failure_is_bad_request (settings : Settings)
    (limiter : RateLimiter.t) (processor : DataProcessor) (client_key : string)
    (now : Z) (request_data : GenerateRequest.t) (values : list pyfloat)
    (timestamps : list pyobj) (e : exn) :
  fst (check_rate_limit (rate_limit_enabled settings) limiter client_key now)
  = Respond true ->
  extract_values (GenerateRequest.data request_data) = Ok (values, timestamps) ->
  validate_data values = Raise e ->
  exists msg : string,
    e = ValueError msg
    /\ fst (generate_statistical_package settings limiter processor client_key now
              request_data)
       = Abort {| status_code := 400; error_code := "E002"; message := msg |}.
Proof.
  intros Hc He Hv.
  pose proof (process_request_invalid processor request_data None values timestamps e
                He Hv) as Hp.
  unfold generate_statistical_package.
  change (process_request processor request_data
            (if data_masking_enabled settings
             then Some (masking_fields_list settings) else None))
    with (process_request processor request_data None).
  destruct (check_rate_limit (rate_limit_enabled settings) limiter client_key now)
    as [[answer|e'] limiter']; cbn [fst] in Hc; [|discriminate].
  rewrite Hp. unfold validate_data in Hv.
  repeat match type of Hv with
         | (if ?c then _ else _) = _ => destruct c
         end; try discriminate; injection Hv as <-;
    eexists; (split; [reflexivity|]); reflexivity.
Qed.

(** * Correlations: failures and size *)

Lemma correlate_length (datasets : dict (list R)) (name1 name2 : string)
    (acc c : dict PairCorrelation.t) :
  correlate datasets name1 name2 acc = Ok c -> (length c <= S (length acc))%nat.
Proof.
  unfold correlate.
  destruct (dict_get datasets name1) as [d1|]; [|destruct (dict_get datasets name2); discriminate].
  destruct (dict_get datasets name2) as [d2|]; [|discriminate].
  cbv zeta.
  destruct (pearsonr _ _) as [[pc pp]|e]; cbn [bind]; [|discriminate].
  destruct (spearmanr _ _) as [[sc sp]|e]; cbn [bind]; [|discriminate].
  intros H. injection H as <-. apply dict_set_length.
Qed.

Lemma run_pairs_length (datasets : dict (list R)) (pairs : list (string * string)) :
  forall acc c,
    run_pairs datasets pairs acc = Ok c ->
    (length c <= length acc + length pairs)%nat.
Proof.
  induction pairs as [|p rest IH]; intros acc c H; cbn [run_pairs] in H.
  - injection H as <-. cbn [length]. lia.
  - destruct (correlate datasets (fst p) (snd p) acc) as [c1|e] eqn:Hc;
      cbn [bind] in H; [|discriminate].
    apply correlate_length in Hc. apply IH in H. cbn [length]. lia.
Qed.

Lemma unordered_pairs_length (names : list string) :
  (2 * length (unordered_pairs names) = length names * (length names - 1))%nat.
Proof.
  induction names as [|a rest IH]; [reflexivity|].
  cbn [unordered_pairs]. rewrite length_app, length_map. cbn [length]. nia.
Qed.

Lemma run_pairs_raises (datasets : dict (list R)) (pairs : list (string * string))
    (p : string * string) :
  In p pairs ->
  (forall acc, exists e, correlate datasets (fst p) (snd p) acc = Raise e) ->
  forall acc, exists e, run_pairs datasets pairs acc = Raise e.
Proof.
  intros Hin Hp. induction pairs as [|q rest IH]; [contradiction|].
  intros acc. cbn [run_pairs]. destruct Hin as [->|Hin].
  - destruct (Hp acc) as [e ->]. cbn [bind]. eauto.
  - destruct (correlate datasets (fst q) (snd q) acc) as [c|e]; cbn [bind]; [|eauto].
    apply IH, Hin.
Qed.

(** X14. The correlation map of [n] datasets has at most [n * (n - 1) / 2]
    entries; and when one of the two tests raises on a pair, the call raises
    and returns no map. *)
Theorem correlations_size_and_failure (datasets : dict (list R)) :
  (forall c, calculate_correlations datasets = Ok c ->
             (2 * length c <= length datasets * (length datasets - 1))%nat)
  /\ (forall (p : string * string) (d1 d2 : list R) (e : exn),
        (2 <= length datasets)%nat ->
        In p (unordered_pairs (dict_keys datasets)) ->
        dict_get datasets (fst p) = Some d1 ->
        dict_get datasets (snd p) = Some d2 ->
        pearsonr (firstn (Nat.min (length d1) (length d2)) d1)
                 (firstn (Nat.min (length d1) (length d2)) d2) = Raise e
        \/ spearmanr (firstn (Nat.min (length d1) (length d2)) d1)
                     (firstn (Nat.min (length d1) (length d2)) d2) = Raise e ->
        exists e', calculate_correlations datasets = Raise e').
Proof.
  unfold calculate_correlations. split.
  - intros c H. destruct (length datasets <? 2)%nat.
    + injection H as <-. cbn [length]. lia.
    + rewrite outer_loop_run in H. apply run_pairs_length in H. cbn [length] in H.
      pose proof (unordered_pairs_length (dict_keys datasets)) as Hp.
      unfold dict_keys in Hp at 2 3. rewrite length_map in Hp. lia.
  - intros p d1 d2 e Hlen Hin Hd1 Hd2 Hraise.
    apply Nat.ltb_ge in Hlen. rewrite Hlen, outer_loop_run.
    apply (run_pairs_raises datasets _ p Hin).
    intros acc. unfold correlate. rewrite Hd1, Hd2. cbv zeta.
    destruct Hraise as [Hr|Hr].
    + rewrite Hr. cbn [bind]. eauto.
    + destruct (pearsonr _ _) as [pr|e1]; cbn [bind]; [|eauto].
      rewrite Hr. cbn [bind]. eauto.
Qed.
End Core.

(** * Examples *)

Lemma mean_123 : np.mean [1; 2; 3] = 2.
Proof. unfold np.mean, np.sum. simpl. lra. Qed.

Lemma var_123 : np.var [1; 2; 3] 1 = 1.
Proof. unfold np.var. rewrite mean_123. unfold np.sum. simpl. lra. Qed.

(** C1 at the sample [1, 2, 3]. *)
Lemma descriptive_statistics_order_witness :
  exists st : Statistics.t,
    calculate_descriptive_statistics [1; 2; 3] = Ok st
    /\ Statistics.count st = 3%Z
    /\ Statistics.min st <= Statistics.q1 st
    /\ Statistics.q1 st <= Statistics.median st
    /\ Statistics.median st <= Statistics.q3 st
    /\ Statistics.q3 st <= Statistics.max st
    /\ Statistics.iqr st = Statistics.q3 st - Statistics.q1 st
    /\ 0 <= Statistics.iqr st
    /\ 0 <= Statistics.std_dev st
    /\ 0 <= Statistics.variance st
    /\ Statistics.variance st = Statistics.std_dev st * Statistics.std_dev st.
Proof.
  assert (Hn : (3 <= length [1; 2; 3])%nat) by (simpl; lia).
  assert (Hv : np.var [1; 2; 3] 1 <> 0) by (rewrite var_123; lra).
  exact (descriptive_statistics_order [1; 2; 3] Hn Hv).
Defined.

(** C2, as the code has it, at the sample [1, 2, 3]. *)
Lemma descriptive_statistics_estimators_witness :
  exists st : Statistics.t,
    calculate_descriptive_statistics [1; 2; 3] = Ok st
    /\ Statistics.variance st = Textbook.sample_variance [1; 2; 3]
    /\ (Statistics.variance st <> 0 ->
        Statistics.variance st <> Textbook.population_variance [1; 2; 3])
    /\ Statistics.std_dev st = sqrt (Textbook.sample_variance [1; 2; 3])
    /\ Statistics.skewness st = Textbook.g1 [1; 2; 3]
    /\ Statistics.kurtosis st = Textbook.g2 [1; 2; 3].
Proof.
  assert (Hn : (3 <= length [1; 2; 3])%nat) by (simpl; lia).
  exact (descriptive_statistics_estimators [1; 2; 3] Hn).
Defined.

Lemma mean_0001 : np.mean [0; 0; 0; 1] = 1 / 4.
Proof. unfold np.mean, np.sum. simpl. lra. Qed.

Lemma moment2_0001 : stats.moment 2 [0; 0; 0; 1] = 3 / 16.
Proof. unfold stats.moment. rewrite mean_0001. unfold np.sum. simpl. lra. Qed.

Lemma moment3_0001 : stats.moment 3 [0; 0; 0; 1] = 3 / 32.
Proof. unfold stats.moment. rewrite mean_0001. unfold np.sum. simpl. lra. Qed.

Lemma moment4_0001 : stats.moment 4 [0; 0; 0; 1] = 21 / 256.
Proof. unfold stats.moment. rewrite mean_0001. unfold np.sum. simpl. lra. Qed.

Lemma kurtosis_0001 : stats.kurtosis [0; 0; 0; 1] = - 2 / 3.
Proof. unfold stats.kurtosis. rewrite moment2_0001, moment4_0001. lra. Qed.

Lemma skew_0001_positive : 0 < stats.skew [0; 0; 0; 1].
Proof.
  unfold stats.skew. rewrite moment2_0001, moment3_0001.
  assert (Hs : 0 < sqrt (3 / 16)) by (apply sqrt_lt_R0; lra).
  apply Rdiv_lt_0_compat; [lra | nra].
Qed.

Lemma sqrt_12_not_2 : sqrt 12 <> 2.
Proof.
  intros H. pose proof (sqrt_sqrt 12 ltac:(lra)) as Hs. rewrite H in Hs. lra.
Qed.

(** C2 as stated fails at the sample [0, 0, 0, 1]: the skewness and the
    kurtosis the engine reports are [g1 = 2 / sqrt 3] and [g2 = - 2 / 3],
    not the bias-adjusted [G1 = sqrt 12 / 2 * g1 = 2] and [G2 = 4]. *)
Lemma skewness_kurtosis_not_bias_adjusted :
  exists st : Statistics.t,
    calculate_descriptive_statistics [0; 0; 0; 1] = Ok st
    /\ (3 <= length [0; 0; 0; 1])%nat
    /\ Statistics.skewness st <> Textbook.G1 [0; 0; 0; 1]
    /\ Statistics.kurtosis st <> Textbook.G2 [0; 0; 0; 1].
Proof.
  eexists. split; [reflexivity|]. split; [simpl; lia|].
  cbn [Statistics.skewness Statistics.kurtosis]. split.
  - unfold Textbook.G1. rewrite <- skew_is_g1.
    pose proof skew_0001_positive as Hpos.
    set (g := stats.skew [0; 0; 0; 1]) in *.
    replace (INR (length [0; 0; 0; 1])) with 4 by (simpl; lra).
    replace (4 * (4 - 1)) with 12 by lra.
    intros H.
    assert (Hs : sqrt 12 = 2) by nra.
    exact (sqrt_12_not_2 Hs).
  - unfold Textbook.G2. rewrite <- kurtosis_is_g2, kurtosis_0001.
    replace (INR (length [0; 0; 0; 1])) with 4 by (simpl; lra).
    lra.
Qed.

(** C7 as stated fails on four datasets named ["a"], ["b_vs_c"], ["a_vs_b"]
    and ["c"]: they make six unordered pairs, but the first pair and the
    last one share the key ["a_vs_b_vs_c"], so whatever the two tests return
    the map has five entries. *)
Lemma correlations_key_collision :
  (2 <= length Example.colliding)%nat
  /\ length (unordered_pairs (dict_keys Example.colliding)) = 6%nat
  /\ pair_key ("a", "b_vs_c") = pair_key ("a_vs_b", "c")
  /\ (forall pearsonr spearmanr c,
        calculate_correlations pearsonr spearmanr Example.colliding = Ok c ->
        length c = 5%nat)
  /\ (exists c,
        calculate_correlations Example.pearsonr Example.spearmanr Example.colliding = Ok c).
Proof.
  split; [simpl; lia|]. split; [reflexivity|]. split; [reflexivity|].
  assert (Hrun : forall pearsonr spearmanr pr sr,
            pearsonr [1; 2; 3] [1; 2; 3] = Ok pr ->
            spearmanr [1; 2; 3] [1; 2; 3] = Ok sr ->
            exists c, calculate_correlations pearsonr spearmanr Example.colliding = Ok c
                      /\ length c = 5%nat).
  { intros pearsonr spearmanr [pc pp] [sc sp] Hp Hs.
    unfold calculate_correlations, Example.colliding.
    cbn [length Nat.ltb Nat.leb dict_keys map fst outer_loop inner_loop].
    unfold correlate.
    cbn [dict_get String.eqb Ascii.eqb Bool.eqb fst snd length Nat.min firstn].
    rewrite Hp, Hs.
    cbn [bind dict_set String.append String.eqb Ascii.eqb Bool.eqb].
    eexists. split; reflexivity. }
  split.
  - intros pearsonr spearmanr c H.
    destruct (pearsonr [1; 2; 3] [1; 2; 3]) as [pr|e] eqn:Hp.
    + destruct (spearmanr [1; 2; 3] [1; 2; 3]) as [sr|e] eqn:Hs.
      * destruct (Hrun pearsonr spearmanr pr sr Hp Hs) as (c' & Hc & Hl).
        rewrite Hc in H. injection H as <-. exact Hl.
      * exfalso. revert H.
        unfold calculate_correlations, Example.colliding.
        cbn [length Nat.ltb Nat.leb dict_keys map fst outer_loop inner_loop].
        unfold correlate.
        cbn [dict_get String.eqb Ascii.eqb Bool.eqb fst snd length Nat.min firstn].
        rewrite Hp, Hs. cbn [bind]. discriminate.
    + exfalso. revert H.
      unfold calculate_correlations, Example.colliding.
      cbn [length Nat.ltb Nat.leb dict_keys map fst outer_loop inner_loop].
      unfold correlate.
      cbn [dict_get String.eqb Ascii.eqb Bool.eqb fst snd length Nat.min firstn].
      rewrite Hp. cbn [bind]. discriminate.
  - destruct (Hrun Example.pearsonr Example.spearmanr (1, 0) (1, 0) eq_refl eq_refl)
      as (c & Hc & _).
    exists c. exact Hc.
Qed.

(** C7, as the code has it, on two datasets of lengths 3 and 4. *)
Lemma calculate_correlations_pairs_witness :
  exists c : dict PairCorrelation.t,
    calculate_correlations Example.pearsonr Example.spearmanr Example.two_series = Ok c
    /\ Forall2 (is_entry Example.pearsonr Example.spearmanr Example.two_series)
               [("x", "y")] c
    /\ dict_keys c = ["x_vs_y"]
    /\ length c = 1%nat.
Proof.
  destruct (calculate_correlations_pairs Example.pearsonr Example.spearmanr
              Example.two_series) as [_ H].
  apply H.
  - simpl. lia.
  - simpl. constructor; [intros [] | constructor].
  - intros p _ d1 d2 _ _. split; reflexivity.
Defined.

Lemma Rabs_1 : Rabs 1 = 1.
Proof. apply Rabs_right. lra. Qed.

Lemma fit_123 :
  LinearRegression.fit [1; 2; 3] = LinearRegression.mk 1 1.
Proof.
  unfold LinearRegression.fit. rewrite mean_123.
  cbn [length seq map].
  assert (Hx : np.mean [INR 0; INR 1; INR 2] = 1)
    by (unfold np.mean, np.sum; simpl; lra).
  rewrite Hx. unfold np.sum. cbn [combine map fold_right fst snd].
  f_equal; simpl; lra.
Qed.

(** C5 at the sample [1, 2, 3]: a day-over-day change of 50 percent, no
    month-over-month change. *)
Lemma trends_period_changes_witness :
  exists t : Trends.t,
    analyze_trends [1; 2; 3] "daily" = Ok t
    /\ Trends.day_over_day_pct t = Some ((3 - 2) / 2 * 100)
    /\ Trends.month_over_month_pct t = None.
Proof.
  assert (Hn : (1 <= length [1; 2; 3])%nat) by (simpl; lia).
  destruct (trends_period_changes [1; 2; 3] "daily" Hn)
    as (t & Ht & [Hday _] & [_ Hmonth]).
  exists t. split; [exact Ht|]. split.
  - apply Hday. simpl. split; [lia | lra].
  - apply Hmonth. simpl. intros [H _]. lia.
Defined.

(** C6 at the sample [1, 2, 3]: slope 1, intercept 1, forecast 4, direction
    "upward". *)
Lemma trends_forecast_direction_witness :
  exists t : Trends.t,
    analyze_trends [1; 2; 3] "daily" = Ok t
    /\ Trends.regression_slope t = 1
    /\ Trends.regression_intercept t = 1
    /\ Trends.forecast_next_period t = 4
    /\ Trends.trend_direction t = "upward".
Proof.
  assert (Hn : (1 <= length [1; 2; 3])%nat) by (simpl; lia).
  destruct (trends_forecast_direction [1; 2; 3] "daily" Hn)
    as (t & Ht & Hslope & Hint & Hfore & _ & Hup & _).
  rewrite fit_123 in Hslope, Hint. cbn [LinearRegression.coef_] in Hslope.
  cbn [LinearRegression.intercept_] in Hint.
  exists t. split; [exact Ht|]. split; [exact Hslope|]. split; [exact Hint|]. split.
  - rewrite Hfore, Hslope, Hint. simpl. lra.
  - apply Hup; rewrite Hslope; [|lra]. rewrite Rabs_1, mean_123. lra.
Defined.

(** Ten zeros and one eleven: the mean is 1 and the sample variance 11. *)
Definition eleven_points : list R := [0; 0; 0; 0; 0; 0; 0; 0; 0; 0; 11].

Lemma mean_eleven : np.mean eleven_points = 1.
Proof. unfold np.mean, np.sum, eleven_points. simpl. lra. Qed.

Lemma std_eleven : np.std eleven_points 1 = sqrt 11.
Proof.
  unfold np.std, np.var. rewrite mean_eleven. f_equal.
  unfold np.sum, eleven_points. simpl. lra.
Qed.

Lemma sqrt_11_bounds : 0 < sqrt 11 < 10 / 3.
Proof.
  assert (H0 : 0 < sqrt 11) by (apply sqrt_lt_R0; lra).
  pose proof (sqrt_sqrt 11 ltac:(lra)) as Hs.
  split; [exact H0 | nra].
Qed.

(** C3 on [eleven_points], without timestamps: the last point, whose
    z-score is [10 / sqrt 11], is reported with its index and no timestamp. *)
Lemma detect_outliers_spec_witness :
  exists o : OutlierDict.t,
    In o (detect_outliers StatisticalEngine_init eleven_points None)
    /\ OutlierDict.index o = 10%Z
    /\ OutlierDict.value o = 11
    /\ OutlierDict.timestamp o = PyNone.
Proof.
  pose proof sqrt_11_bounds as [Hpos Hlt].
  assert (Hstd : np.std eleven_points 1 <> 0) by (rewrite std_eleven; lra).
  destruct (detect_outliers_spec eleven_points None) as [_ H].
  destruct (H Hstd) as (_ & Hiff & Hentry).
  destruct (proj2 (Hiff 10%nat)) as (o & Ho & Hi).
  - split; [unfold eleven_points; simpl; lia|].
    unfold z_score_of. rewrite mean_eleven, std_eleven.
    unfold eleven_points. cbn [nth].
    replace (11 - 1) with 10 by lra.
    assert (Hq : 10 / sqrt 11 * sqrt 11 = 10) by (field; lra).
    assert (Hq0 : 0 < 10 / sqrt 11) by (apply Rdiv_lt_0_compat; lra).
    rewrite Rabs_right by lra. nra.
  - exists o. split; [exact Ho|]. split; [exact Hi|].
    destruct (Hentry o Ho) as (i & _ & Hi' & Hval & _ & _ & Hnone & _).
    rewrite Hi in Hi'. apply (Nat2Z.inj 10 i) in Hi'. subst i.
    split; [exact Hval | apply Hnone; reflexivity].
Defined.

(** C4 with a test that returns the p-value 0.5. *)
Lemma normality_and_classification_witness :
  fst (test_normality Example.shapiro [1; 2; 3]) = 0.5
  /\ snd (test_normality Example.shapiro [1; 2; 3]) = true
  /\ test_normality Example.shapiro [1; 2] = (1.0, false)
  /\ classify_distribution [1; 2; 3] 0.5 = "normal".
Proof.
  destruct (normality_and_classification Example.shapiro [1; 2; 3])
    as (_ & Hp & _ & Hc).
  destruct (normality_and_classification Example.shapiro [1; 2]) as (Hshort & _).
  destruct (Hp 1 0.5) as [Hfst Hsnd]; [simpl; lia | reflexivity|].
  destruct (Hc 0.5) as (Hnormal & _).
  split; [exact Hfst|]. split; [apply Hsnd; lra|].
  split; [apply Hshort; simpl; lia | apply Hnormal; lra].
Defined.

(** C8 on two values, and on three values one of which is NaN. *)
Lemma validate_data_spec_witness :
  validate_data [Finite 1; Finite 2] = Raise InsufficientData
  /\ (exists e, validate_data [Finite 1; NaN; Finite 2] = Raise e /\ NonFiniteData e)
  /\ validate_data [Finite 1; Finite 2; Finite 3] = Ok tt.
Proof.
  destruct (validate_data_spec Example.shapiro Example.float [Finite 1; Finite 2])
    as (_ & _ & Htwo & _).
  destruct (validate_data_spec Example.shapiro Example.float [Finite 1; NaN; Finite 2])
    as (_ & _ & _ & Hnan & _).
  destruct (validate_data_spec Example.shapiro Example.float
              [Finite 1; Finite 2; Finite 3]) as (_ & _ & _ & _ & Hok & _).
  split; [apply Htwo; reflexivity|]. split.
  - apply Hnan; [simpl; lia|]. exists NaN. simpl. auto.
  - apply Hok. split; [simpl; lia | repeat constructor].
Defined.

(** C9 on two datasets, the second of which has two points only. *)
Lemma no_partial_results_witness :
  exists e : exn,
    process_multi_dataset Example.shapiro Example.pearsonr Example.spearmanr
      Example.float DataProcessor_init
      [("good", [Example.point (PyInt 1); Example.point (PyInt 2);
                 Example.point (PyInt 4)]);
       ("bad", [Example.point (PyInt 1); Example.point (PyInt 2)])]
    = Raise e.
Proof.
  destruct (no_partial_results Example.shapiro Example.pearsonr Example.spearmanr
              Example.float DataProcessor_init) as (Hfail & _).
  eapply (Hfail _ "bad" [Example.point (PyInt 1); Example.point (PyInt 2)]
            ([Finite 1; Finite 2], [PyNone; PyNone]) InsufficientData).
  - simpl. right. left. reflexivity.
  - reflexivity.
  - reflexivity.
Defined.

(** * Examples of the further properties *)

(** Three records, the second of which is not a number. *)
Definition three_records : list pyobj :=
  [PyDict [("timestamp", PyStr "2025-01-01"); ("value", PyInt 1)];
   PyStr "n/a";
   PyDict [("value", PyInt 2); ("cpf", PyStr "123")]].

(** The sample of [test_outlier_detection]: ten points, one of them 500. *)
Definition ten_points : list R :=
  [100; 105; 102; 98; 103; 500; 101; 99; 104; 97].

(** The lockstep of values and timestamps on [three_records]. *)
Lemma extract_values_lockstep_witness :
  length [Finite 1; Finite 2] = length [PyStr "2025-01-01"; PyNone]
  /\ (length [Finite 1; Finite 2] <= length three_records)%nat.
Proof.
  exact (extract_values_lockstep Example.float three_records
           [Finite 1; Finite 2] [PyStr "2025-01-01"; PyNone] eq_refl).
Defined.

(** A request with a string and a record without value fails with
    [EmptyData]. *)
Lemma all_records_dropped_witness :
  process_request Example.shapiro Example.float DataProcessor_init
    {| GenerateRequest.dataset := "d"; GenerateRequest.period := "p";
       GenerateRequest.filters := None;
       GenerateRequest.data := [PyStr "abc"; Example.point PyNone] |} None
  = Raise EmptyData.
Proof.
  apply (all_records_dropped Example.shapiro Example.float DataProcessor_init
           {| GenerateRequest.dataset := "d"; GenerateRequest.period := "p";
              GenerateRequest.filters := None;
              GenerateRequest.data := [PyStr "abc"; Example.point PyNone] |} None).
  cbn [GenerateRequest.data]. constructor; [right; reflexivity|].
  constructor; [left; reflexivity | constructor].
Defined.

(** Masking the fields of the default settings leaves the extraction of
    [three_records] as it is. *)
Lemma masking_preserves_extraction_witness :
  extract_values Example.float
    (mask_sensitive_fields three_records (Some ["cpf"; "salario"]))
  = extract_values Example.float three_records.
Proof.
  apply (masking_preserves_extraction Example.float three_records
           (Some ["cpf"; "salario"])).
  - cbn [named_fields In]. intros [H|[H|[]]]; discriminate.
  - cbn [named_fields In]. intros [H|[H|[]]]; discriminate.
Defined.

(** The sample of [test_outlier_detection] has no outlier. *)
Lemma no_outlier_up_to_ten_points_witness :
  detect_outliers StatisticalEngine_init ten_points None = [].
Proof.
  apply (no_outlier_up_to_ten_points ten_points None). cbn [ten_points length]. lia.
Defined.

(** The series 10, 20, ..., 100: slope 10, forecast 110. *)
Lemma trends_of_a_progression_witness :
  exists t : Trends.t,
    analyze_trends (progression 10 10 10) "daily" = Ok t
    /\ Trends.regression_slope t = 10
    /\ Trends.regression_intercept t = 10
    /\ Trends.forecast_next_period t = 10 + 10 * INR 10
    /\ Trends.r_squared t = 1.
Proof.
  apply (trends_of_a_progression 10 10 10 "daily"). lia.
Defined.

(** Three zeros: no outlier, and the direction "downward". *)
Lemma constant_series_witness :
  detect_outliers StatisticalEngine_init (repeat 0 3) None = []
  /\ exists t : Trends.t,
       analyze_trends (repeat 0 3) "daily" = Ok t
       /\ Trends.trend_direction t = "downward".
Proof.
  destruct (constant_series 0 3 "daily" None) as (_ & Hout & t & Ht & _ & _ & _ & Hdown);
    [lia|].
  split; [exact Hout|]. exists t. split; [exact Ht | apply Hdown; lra].
Defined.


(** The statistics of [1, 2, 3] and of [3, 1, 2] are the same. *)
Lemma descriptive_statistics_permutation_witness :
  calculate_descriptive_statistics [1; 2; 3]
  = calculate_descriptive_statistics [3; 1; 2].
Proof.
  apply descriptive_statistics_permutation.
  apply Permutation_sym. exact (Permutation_cons_append [1; 2] 3).
Defined.

(** One dataset: a call that returns has no cross-correlation. *)
Lemma single_dataset_has_no_correlation_witness :
  (forall r,
     process_multi_dataset Example.shapiro Example.pearsonr Example.spearmanr
       Example.float DataProcessor_init
       [("only", [Example.point (PyInt 1); Example.point (PyInt 2);
                  Example.point (PyInt 4)])] = Ok r ->
     MultiResult.cross_correlations r = [])
  /\ process_multi_dataset Example.shapiro Example.pearsonr Example.spearmanr
       Example.float DataProcessor_init []
     = Ok {| MultiResult.packages := []; MultiResult.cross_correlations := [] |}.
Proof.
  split.
  - apply (single_dataset_has_no_correlation Example.shapiro Example.pearsonr
             Example.spearmanr Example.float DataProcessor_init
             [("only", [Example.point (PyInt 1); Example.point (PyInt 2);
                        Example.point (PyInt 4)])]).
    cbn [length]. lia.
  - apply (single_dataset_has_no_correlation Example.shapiro Example.pearsonr
             Example.spearmanr Example.float DataProcessor_init []);
      [cbn [length]; lia | reflexivity].
Defined.

(** A limit of two requests and three calls of one client within a second:
    two timestamps are held. *)
Lemma rate_limit_respected_witness :
  (Z.of_nat (length (later_than (2000000 - minute)
                       (stored_for (serve true (RateLimiter_init 2)
                                      [("u", 0%Z); ("u", 1000000%Z); ("u", 2000000%Z)])
                                   "u")))
   <= Z.max 0 2)%Z.
Proof.
  apply (rate_limit_respected 2 [("u", 0%Z); ("u", 1000000%Z); ("u", 2000000%Z)]
           "u" 2000000).
  - cbn [map snd]. repeat constructor; lia.
  - intros c [<-|[<-|[<-|[]]]]; cbn [snd]; lia.
Defined.

(** A clean-up two minutes after the first of two requests. *)
Lemma cleanup_is_not_observable_witness :
  stored_for (cleanup_old_entries
                (RateLimiter.mk 2 [("u", [0%Z; 100000000%Z])]) 120000000) "u"
  = [100000000%Z]
  /\ fst (check_rate_limit true
            (cleanup_old_entries (RateLimiter.mk 2 [("u", [0%Z; 100000000%Z])]) 120000000)
            "u" 130000000)
     = fst (check_rate_limit true (RateLimiter.mk 2 [("u", [0%Z; 100000000%Z])])
              "u" 130000000).
Proof.
  destruct (cleanup_is_not_observable true (RateLimiter.mk 2 [("u", [0%Z; 100000000%Z])])
              120000000 130000000 "u") as [Hstored Hcheck].
  - cbn. repeat constructor. intros [].
  - lia.
  - split; [rewrite Hstored; reflexivity | exact Hcheck].
Defined.

(** A request with two points is answered 400 with the code E002. *)
Lemma validation_failure_is_bad_request_witness :
  exists msg : string,
    InsufficientData = ValueError msg
    /\ fst (generate_statistical_package Example.shapiro Example.float
              {| rate_limit_enabled := true; data_masking_enabled := true;
                 masking_fields_list := ["cpf"; "salario"] |}
              (RateLimiter_init 500) DataProcessor_init "ip:unknown" 0
              {| GenerateRequest.dataset := "d"; GenerateRequest.period := "p";
                 GenerateRequest.filters := None;
                 GenerateRequest.data := [Example.point (PyInt 1);
                                          Example.point (PyInt 2)] |})
       = Abort {| status_code := 400; error_code := "E002"; message := msg |}.
Proof.
  apply (validation_failure_is_bad_request Example.shapiro Example.float
           {| rate_limit_enabled := true; data_masking_enabled := true;
              masking_fields_list := ["cpf"; "salario"] |}
           (RateLimiter_init 500) DataProcessor_init "ip:unknown" 0
           {| GenerateRequest.dataset := "d"; GenerateRequest.period := "p";
              GenerateRequest.filters := None;
              GenerateRequest.data := [Example.point (PyInt 1);
                                       Example.point (PyInt 2)] |}
           [Finite 1; Finite 2] [PyNone; PyNone] InsufficientData).
  - reflexivity.
  - reflexivity.
  - reflexivity.
Defined.
